(** * Inventra: stock ledger, status deriver, audit engine, reports and
      notification relay of the Express/Mongoose backend.

    The backend handlers are embedded as state-passing functions over a
    [World] holding the five document collections.  A handler runs in a small
    monad with three outcomes: a value, a response already sent by an early
    [return res.status(..).json(..)], or a thrown exception that the
    handler's [catch] turns into a 500 response.  Writes made before an
    exception stay in the world, as they do in the database.

    Conventions of the embedding:
    - JavaScript numbers that hold stock counts, quantities, thresholds,
      prices and timestamps are integers ([Z]): a number with a fraction,
      in a request or in a document, is outside the embedding, and so is
      the rounding of integers beyond 2^53;
    - the [quantity] of a stock request is a number or a string, as the
      handlers accept both; what a string converts to is an input
      ([ToNumber]);
    - identifiers are the strings the handlers compare and print.  The
      [_id] of a stored document and the references between documents
      are ObjectIds, and so is the id of the caller where a handler
      stores it; an id taken from the request is cast by the query that
      uses it, and whether that cast succeeds is an input
      ([isObjectId]);
    - the clock, the ObjectId generator and the locale date format are
      inputs ([Env]); console output is not part of the state. *)

From Stdlib Require Import ZArith List String Ascii Bool Lia Permutation.
From Stdlib Require Import DecimalString.
Import ListNotations.

Local Set Warnings "-register-all".

Local Open Scope string_scope.
Local Open Scope Z_scope.
Local Open Scope list_scope.

(** ** JavaScript values that appear in responses and metadata bags *)

Inductive Json : Type :=
| JNull
| JBool (b : bool)
| JNum (n : Z)
| JStr (s : string)
| JDate (ms : Z)
| JArr (items : list Json)
| JObj (fields : list (string * Json)).

(** [o.k] on a JSON object: the first field named [k]. *)
Definition field (k : string) (o : Json) : option Json :=
  match o with
  | JObj fields =>
      match find (fun kv => fst kv =? k)%string fields with
      | Some kv => Some (snd kv)
      | None => None
      end
  | _ => None
  end.

(** A string-valued path that may hold null. *)
Definition nullable (o : option string) : Json :=
  match o with
  | Some s => JStr s
  | None => JNull
  end.

(** [xs.length] as a number. *)
Definition count {A : Type} (xs : list A) : Z := Z.of_nat (List.length xs).

(** [Number.MAX_SAFE_INTEGER]: up to it the integers and their sums and
    differences are exact. *)
Definition MAX_SAFE_INTEGER : Z := 9007199254740991.

(** Template-literal rendering of an integer number. *)
Definition Number_toString (n : Z) : string :=
  NilZero.string_of_int (Z.to_int n).

(** [xs.includes(x)] on an array of strings. *)
Definition includes (xs : list string) (x : string) : bool :=
  existsb (fun y => y =? x)%string xs.

(** [!s] is false exactly for a present, non-empty string. *)
Definition truthy_string (s : option string) : bool :=
  match s with
  | Some s => negb (s =? "")%string
  | None => false
  end.

Definition is_space (c : ascii) : bool :=
  let n := nat_of_ascii c in
  (Nat.eqb n 32 || (Nat.leb 9 n && Nat.leb n 13))%bool.

Fixpoint trimStart (s : string) : string :=
  match s with
  | String c rest => if is_space c then trimStart rest else s
  | EmptyString => EmptyString
  end.

Fixpoint rev_string (s acc : string) : string :=
  match s with
  | String c rest => rev_string rest (String c acc)
  | EmptyString => acc
  end.

(** The [trim: true] setter of a String path (ASCII white space). *)
Definition trim (s : string) : string :=
  rev_string (trimStart (rev_string (trimStart s) "")) "".

Definition upper_ascii (c : ascii) : ascii :=
  let n := nat_of_ascii c in
  if (Nat.leb 97 n && Nat.leb n 122)%bool then ascii_of_nat (n - 32) else c.

Fixpoint toUpperCase (s : string) : string :=
  match s with
  | String c rest => String (upper_ascii c) (toUpperCase rest)
  | EmptyString => EmptyString
  end.

(** [s.slice(-n)]: the last [n] characters. *)
Definition slice_last (n : nat) (s : string) : string :=
  substring (String.length s - n) n s.

Definition newline : string := String (ascii_of_nat 10) EmptyString.

Fixpoint join (sep : string) (xs : list string) : string :=
  match xs with
  | [] => ""
  | [x] => x
  | x :: rest => (x ++ sep ++ join sep rest)%string
  end.

(** ** Environment of a request *)

Record Env := {
  Date_now : Z;                         (* Date.now() / new Date() *)
  newObjectId : nat -> string;          (* the n-th generated ObjectId *)
  toLocaleDateString : Z -> string;     (* Date.prototype.toLocaleDateString *)
  startOfDay : Z -> Z;                  (* setHours(0, 0, 0, 0) *)
  ToNumber : string -> option Z;        (* Number(s) of a string; None is NaN *)
  isObjectId : string -> bool           (* whether Mongoose casts the string to an ObjectId *)
}.

(** A value of [req.body.quantity]: a JSON number or a JSON string. *)
Inductive JsValue :=
| JsNumber (n : Z)
| JsString (s : string).

(** [!v] is false exactly for a present number other than 0 and a present
    string other than the empty one. *)
Definition truthy_value (v : option JsValue) : bool :=
  match v with
  | Some (JsNumber n) => negb (n =? 0)
  | Some (JsString s) => negb (s =? "")%string
  | None => false
  end.

(** The number a value converts to where JavaScript wants a number; None
    is NaN. *)
Definition toNumber (env : Env) (v : JsValue) : option Z :=
  match v with
  | JsNumber n => Some n
  | JsString s => ToNumber env s
  end.

(** [v <= n]: a comparison with NaN is false. *)
Definition js_le (env : Env) (v : JsValue) (n : Z) : bool :=
  match toNumber env v with
  | Some m => m <=? n
  | None => false
  end.

(** [n < v] *)
Definition js_lt (env : Env) (n : Z) (v : JsValue) : bool :=
  match toNumber env v with
  | Some m => n <? m
  | None => false
  end.

(** [n + v]: the sum when [v] is a number, the concatenation of the
    digits of [n] and [v] when [v] is a string. *)
Definition js_plus (n : Z) (v : JsValue) : JsValue :=
  match v with
  | JsNumber m => JsNumber (n + m)
  | JsString s => JsString (Number_toString n ++ s)
  end.

(** [n - v]: the difference of the numbers; None is NaN. *)
Definition js_minus (env : Env) (n : Z) (v : JsValue) : option Z :=
  match toNumber env v with
  | Some m => Some (n - m)
  | None => None
  end.

(** A value in a template literal. *)
Definition js_toString (v : JsValue) : string :=
  match v with
  | JsNumber n => Number_toString n
  | JsString s => s
  end.

Definition json_of_value (v : JsValue) : Json :=
  match v with
  | JsNumber n => JNum n
  | JsString s => JStr s
  end.

(** A number in a JSON response: NaN is written as null. *)
Definition json_of_number (n : option Z) : Json :=
  match n with
  | Some n => JNum n
  | None => JNull
  end.

Definition quote : string := String (ascii_of_nat 34) EmptyString.

(** The message of the CastError of a query by [_id]. *)
Definition CastError_ObjectId (model value : string) : string :=
  ("Cast to ObjectId failed for value " ++ quote ++ value ++ quote ++
   " (type string) at path " ++ quote ++ "_id" ++ quote ++ " for model " ++
   quote ++ model ++ quote)%string.

(** [req.user], as set by the authentication middleware. *)
Record AuthUser := { userId : string }.

Record Response := { statusCode : Z; json : Json }.

(** ** Sort used for [.sort({path: 1})] and [.sort({path: -1})]

    Documents with equal keys keep their collection order. *)

Section Sorting.
Context {A : Type} (leb : A -> A -> bool).

Fixpoint insert_sorted (x : A) (l : list A) : list A :=
  match l with
  | [] => [x]
  | y :: rest => if leb x y then x :: l else y :: insert_sorted x rest
  end.

Definition sortBy (l : list A) : list A :=
  fold_right insert_sorted [] l.

End Sorting.

(** ** Collections of documents keyed by [_id] *)

Section Collection.
Context {D : Type} (id_of : D -> string).

Definition lookupById (id : string) (c : list D) : option D :=
  find (fun d => id_of d =? id)%string c.

(** Rewrite the first document whose [_id] is [id]. *)
Fixpoint updateOne (id : string) (f : D -> D) (c : list D) : list D :=
  match c with
  | [] => []
  | d :: rest =>
      if (id_of d =? id)%string then f d :: rest
      else d :: updateOne id f rest
  end.

End Collection.

(** ** Schemas *)

(** A failed validation: [(path, message)] pairs, rendered the way a
    Mongoose ValidationError prints them. *)
Definition ValidationErrors := list (string * string).

Definition validationMessage (model : string) (errs : ValidationErrors) : string :=
  (model ++ " validation failed: " ++
   join ", " (map (fun e => fst e ++ ": " ++ snd e) errs))%string.

Definition required_string (path message value : string) : ValidationErrors :=
  if (value =? "")%string then [(path, message)] else [].

Definition min_number (lo : Z) (path message : string) (value : Z) : ValidationErrors :=
  if value <? lo then [(path, message)] else [].

Definition enum_string (enum : list string) (path value : string) : ValidationErrors :=
  if includes enum value then []
  else [(path, ("`" ++ value ++ "` is not a valid enum value for path `" ++ path ++ "`.")%string)].

(** models/Product.js *)
Module productSchema.

Record doc := {
  _id : string;
  name : string;
  sku : string;
  category : string;
  stock : Z;
  price : Z;
  description : option string;
  status : string;
  lowStockThreshold : Z;
  addedBy : option string;
  createdAt : Z;
  updatedAt : Z
}.

Definition status_enum : list string := ["in-stock"; "low-stock"; "out-of-stock"].

Definition set_stock (v : Z) (d : doc) : doc :=
  {| _id := _id d; name := name d; sku := sku d; category := category d;
     stock := v; price := price d; description := description d;
     status := status d; lowStockThreshold := lowStockThreshold d;
     addedBy := addedBy d; createdAt := createdAt d; updatedAt := updatedAt d |}.

Definition set_status (v : string) (d : doc) : doc :=
  {| _id := _id d; name := name d; sku := sku d; category := category d;
     stock := stock d; price := price d; description := description d;
     status := v; lowStockThreshold := lowStockThreshold d;
     addedBy := addedBy d; createdAt := createdAt d; updatedAt := updatedAt d |}.

Definition set_updatedAt (v : Z) (d : doc) : doc :=
  {| _id := _id d; name := name d; sku := sku d; category := category d;
     stock := stock d; price := price d; description := description d;
     status := status d; lowStockThreshold := lowStockThreshold d;
     addedBy := addedBy d; createdAt := createdAt d; updatedAt := v |}.

(** The validators the schema declares: required strings, the two
    minimums and the status enum. *)
Definition validate (d : doc) : ValidationErrors :=
  required_string "name" "Product name is required" (name d) ++
  required_string "sku" "SKU is required" (sku d) ++
  required_string "category" "Category is required" (category d) ++
  min_number 0 "stock" "Stock cannot be negative" (stock d) ++
  min_number 0 "price" "Price cannot be negative" (price d) ++
  enum_string status_enum "status" (status d).

(** [productSchema.pre('save', ...)]: auto-update status based on stock. *)
Definition pre_save (this : doc) : doc :=
  if stock this =? 0 then set_status "out-of-stock" this
  else if stock this <=? lowStockThreshold this then set_status "low-stock" this
  else set_status "in-stock" this.

End productSchema.

(** models/Transaction.js *)
Module transactionSchema.

Record doc := {
  _id : string;
  product : string;
  type : string;
  quantity : Z;
  reference : option string;
  performedBy : string;
  previousStock : Z;
  newStock : Z;
  status : string;
  createdAt : Z;
  updatedAt : Z
}.

Definition type_enum : list string := ["in"; "out"].
Definition status_enum : list string := ["pending"; "completed"; "rejected"].

Definition set_status (v : string) (d : doc) : doc :=
  {| _id := _id d; product := product d; type := type d; quantity := quantity d;
     reference := reference d; performedBy := performedBy d;
     previousStock := previousStock d; newStock := newStock d;
     status := v; createdAt := createdAt d; updatedAt := updatedAt d |}.

Definition set_updatedAt (v : Z) (d : doc) : doc :=
  {| _id := _id d; product := product d; type := type d; quantity := quantity d;
     reference := reference d; performedBy := performedBy d;
     previousStock := previousStock d; newStock := newStock d;
     status := status d; createdAt := createdAt d; updatedAt := v |}.

Definition validate (d : doc) : ValidationErrors :=
  enum_string type_enum "type" (type d) ++
  min_number 1 "quantity" "Quantity must be at least 1" (quantity d) ++
  enum_string status_enum "status" (status d).

End transactionSchema.

(** models/Audit.js *)
Module auditSchema.

(** A finding as the handlers build it: [{ type, message, severity }]. *)
Record discrepancy := { type : string; message : string; severity : string }.

(** An element of a detail's [discrepancies] array as the database holds
    it.  The schema declares the array as
    [[{ type: String, message: String, severity: String }]]; Mongoose
    reads the key [type] as the type of the element, so the path is an
    array of String.  A stored string is what the path can hold; a stored
    object (a finding written past the schema) is not cast to a string. *)
Inductive element :=
| text (s : string)
| object (d : discrepancy).

Record detail := {
  productId : string;
  productName : option string;
  sku : string;
  currentStock : Z;
  detail_status : string;
  detail_discrepancies : list element
}.

Record doc := {
  _id : string;
  title : string;
  date : Z;
  status : string;
  discrepancies : Z;
  discrepancyDetails : list detail;
  notes : string;
  createdBy : string;
  createdAt : Z;
  updatedAt : Z
}.

Definition status_enum : list string := ["scheduled"; "in-progress"; "completed"].

Definition set_status (v : string) (d : doc) : doc :=
  {| _id := _id d; title := title d; date := date d; status := v;
     discrepancies := discrepancies d; discrepancyDetails := discrepancyDetails d;
     notes := notes d; createdBy := createdBy d;
     createdAt := createdAt d; updatedAt := updatedAt d |}.

Definition set_updatedAt (v : Z) (d : doc) : doc :=
  {| _id := _id d; title := title d; date := date d; status := status d;
     discrepancies := discrepancies d; discrepancyDetails := discrepancyDetails d;
     notes := notes d; createdBy := createdBy d;
     createdAt := createdAt d; updatedAt := v |}.

(** The cast of one element of [discrepancyDetails.i.discrepancies] to
    String.  The message is the head of Mongoose's, which goes on to print
    the value. *)
Definition cast_element (i j : nat) (e : element) : ValidationErrors :=
  match e with
  | text _ => []
  | object _ =>
      [(("discrepancyDetails." ++ Number_toString (Z.of_nat i) ++ ".discrepancies." ++
         Number_toString (Z.of_nat j))%string,
        "Cast to [string] failed")]
  end.

Fixpoint cast_elements (i j : nat) (es : list element) : ValidationErrors :=
  match es with
  | [] => []
  | e :: rest => cast_element i j e ++ cast_elements i (S j) rest
  end.

Fixpoint cast_details (i : nat) (ds : list detail) : ValidationErrors :=
  match ds with
  | [] => []
  | d :: rest => cast_elements i 0 (detail_discrepancies d) ++ cast_details (S i) rest
  end.

(** The validation [Audit.create] and [audit.save()] run: the required
    title, the enum of the status, and the casts of the stored findings,
    whose failures Mongoose reports as validation errors. *)
Definition validate (d : doc) : ValidationErrors :=
  required_string "title" "Audit title is required" (title d) ++
  enum_string status_enum "status" (status d) ++
  cast_details 0 (discrepancyDetails d).

End auditSchema.

(** Modelled from the spec: models/User.js is not among the sources.  The
    fields are the ones the handlers read ([_id], [fullName], [email]) and
    the [role] they query on (admin, manager, clerk or auditor). *)
Module userSchema.

Record doc := {
  _id : string;
  fullName : string;
  email : string;
  role : string
}.

End userSchema.

(** Modelled from the spec: models/Notification.js is not among the sources.
    A notification has a recipient, an optional sender, a message, a type
    among reorder, restock, audit and system, an optional related product,
    a metadata bag and an [isRead] flag that starts false. *)
Module notificationSchema.

Record doc := {
  _id : string;
  recipient : string;
  sender : option string;
  message : string;
  type : string;
  relatedProduct : option string;
  metadata : Json;
  isRead : bool;
  createdAt : Z
}.

Definition set_isRead (v : bool) (d : doc) : doc :=
  {| _id := _id d; recipient := recipient d; sender := sender d;
     message := message d; type := type d; relatedProduct := relatedProduct d;
     metadata := metadata d; isRead := v; createdAt := createdAt d |}.

Definition toJSON (d : doc) : Json :=
  JObj [("_id", JStr (_id d));
        ("recipient", JStr (recipient d));
        ("sender", nullable (sender d));
        ("message", JStr (message d));
        ("type", JStr (type d));
        ("relatedProduct", nullable (relatedProduct d));
        ("metadata", metadata d);
        ("isRead", JBool (isRead d));
        ("createdAt", JDate (createdAt d))].

End notificationSchema.

(** ** The database and the handler monad *)

Record World := {
  products : list productSchema.doc;
  transactions : list transactionSchema.doc;
  audits : list auditSchema.doc;
  users : list userSchema.doc;
  notifications : list notificationSchema.doc;
  objectIds : nat                        (* ObjectIds generated so far *)
}.

Definition set_products (v : list productSchema.doc) (w : World) : World :=
  {| products := v; transactions := transactions w; audits := audits w;
     users := users w; notifications := notifications w; objectIds := objectIds w |}.

Definition set_transactions (v : list transactionSchema.doc) (w : World) : World :=
  {| products := products w; transactions := v; audits := audits w;
     users := users w; notifications := notifications w; objectIds := objectIds w |}.

Definition set_audits (v : list auditSchema.doc) (w : World) : World :=
  {| products := products w; transactions := transactions w; audits := v;
     users := users w; notifications := notifications w; objectIds := objectIds w |}.

Definition set_notifications (v : list notificationSchema.doc) (w : World) : World :=
  {| products := products w; transactions := transactions w; audits := audits w;
     users := users w; notifications := v; objectIds := objectIds w |}.

Definition set_objectIds (v : nat) (w : World) : World :=
  {| products := products w; transactions := transactions w; audits := audits w;
     users := users w; notifications := notifications w; objectIds := v |}.

Inductive Outcome (A : Type) : Type :=
| Value (a : A)                 (* the awaited call returned *)
| Sent (r : Response)           (* return res.status(..).json(..) *)
| Thrown (message : string).    (* an exception with error.message *)

Arguments Value {A} a.
Arguments Sent {A} r.
Arguments Thrown {A} message.

Definition Handler (A : Type) : Type := World -> Outcome A * World.

Definition ret {A : Type} (a : A) : Handler A := fun w => (Value a, w).

Definition bind {A B : Type} (m : Handler A) (k : A -> Handler B) : Handler B :=
  fun w =>
    match m w with
    | (Value a, w') => k a w'
    | (Sent r, w') => (Sent r, w')
    | (Thrown e, w') => (Thrown e, w')
    end.

Definition send {A : Type} (r : Response) : Handler A := fun w => (Sent r, w).

Definition throw {A : Type} (message : string) : Handler A :=
  fun w => (Thrown message, w).

Definition gets {A : Type} (f : World -> A) : Handler A := fun w => (Value (f w), w).

Definition modify (f : World -> World) : Handler unit := fun w => (Value tt, f w).

Declare Scope handler_scope.
Delimit Scope handler_scope with handler.

Notation "x <- c1 ;; c2" := (bind c1 (fun x => c2))
  (at level 61, c1 at next level, right associativity) : handler_scope.
Notation "c1 ;; c2" := (bind c1 (fun _ => c2))
  (at level 61, right associativity) : handler_scope.

Local Open Scope handler_scope.

(** [await Promise.all(xs.map(f))], the calls taken in array order. *)
Fixpoint mapM {A B : Type} (f : A -> Handler B) (xs : list A) : Handler (list B) :=
  match xs with
  | [] => ret []
  | x :: rest =>
      y <- f x ;;
      ys <- mapM f rest ;;
      ret (y :: ys)
  end.

(** [res.status(code).json(body)] *)
Definition res_status_json (code : Z) (body : Json) : Response :=
  {| statusCode := code; json := body |}.

(** [error.message || fallback] *)
Definition message_or (message fallback : string) : string :=
  if (message =? "")%string then fallback else message.

(** [try { body } catch (error) { res.status(500).json(..) }] *)
Definition try_catch (fallback : string) (body : Handler Response)
  : World -> Response * World :=
  fun w =>
    match body w with
    | (Value r, w') => (r, w')
    | (Sent r, w') => (r, w')
    | (Thrown message, w') =>
        (res_status_json 500
           (JObj [("success", JBool false);
                  ("error", JStr (message_or message fallback))]), w')
    end.

(** [ObjectId()] for a document under construction. *)
Definition freshObjectId (env : Env) : Handler string :=
  n <- gets objectIds ;;
  modify (set_objectIds (S n)) ;;
  ret (newObjectId env n).

(** A query by [_id] with an id taken from the request,
    [Model.findById(id)] and its relatives.  The id is cast to an ObjectId
    and looked up.  The [_id] of a stored document is an ObjectId, so an
    id that finds a document has been cast; an id that finds none gives
    null when it can be cast and the CastError when it cannot. *)
Definition queryById {D : Type} (env : Env) (id_of : D -> string) (model : string)
    (collection : World -> list D) (id : string) : Handler (option D) :=
  found <- gets (fun w => lookupById id_of id (collection w)) ;;
  match found with
  | Some d => ret (Some d)
  | None =>
      if isObjectId env id then ret None
      else throw (CastError_ObjectId model id)
  end.

(** ** Models: the queries and writes the handlers await *)

Module Product.
Import productSchema.

(** [Product.find({})]: every product, in collection order. *)
Definition find : Handler (list doc) := gets products.

Definition findById (env : Env) (id : string) : Handler (option doc) :=
  queryById env _id "Product" products id.

(** The product a stored reference points to, or null. *)
Definition resolve (id : string) : Handler (option doc) :=
  gets (fun w => lookupById _id id (products w)).

(** Store a document under its [_id]: overwrite it if present, insert it
    otherwise. *)
Definition write (d : doc) (c : list doc) : list doc :=
  match lookupById _id (_id d) c with
  | Some _ => updateOne _id (_id d) (fun _ => d) c
  | None => c ++ [d]
  end.

(** [product.save()]: validation, then the pre-save hook, then the write. *)
Definition save (env : Env) (d : doc) : Handler doc :=
  match validate d with
  | [] =>
      let saved := set_updatedAt (Date_now env) (pre_save d) in
      modify (fun w => set_products (write saved (products w)) w) ;;
      ret saved
  | errs => throw (validationMessage "Product" errs)
  end.

(** [product.stock = v] followed by [product.save()], given what [v] is
    cast to on the Number path [stock].  A value that is not cast (None:
    NaN, or a string that is no number) leaves a CastError on the path,
    which the validation of the save reports. *)
Definition save_stock (env : Env) (stock : option Z) (d : doc) : Handler doc :=
  match stock with
  | Some n => save env (set_stock n d)
  | None => throw (validationMessage "Product" [("stock", "Cast to Number failed")])
  end.

End Product.

Module Transaction.
Import transactionSchema.

Definition find : Handler (list doc) := gets transactions.

(** [Transaction.create({...})]: the new document gets an ObjectId and its
    timestamps, is validated, and is appended to the collection. *)
Definition create (env : Env) (product type : string) (quantity : Z)
    (reference : option string) (performedBy : string)
    (previousStock newStock : Z) (status : string) : Handler doc :=
  id <- freshObjectId env ;;
  let d := {| _id := id; product := product; type := type; quantity := quantity;
              reference := option_map trim reference; performedBy := performedBy;
              previousStock := previousStock; newStock := newStock;
              status := status;
              createdAt := Date_now env; updatedAt := Date_now env |} in
  match validate d with
  | [] =>
      modify (fun w => set_transactions (transactions w ++ [d]) w) ;;
      ret d
  | errs => throw (validationMessage "Transaction" errs)
  end.

Definition cast_failed (path : string) (n : option Z) : ValidationErrors :=
  match n with
  | Some _ => []
  | None => [(path, "Cast to Number failed")]
  end.

(** [Transaction.create({...})] given what the values passed for
    [quantity] and [newStock] are cast to on their Number paths; a value
    that is not cast makes the validation fail. *)
Definition create_cast (env : Env) (product type : string) (quantity : option Z)
    (reference : option string) (performedBy : string)
    (previousStock : Z) (newStock : option Z) (status : string) : Handler doc :=
  match quantity, newStock with
  | Some quantity, Some newStock =>
      create env product type quantity reference performedBy previousStock newStock
        status
  | _, _ =>
      freshObjectId env ;;
      throw (validationMessage "Transaction"
               (cast_failed "quantity" quantity ++ cast_failed "newStock" newStock))
  end.

(** [Transaction.findByIdAndUpdate(id, { status }, { new: true,
    runValidators: true })]: the update validator of [status] runs, then
    the first matching document gets the new status and a new [updatedAt];
    the result is the updated document, or null. *)
Definition findByIdAndUpdate (env : Env) (id status : string) : Handler (option doc) :=
  match enum_string status_enum "status" status with
  | [] =>
      found <- queryById env _id "Transaction" transactions id ;;
      match found with
      | None => ret None
      | Some t =>
          let update := fun d => set_updatedAt (Date_now env) (set_status status d) in
          modify (fun w => set_transactions (updateOne _id id update (transactions w)) w) ;;
          ret (Some (update t))
      end
  | errs => throw (validationMessage "Validation" errs)
  end.

End Transaction.

Module Audit.
Import auditSchema.

Definition findById (env : Env) (id : string) : Handler (option doc) :=
  queryById env _id "Audit" audits id.

Definition write (d : doc) (c : list doc) : list doc :=
  match lookupById _id (_id d) c with
  | Some _ => updateOne _id (_id d) (fun _ => d) c
  | None => c ++ [d]
  end.

(** [audit.save()] *)
Definition save (env : Env) (d : doc) : Handler doc :=
  match validate d with
  | [] =>
      let saved := set_updatedAt (Date_now env) d in
      modify (fun w => set_audits (write saved (audits w)) w) ;;
      ret saved
  | errs => throw (validationMessage "Audit" errs)
  end.

(** [Audit.create({...})]: the new document gets an ObjectId and its
    timestamps, is validated, and is appended to the collection. *)
Definition create (env : Env) (title : string) (date : Z) (status : string)
    (discrepancies : Z) (discrepancyDetails : list detail)
    (createdBy notes : string) : Handler doc :=
  id <- freshObjectId env ;;
  let d := {| _id := id; title := trim title; date := date; status := status;
              discrepancies := discrepancies;
              discrepancyDetails := discrepancyDetails;
              notes := trim notes; createdBy := createdBy;
              createdAt := Date_now env; updatedAt := Date_now env |} in
  match validate d with
  | [] =>
      modify (fun w => set_audits (audits w ++ [d]) w) ;;
      ret d
  | errs => throw (validationMessage "Audit" errs)
  end.

End Audit.

Module User.
Import userSchema.

(** [User.find({ role })] *)
Definition find (role' : string) : Handler (list doc) :=
  gets (fun w => filter (fun u => role u =? role')%string (users w)).

(** The user a stored reference points to, or null. *)
Definition resolve (id : string) : Handler (option doc) :=
  gets (fun w => lookupById _id id (users w)).

End User.

Module Notification.
Import notificationSchema.

(** Modelled from the spec: the validators of the Notification schema are
    not among the sources; a send creates one notification and always
    succeeds unless the persistence write fails.  [Notification.create]
    gives the new document an ObjectId and [isRead: false] and appends it. *)
Definition create (env : Env) (recipient : string) (sender : option string)
    (message type : string) (relatedProduct : option string)
    (metadata : Json) : Handler doc :=
  id <- freshObjectId env ;;
  let d := {| _id := id; recipient := recipient; sender := sender;
              message := message; type := type;
              relatedProduct := relatedProduct; metadata := metadata;
              isRead := false; createdAt := Date_now env |} in
  modify (fun w => set_notifications (notifications w ++ [d]) w) ;;
  ret d.

Definition findById (env : Env) (id : string) : Handler (option doc) :=
  queryById env _id "Notification" notifications id.

(** [Notification.findByIdAndUpdate(id, { isRead: true }, { new: true })] *)
Definition findByIdAndUpdate (env : Env) (id : string) (isRead : bool)
  : Handler (option doc) :=
  found <- findById env id ;;
  match found with
  | None => ret None
  | Some n =>
      modify (fun w =>
        set_notifications (updateOne _id id (set_isRead isRead) (notifications w)) w) ;;
      ret (Some (set_isRead isRead n))
  end.

End Notification.

(** ** controllers/notification.controller.js *)

Module notificationService.

(** [sendNotification(recipientId, message, type, senderId, productId,
    metadata)]: one [Notification.create]; an error is logged and rethrown. *)
Definition sendNotification (env : Env) (recipientId message type : string)
    (senderId productId : option string) (metadata : Json)
  : Handler notificationSchema.doc :=
  Notification.create env recipientId senderId message type productId metadata.

Definition markAsRead (env : Env) (notificationId : string)
  : Handler (option notificationSchema.doc) :=
  Notification.findByIdAndUpdate env notificationId true.

End notificationService.

Definition json_of_notification (n : option notificationSchema.doc) : Json :=
  match n with
  | Some n => notificationSchema.toJSON n
  | None => JNull
  end.

(** PUT /api/notifications/:id/read *)
Definition markAsRead (env : Env) (user : AuthUser) (id : string)
  : World -> Response * World :=
  try_catch "Failed to mark notification as read" (
    let recipientId := userId user in
    notification <- Notification.findById env id ;;
    match notification with
    | None =>
        send (res_status_json 404
                (JObj [("success", JBool false);
                       ("error", JStr "Notification not found")]))
    | Some notification =>
        if (negb (recipientId =? "admin-hardcoded")%string &&
            negb (notificationSchema.recipient notification =? recipientId)%string)%bool
        then
          send (res_status_json 403
                  (JObj [("success", JBool false);
                         ("error", JStr "You are not authorized to mark this notification as read")]))
        else
          updated <- notificationService.markAsRead env id ;;
          ret (res_status_json 200
                 (JObj [("success", JBool true);
                        ("message", JStr "Notification marked as read");
                        ("data", json_of_notification updated)]))
    end).

(** ** controllers/manager.controller.js *)

(** [req.body] of the two stock operations. *)
Record StockBody := {
  productId : option string;
  quantity : option JsValue;
  reference : option string
}.

(** The value of a field already known to be present. *)
Definition string_of (s : option string) : string :=
  match s with Some s => s | None => "" end.

Definition value_of (v : option JsValue) : JsValue :=
  match v with Some v => v | None => JsNumber 0 end.

(** [s || fallback] *)
Definition string_or (s : option string) (fallback : string) : string :=
  if truthy_string s then match s with Some s => s | None => fallback end
  else fallback.

Definition stock_response (message : string) (product : productSchema.doc)
    (previousStock : Z) (newStock : Json) (transaction : transactionSchema.doc)
  : Response :=
  res_status_json 200
    (JObj [("success", JBool true);
           ("message", JStr message);
           ("data",
            JObj [("product",
                   JObj [("id", JStr (productSchema._id product));
                         ("name", JStr (productSchema.name product));
                         ("sku", JStr (productSchema.sku product));
                         ("previousStock", JNum previousStock);
                         ("newStock", newStock)]);
                  ("transaction", JStr (transactionSchema._id transaction));
                  ("reference", nullable (transactionSchema.reference transaction))])]).

Definition bad_stock_request : Response :=
  res_status_json 400
    (JObj [("success", JBool false);
           ("error", JStr "Product ID and positive quantity are required")]).

Definition product_not_found : Response :=
  res_status_json 404
    (JObj [("success", JBool false); ("error", JStr "Product not found")]).

(** POST /api/manager/stockIn *)
Definition stockIn (env : Env) (user : AuthUser) (body : StockBody)
  : World -> Response * World :=
  try_catch "Failed to add stock" (
    if (negb (truthy_string (productId body)) ||
        negb (truthy_value (quantity body)) ||
        js_le env (value_of (quantity body)) 0)%bool
    then send bad_stock_request
    else
      let productId := string_of (productId body) in
      let quantity := value_of (quantity body) in
      product <- Product.findById env productId ;;
      match product with
      | None => send product_not_found
      | Some product =>
          let previousStock := productSchema.stock product in
          let newStock := js_plus previousStock quantity in
          product <- Product.save_stock env (toNumber env newStock) product ;;
          transaction <- Transaction.create_cast env productId "in"
            (toNumber env quantity)
            (Some (string_or (reference body)
                     ("STOCK-IN-" ++ Number_toString (Date_now env))%string))
            (userId user) previousStock (toNumber env newStock) "completed" ;;
          clerks <- User.find "clerk" ;;
          mapM (fun clerk =>
            notificationService.sendNotification env (userSchema._id clerk)
              (productSchema.name product ++ " restocked successfully. New stock: " ++
               js_toString newStock ++ " units (" ++ js_toString quantity ++
               " added). SKU: " ++ productSchema.sku product)%string
              "restock" (Some (userId user)) (Some productId)
              (JObj [("productName", JStr (productSchema.name product));
                     ("sku", JStr (productSchema.sku product));
                     ("previousStock", JNum previousStock);
                     ("newStock", json_of_value newStock);
                     ("quantityAdded", json_of_value quantity)])) clerks ;;
          ret (stock_response "Stock added successfully" product
                 previousStock (json_of_value newStock) transaction)
      end).

(** POST /api/manager/stockOut *)
Definition stockOut (env : Env) (user : AuthUser) (body : StockBody)
  : World -> Response * World :=
  try_catch "Failed to remove stock" (
    if (negb (truthy_string (productId body)) ||
        negb (truthy_value (quantity body)) ||
        js_le env (value_of (quantity body)) 0)%bool
    then send bad_stock_request
    else
      let productId := string_of (productId body) in
      let quantity := value_of (quantity body) in
      product <- Product.findById env productId ;;
      match product with
      | None => send product_not_found
      | Some product =>
          let previousStock := productSchema.stock product in
          if js_lt env previousStock quantity then
            send (res_status_json 400
                    (JObj [("success", JBool false);
                           ("error", JStr ("Insufficient stock. Available: " ++
                                           Number_toString previousStock ++
                                           ", Requested: " ++
                                           js_toString quantity)%string);
                           ("data", JObj [("available", JNum previousStock);
                                          ("requested", json_of_value quantity)])]))
          else
            let newStock := js_minus env previousStock quantity in
            product <- Product.save_stock env newStock product ;;
            transaction <- Transaction.create_cast env productId "out"
              (toNumber env quantity)
              (Some (string_or (reference body)
                       ("STOCK-OUT-" ++ Number_toString (Date_now env))%string))
              (userId user) previousStock newStock "completed" ;;
            ret (stock_response "Stock removed successfully" product
                   previousStock (json_of_number newStock) transaction)
      end).

(** A transaction after [.populate('product', ..).populate('performedBy', ..)]:
    a reference that no longer resolves is null. *)
Record Populated := {
  transaction_doc : transactionSchema.doc;
  populated_product : option productSchema.doc;
  populated_performedBy : option userSchema.doc
}.

Definition populate (t : transactionSchema.doc) : Handler Populated :=
  product <- Product.resolve (transactionSchema.product t) ;;
  performedBy <- User.resolve (transactionSchema.performedBy t) ;;
  ret {| transaction_doc := t; populated_product := product;
         populated_performedBy := performedBy |}.

(** The TypeError of reading a property of null. *)
Definition TypeError_null (property : string) : string :=
  ("Cannot read properties of null (reading '" ++ property ++ "')")%string.

Definition newest_first (a b : transactionSchema.doc) : bool :=
  transactionSchema.createdAt b <=? transactionSchema.createdAt a.

Definition sum_by {A : Type} (f : A -> Z) (xs : list A) : Z :=
  fold_left (fun sum x => sum + f x) xs 0.

Definition inventory_product (p : productSchema.doc) : Json :=
  JObj [("id", JStr (productSchema._id p));
        ("name", JStr (productSchema.name p));
        ("sku", JStr (productSchema.sku p));
        ("category", JStr (productSchema.category p));
        ("stock", JNum (productSchema.stock p));
        ("price", JNum (productSchema.price p));
        ("status", JStr (productSchema.status p));
        ("lowStockThreshold", JNum (productSchema.lowStockThreshold p))].

Definition inventory_transaction (t : Populated) : Handler Json :=
  let d := transaction_doc t in
  match populated_product t with
  | None => throw (TypeError_null "name")
  | Some product =>
      match populated_performedBy t with
      | None => throw (TypeError_null "fullName")
      | Some performedBy =>
          ret (JObj [("id", JStr (transactionSchema._id d));
                     ("product", JStr (productSchema.name product));
                     ("sku", JStr (productSchema.sku product));
                     ("type", JStr (transactionSchema.type d));
                     ("quantity", JNum (transactionSchema.quantity d));
                     ("date", JDate (transactionSchema.createdAt d));
                     ("reference", nullable (transactionSchema.reference d));
                     ("performedBy", JStr (userSchema.fullName performedBy));
                     ("previousStock", JNum (transactionSchema.previousStock d));
                     ("newStock", JNum (transactionSchema.newStock d))])
      end
  end.

Definition report_transaction (t : Populated) : Handler Json :=
  let d := transaction_doc t in
  match populated_product t with
  | None => throw (TypeError_null "name")
  | Some product =>
      match populated_performedBy t with
      | None => throw (TypeError_null "fullName")
      | Some performedBy =>
          ret (JObj [("id", JStr (transactionSchema._id d));
                     ("product", JStr (productSchema.name product));
                     ("productId", JStr (productSchema._id product));
                     ("sku", JStr (productSchema.sku product));
                     ("category", JStr (productSchema.category product));
                     ("type", JStr (transactionSchema.type d));
                     ("quantity", JNum (transactionSchema.quantity d));
                     ("date", JDate (transactionSchema.createdAt d));
                     ("reference", nullable (transactionSchema.reference d));
                     ("performedBy", JStr (userSchema.fullName performedBy));
                     ("performedByEmail", JStr (userSchema.email performedBy));
                     ("role", JStr (userSchema.role performedBy));
                     ("previousStock", JNum (transactionSchema.previousStock d));
                     ("newStock", JNum (transactionSchema.newStock d));
                     ("status", JStr (transactionSchema.status d))])
      end
  end.

(** The filter of the low-stock report: [p.stock <= p.lowStockThreshold]. *)
Definition isLowStock (p : productSchema.doc) : bool :=
  productSchema.stock p <=? productSchema.lowStockThreshold p.

(** [p.stock === 0] *)
Definition isCritical (p : productSchema.doc) : bool :=
  productSchema.stock p =? 0.

(** [p.stock > 0 && p.stock <= p.lowStockThreshold] *)
Definition isWarning (p : productSchema.doc) : bool :=
  ((productSchema.stock p >? 0) &&
   (productSchema.stock p <=? productSchema.lowStockThreshold p))%bool.

Definition lowStock_product (p : productSchema.doc) : Json :=
  JObj [("id", JStr (productSchema._id p));
        ("name", JStr (productSchema.name p));
        ("sku", JStr (productSchema.sku p));
        ("category", JStr (productSchema.category p));
        ("stock", JNum (productSchema.stock p));
        ("lowStockThreshold", JNum (productSchema.lowStockThreshold p));
        ("status", JStr (productSchema.status p));
        ("needsAttention", JBool (isLowStock p))].

(** [.sort({ stock: 1 })] *)
Definition sortByStock (all : list productSchema.doc) : list productSchema.doc :=
  sortBy (fun a b => productSchema.stock a <=? productSchema.stock b) all.

Definition lowStockReport (env : Env) (allProductsForReport : list productSchema.doc)
  : Json :=
  let lowStockProducts := filter isLowStock allProductsForReport in
  JObj [("type", JStr "lowStock");
        ("generatedAt", JDate (Date_now env));
        ("summary",
         JObj [("totalLowStockItems", JNum (count lowStockProducts));
               ("criticalItems", JNum (count (filter isCritical lowStockProducts)));
               ("warningItems", JNum (count (filter isWarning lowStockProducts)))]);
        ("products", JArr (map lowStock_product lowStockProducts))].

Definition isType (ty : string) (t : transactionSchema.doc) : bool :=
  (transactionSchema.type t =? ty)%string.

(** GET /api/manager/generateReport *)
Definition generateReport (env : Env) (type : option string)
  : World -> Response * World :=
  try_catch "Failed to generate report" (
    let type := match type with Some t => t | None => "inventory" end in
    reportData <-
      (if (type =? "inventory")%string then
         products <- Product.find ;;
         let products :=
           sortBy (fun a b => String.leb (productSchema.name a) (productSchema.name b))
                  products in
         found <- Transaction.find ;;
         populated <- mapM populate found ;;
         let transactions :=
           firstn 100 (sortBy (fun a b => newest_first (transaction_doc a) (transaction_doc b))
                              populated) in
         recentTransactions <- mapM inventory_transaction transactions ;;
         ret (JObj [("type", JStr "inventory");
                    ("generatedAt", JDate (Date_now env));
                    ("summary",
                     JObj [("totalProducts", JNum (count products));
                           ("totalStock", JNum (sum_by productSchema.stock products));
                           ("inStock",
                            JNum (count (filter (fun p => productSchema.stock p >? 0) products)));
                           ("outOfStock", JNum (count (filter isCritical products)));
                           ("lowStock", JNum (count (filter isWarning products)))]);
                    ("products", JArr (map inventory_product products));
                    ("recentTransactions", JArr recentTransactions)])
       else if (type =? "transactions")%string then
         found <- Transaction.find ;;
         populated <- mapM populate found ;;
         let allTransactions :=
           sortBy (fun a b => newest_first (transaction_doc a) (transaction_doc b))
                  populated in
         let docs := map transaction_doc allTransactions in
         let today := startOfDay env (Date_now env) in
         let todayTransactions :=
           filter (fun t => transactionSchema.createdAt t >=? today) docs in
         rows <- mapM report_transaction allTransactions ;;
         ret (JObj [("type", JStr "transactions");
                    ("generatedAt", JDate (Date_now env));
                    ("summary",
                     JObj [("totalTransactions", JNum (count docs));
                           ("todayTransactions", JNum (count todayTransactions));
                           ("stockIn", JNum (count (filter (isType "in") docs)));
                           ("stockOut", JNum (count (filter (isType "out") docs)));
                           ("totalQuantityIn",
                            JNum (sum_by transactionSchema.quantity (filter (isType "in") docs)));
                           ("totalQuantityOut",
                            JNum (sum_by transactionSchema.quantity (filter (isType "out") docs)))]);
                    ("transactions", JArr rows)])
       else if (type =? "lowStock")%string then
         found <- Product.find ;;
         let allProductsForReport := sortByStock found in
         ret (lowStockReport env allProductsForReport)
       else
         send (res_status_json 400
                 (JObj [("success", JBool false);
                        ("error", JStr "Invalid report type. Use: inventory, transactions, or lowStock")]))) ;;
    ret (res_status_json 200 (JObj [("success", JBool true); ("data", reportData)]))).

(** ** controllers/clerk.controller.js *)

Definition order_statuses : list string := ["pending"; "completed"; "rejected"].

(** PUT /api/clerk/orders/:id/status *)
Definition updateOrderStatus (env : Env) (id : string) (status : option string)
  : World -> Response * World :=
  try_catch "Failed to update order status" (
    if negb (match status with
             | Some status => includes order_statuses status
             | None => false
             end)
    then
      send (res_status_json 400
              (JObj [("success", JBool false);
                     ("error", JStr "Invalid status. Must be: pending, completed, or rejected")]))
    else
      let status := string_of status in
      updated <- Transaction.findByIdAndUpdate env id status ;;
      match updated with
      | None =>
          send (res_status_json 404
                  (JObj [("success", JBool false); ("error", JStr "Order not found")]))
      | Some updated =>
          transaction <- populate updated ;;
          match populated_product transaction with
          | None => throw (TypeError_null "name")
          | Some product =>
              let t := transaction_doc transaction in
              ret (res_status_json 200
                     (JObj [("success", JBool true);
                            ("message", JStr "Order status updated successfully");
                            ("data",
                             JObj [("id", JStr (transactionSchema._id t));
                                   ("orderNo",
                                    JStr ("ORD-" ++ toUpperCase
                                            (slice_last 6 (transactionSchema._id t)))%string);
                                   ("productName", JStr (productSchema.name product));
                                   ("sku", JStr (productSchema.sku product));
                                   ("previousStatus",
                                    JStr (if (transactionSchema.status t =? status)%string
                                          then "unchanged" else "updated"));
                                   ("status", JStr (transactionSchema.status t));
                                   ("updatedAt", JDate (transactionSchema.updatedAt t))])]))
          end
      end).

(** The notification a reorder request sends to one manager. *)
Definition reorder_message (product : productSchema.doc) : string :=
  ("Reorder request for " ++ productSchema.name product ++ " (current stock: " ++
   Number_toString (productSchema.stock product) ++ " units). SKU: " ++
   productSchema.sku product)%string.

Definition reorder_metadata (product : productSchema.doc) : Json :=
  JObj [("productName", JStr (productSchema.name product));
        ("sku", JStr (productSchema.sku product));
        ("currentStock", JNum (productSchema.stock product));
        ("reorderLevel", JNum (productSchema.lowStockThreshold product));
        ("category", JStr (productSchema.category product))].

(** POST /api/clerk/reorder *)
Definition requestReorder (env : Env) (user : AuthUser) (productId : option string)
  : World -> Response * World :=
  try_catch "Failed to send reorder request" (
    let clerkId := userId user in
    if negb (truthy_string productId) then
      send (res_status_json 400
              (JObj [("success", JBool false); ("error", JStr "Product ID is required")]))
    else
      let productId := string_of productId in
      product <- Product.findById env productId ;;
      match product with
      | None => send product_not_found
      | Some product =>
          managers <- User.find "manager" ;;
          notifications <- mapM (fun manager =>
            notificationService.sendNotification env (userSchema._id manager)
              (reorder_message product) "reorder" (Some clerkId) (Some productId)
              (reorder_metadata product)) managers ;;
          ret (res_status_json 200
                 (JObj [("success", JBool true);
                        ("message", JStr "Reorder request sent successfully");
                        ("data",
                         JObj [("product",
                                JObj [("id", JStr (productSchema._id product));
                                      ("name", JStr (productSchema.name product));
                                      ("sku", JStr (productSchema.sku product));
                                      ("stock", JNum (productSchema.stock product));
                                      ("reorderLevel",
                                       JNum (productSchema.lowStockThreshold product))]);
                               ("notificationsSent", JNum (count notifications))])]))
      end).

(** ** controllers/auditor.controller.js *)

Module Auditor.

(** The lines [auditInventory] pushes for one product. *)
Definition productLines (product : productSchema.doc) : list string :=
  let label := ("Product " ++ productSchema.name product ++ " (" ++
                productSchema.sku product ++ ")")%string in
  (if productSchema.stock product <? 0
   then [(label ++ " has negative stock: " ++
          Number_toString (productSchema.stock product))%string]
   else []) ++
  (if ((productSchema.stock product =? 0) &&
       negb (productSchema.status product =? "out-of-stock")%string)%bool
   then [(label ++ " has 0 stock but status is " ++ productSchema.status product)%string]
   else []) ++
  (if ((productSchema.stock product >? 0) &&
       (productSchema.stock product <=? productSchema.lowStockThreshold product) &&
       negb (productSchema.status product =? "low-stock")%string)%bool
   then [(label ++ " is below threshold but status is " ++
          productSchema.status product)%string]
   else []) ++
  (if ((productSchema.price product =? 0) || (productSchema.price product <=? 0))%bool
   then [(label ++ " has invalid price: " ++
          Number_toString (productSchema.price product))%string]
   else []).

(** [auditInventory(products)]: the audit summary as a string. *)
Definition auditInventory (products : list productSchema.doc) : string :=
  let discrepancies := flat_map productLines products in
  if count discrepancies >? 0
  then ("Audit completed. Found " ++ Number_toString (count discrepancies) ++
        " discrepancy(ies):" ++ newline ++ join newline discrepancies)%string
  else "Audit completed. No discrepancies found.".

End Auditor.

(** An entry of the handler's [auditResults] array. *)
Module auditResult.

Record t := {
  productId : string;
  name : string;
  sku : string;
  currentStock : Z;
  status : string;
  discrepancies : list auditSchema.discrepancy
}.

End auditResult.

Definition finding (type message severity : string) : auditSchema.discrepancy :=
  {| auditSchema.type := type; auditSchema.message := message;
     auditSchema.severity := severity |}.

(** The four checks [createNewAudit] runs on one product, in order; each
    check that fires pushes one finding. *)
Definition productDiscrepancies (product : productSchema.doc)
  : list auditSchema.discrepancy :=
  (if productSchema.stock product <? 0
   then [finding "negative_stock"
           ("Negative stock: " ++ Number_toString (productSchema.stock product))%string
           "high"]
   else []) ++
  (if ((productSchema.stock product =? 0) &&
       negb (productSchema.status product =? "out-of-stock")%string)%bool
   then [finding "status_mismatch"
           ("Stock is 0 but status is " ++ productSchema.status product)%string
           "medium"]
   else []) ++
  (if ((productSchema.stock product >? 0) &&
       (productSchema.stock product <=? productSchema.lowStockThreshold product) &&
       negb (productSchema.status product =? "low-stock")%string &&
       negb (productSchema.status product =? "out-of-stock")%string)%bool
   then [finding "low_stock_mismatch"
           ("Stock (" ++ Number_toString (productSchema.stock product) ++
            ") is below threshold (" ++
            Number_toString (productSchema.lowStockThreshold product) ++
            ") but status is " ++ productSchema.status product)%string
           "low"]
   else []) ++
  (if ((productSchema.price product =? 0) || (productSchema.price product <=? 0))%bool
   then [finding "invalid_price"
           ("Invalid or missing price: " ++
            Number_toString (productSchema.price product))%string
           "medium"]
   else []).

Definition resultOf (product : productSchema.doc) : auditResult.t :=
  {| auditResult.productId := productSchema._id product;
     auditResult.name := productSchema.name product;
     auditResult.sku := productSchema.sku product;
     auditResult.currentStock := productSchema.stock product;
     auditResult.status := productSchema.status product;
     auditResult.discrepancies := productDiscrepancies product |}.

(** One turn of [allProducts.forEach]: the accumulators are the handler's
    [discrepancies] and [auditResults] arrays. *)
Definition auditStep
    (acc : list auditSchema.discrepancy * list auditResult.t)
    (product : productSchema.doc)
  : list auditSchema.discrepancy * list auditResult.t :=
  if count (productDiscrepancies product) >? 0
  then (fst acc ++ productDiscrepancies product, snd acc ++ [resultOf product])
  else acc.

(** The scan of [createNewAudit]: [(discrepancies, auditResults)]. *)
Definition auditProducts (allProducts : list productSchema.doc)
  : list auditSchema.discrepancy * list auditResult.t :=
  fold_left auditStep allProducts ([], []).

Definition hasSeverity (severity : string) (d : auditSchema.discrepancy) : bool :=
  (auditSchema.severity d =? severity)%string.

Definition json_of_discrepancy (d : auditSchema.discrepancy) : Json :=
  JObj [("type", JStr (auditSchema.type d));
        ("message", JStr (auditSchema.message d));
        ("severity", JStr (auditSchema.severity d))].

Definition json_of_auditResult (r : auditResult.t) : Json :=
  JObj [("productId", JStr (auditResult.productId r));
        ("name", JStr (auditResult.name r));
        ("sku", JStr (auditResult.sku r));
        ("currentStock", JNum (auditResult.currentStock r));
        ("status", JStr (auditResult.status r));
        ("discrepancies", JArr (map json_of_discrepancy (auditResult.discrepancies r)))].

(** What becomes of one entry of [auditResults] under the schema of
    [discrepancyDetails]: [name] is not a path of the schema and is
    dropped, [productName] is not given, and each finding is kept as the
    object it is for the cast to String that validation then attempts. *)
Definition detail_of_result (r : auditResult.t) : auditSchema.detail :=
  {| auditSchema.productId := auditResult.productId r;
     auditSchema.productName := None;
     auditSchema.sku := auditResult.sku r;
     auditSchema.currentStock := auditResult.currentStock r;
     auditSchema.detail_status := auditResult.status r;
     auditSchema.detail_discrepancies :=
       map auditSchema.object (auditResult.discrepancies r) |}.

(** POST /api/auditor/auditInventory *)
Definition createNewAudit (env : Env) (user : AuthUser) : World -> Response * World :=
  try_catch "Failed to perform audit" (
    allProducts <- Product.find ;;
    let discrepancies := fst (auditProducts allProducts) in
    let auditResults := snd (auditProducts allProducts) in
    let currentDate := Date_now env in
    let auditTitle :=
      ("Inventory Audit - " ++ toLocaleDateString env currentDate)%string in
    newAudit <- Audit.create env auditTitle currentDate "in-progress"
                  (count discrepancies) (map detail_of_result auditResults)
                  (userId user) "Audit started by auditor" ;;
    let highSeverity := count (filter (hasSeverity "high") discrepancies) in
    let mediumSeverity := count (filter (hasSeverity "medium") discrepancies) in
    let lowSeverity := count (filter (hasSeverity "low") discrepancies) in
    let auditSummary := Auditor.auditInventory allProducts in
    ret (res_status_json 200
           (JObj [("success", JBool true);
                  ("message",
                   JStr ("New audit started successfully â€” " ++
                         Number_toString (count discrepancies) ++
                         " discrepancies found.")%string);
                  ("data",
                   JObj [("auditId", JStr (auditSchema._id newAudit));
                         ("totalDiscrepancies", JNum (count discrepancies));
                         ("discrepancyBreakdown",
                          JObj [("high", JNum highSeverity);
                                ("medium", JNum mediumSeverity);
                                ("low", JNum lowSeverity)]);
                         ("auditResults", JArr (map json_of_auditResult auditResults));
                         ("summary", JStr auditSummary)])]))).

Definition json_of_element (e : auditSchema.element) : Json :=
  match e with
  | auditSchema.text s => JStr s
  | auditSchema.object d => json_of_discrepancy d
  end.

Definition json_of_detail (d : auditSchema.detail) : Json :=
  JObj [("productId", JStr (auditSchema.productId d));
        ("productName", nullable (auditSchema.productName d));
        ("sku", JStr (auditSchema.sku d));
        ("currentStock", JNum (auditSchema.currentStock d));
        ("status", JStr (auditSchema.detail_status d));
        ("discrepancies",
         JArr (map json_of_element (auditSchema.detail_discrepancies d)))].

Definition json_of_audit (a : auditSchema.doc) : Json :=
  JObj [("_id", JStr (auditSchema._id a));
        ("title", JStr (auditSchema.title a));
        ("date", JDate (auditSchema.date a));
        ("status", JStr (auditSchema.status a));
        ("discrepancies", JNum (auditSchema.discrepancies a));
        ("discrepancyDetails", JArr (map json_of_detail (auditSchema.discrepancyDetails a)));
        ("notes", JStr (auditSchema.notes a));
        ("createdBy", JStr (auditSchema.createdBy a));
        ("createdAt", JDate (auditSchema.createdAt a));
        ("updatedAt", JDate (auditSchema.updatedAt a))].

(** PUT /api/auditor/audits/:id/complete *)
Definition completeAudit (env : Env) (id : string) : World -> Response * World :=
  try_catch "Failed to complete audit" (
    audit <- Audit.findById env id ;;
    match audit with
    | None =>
        send (res_status_json 404
                (JObj [("success", JBool false); ("error", JStr "Audit not found")]))
    | Some audit =>
        if (auditSchema.status audit =? "completed")%string then
          send (res_status_json 400
                  (JObj [("success", JBool false);
                         ("error", JStr "Audit is already completed")]))
        else
          audit <- Audit.save env (auditSchema.set_status "completed" audit) ;;
          ret (res_status_json 200
                 (JObj [("success", JBool true);
                        ("message", JStr "Audit marked as completed successfully");
                        ("data", json_of_audit audit)]))
    end).

(** ** Further handlers of the cited controllers *)

(** A string-valued property that is left out when undefined. *)
Definition optional_field (k : string) (v : option string) : list (string * Json) :=
  match v with
  | Some s => [(k, JStr s)]
  | None => []
  end.

(** Remove the first document whose [_id] is [id]. *)
Fixpoint deleteOne {D : Type} (id_of : D -> string) (id : string) (c : list D) : list D :=
  match c with
  | [] => []
  | d :: rest =>
      if (id_of d =? id)%string then rest else d :: deleteOne id_of id rest
  end.

(** [xs.map((x, index) => f(x, index))] for a callback that may throw. *)
Fixpoint mapM_index {A B : Type} (f : A -> nat -> Handler B) (index : nat) (xs : list A)
  : Handler (list B) :=
  match xs with
  | [] => ret []
  | x :: rest =>
      y <- f x index ;;
      ys <- mapM_index f (S index) rest ;;
      ret (y :: ys)
  end.

(** *** controllers/manager.controller.js: validateStockLevel *)

Module stockSummary.

Record t := {
  totalProducts : Z;
  lowStock : Z;
  outOfStock : Z;
  healthy : Z
}.

End stockSummary.

Definition stock_issue (product : productSchema.doc) (issue : string) : Json :=
  JObj [("productId", JStr (productSchema._id product));
        ("name", JStr (productSchema.name product));
        ("sku", JStr (productSchema.sku product));
        ("issue", JStr issue);
        ("currentStock", JNum (productSchema.stock product));
        ("threshold", JNum (productSchema.lowStockThreshold product))].

(** One turn of [products.forEach] in [validateStockLevel]: the
    accumulators are [summary] and [issues]. *)
Definition validateStep (acc : stockSummary.t * list Json) (product : productSchema.doc)
  : stockSummary.t * list Json :=
  let summary := fst acc in
  let issues := snd acc in
  if productSchema.stock product =? 0 then
    ({| stockSummary.totalProducts := stockSummary.totalProducts summary;
        stockSummary.lowStock := stockSummary.lowStock summary;
        stockSummary.outOfStock := stockSummary.outOfStock summary + 1;
        stockSummary.healthy := stockSummary.healthy summary |},
     issues ++ [stock_issue product "out-of-stock"])
  else if productSchema.stock product <=? productSchema.lowStockThreshold product then
    ({| stockSummary.totalProducts := stockSummary.totalProducts summary;
        stockSummary.lowStock := stockSummary.lowStock summary + 1;
        stockSummary.outOfStock := stockSummary.outOfStock summary;
        stockSummary.healthy := stockSummary.healthy summary |},
     issues ++ [stock_issue product "low-stock"])
  else
    ({| stockSummary.totalProducts := stockSummary.totalProducts summary;
        stockSummary.lowStock := stockSummary.lowStock summary;
        stockSummary.outOfStock := stockSummary.outOfStock summary;
        stockSummary.healthy := stockSummary.healthy summary + 1 |},
     issues).

Definition json_of_summary (summary : stockSummary.t) : Json :=
  JObj [("totalProducts", JNum (stockSummary.totalProducts summary));
        ("lowStock", JNum (stockSummary.lowStock summary));
        ("outOfStock", JNum (stockSummary.outOfStock summary));
        ("healthy", JNum (stockSummary.healthy summary))].

(** GET /api/manager/validateStock *)
Definition validateStockLevel (env : Env) : World -> Response * World :=
  try_catch "Failed to validate stock levels" (
    products <- Product.find ;;
    let scanned :=
      fold_left validateStep products
        ({| stockSummary.totalProducts := count products;
            stockSummary.lowStock := 0;
            stockSummary.outOfStock := 0;
            stockSummary.healthy := 0 |}, []) in
    let summary := fst scanned in
    let issues := snd scanned in
    ret (res_status_json 200
           (JObj [("success", JBool true);
                  ("data",
                   JObj [("summary", json_of_summary summary);
                         ("issues", JArr issues);
                         ("hasIssues", JBool (count issues >? 0));
                         ("timestamp", JDate (Date_now env))])]))).

(** *** controllers/clerk.controller.js: listings and statistics *)

Module Clerk.

(** [checkLowStock(product)] *)
Definition checkLowStock (product : productSchema.doc) : bool :=
  productSchema.stock product <=? productSchema.lowStockThreshold product.

End Clerk.

Module clerk_controller.

Definition lowStock_entry (product : productSchema.doc) : Json :=
  JObj ([("id", JStr (productSchema._id product));
         ("name", JStr (productSchema.name product));
         ("sku", JStr (productSchema.sku product));
         ("stock", JNum (productSchema.stock product));
         ("lowStockThreshold", JNum (productSchema.lowStockThreshold product));
         ("reorderLevel", JNum (productSchema.lowStockThreshold product));
         ("category", JStr (productSchema.category product));
         ("status", JStr (productSchema.status product));
         ("price", JNum (productSchema.price product))] ++
        optional_field "description" (productSchema.description product)).

(** GET /api/clerk/lowStock *)
Definition getLowStockProducts : World -> Response * World :=
  try_catch "Failed to fetch low stock products" (
    allProducts <- Product.find ;;
    let lowStockProducts :=
      map lowStock_entry (filter Clerk.checkLowStock allProducts) in
    ret (res_status_json 200
           (JObj [("success", JBool true);
                  ("count", JNum (count lowStockProducts));
                  ("data", JArr lowStockProducts)]))).

(** [Transaction.find({ status })] *)
Definition hasStatus (status : string) (t : transactionSchema.doc) : bool :=
  (transactionSchema.status t =? status)%string.

Definition formattedOrder (env : Env) (transaction : Populated) (index : nat)
  : Handler Json :=
  let t := transaction_doc transaction in
  match populated_product transaction with
  | None => throw (TypeError_null "_id")
  | Some product =>
      let performedBy := populated_performedBy transaction in
      let customer := string_or (option_map userSchema.fullName performedBy) "System" in
      ret (JObj [("id", JStr (transactionSchema._id t));
                 ("orderNo",
                  JStr ("ORD-" ++ toUpperCase (slice_last 6 (transactionSchema._id t)))%string);
                 ("productId", JStr (productSchema._id product));
                 ("productName", JStr (productSchema.name product));
                 ("sku", JStr (productSchema.sku product));
                 ("category", JStr (productSchema.category product));
                 ("quantity", JNum (transactionSchema.quantity t));
                 ("type", JStr (transactionSchema.type t));
                 ("previousStock", JNum (transactionSchema.previousStock t));
                 ("newStock", JNum (transactionSchema.newStock t));
                 ("reference",
                  JStr (string_or (transactionSchema.reference t)
                          ("REF-" ++ Number_toString (Date_now env) ++ "-" ++
                           Number_toString (Z.of_nat index))%string));
                 ("status", JStr (transactionSchema.status t));
                 ("customer", JStr customer);
                 ("performedBy",
                  JObj ([("name", JStr customer)] ++
                        optional_field "email" (option_map userSchema.email performedBy) ++
                        optional_field "role" (option_map userSchema.role performedBy)));
                 ("createdAt", JDate (transactionSchema.createdAt t));
                 ("updatedAt", JDate (transactionSchema.updatedAt t))])
  end.

(** GET /api/clerk/orders *)
Definition getPendingOrders (env : Env) (status : option string)
  : World -> Response * World :=
  try_catch "Failed to fetch orders" (
    let status := match status with Some s => s | None => "pending" end in
    found <- gets (fun w => filter (hasStatus status) (transactions w)) ;;
    populated <- mapM populate found ;;
    let transactions :=
      sortBy (fun a b => newest_first (transaction_doc a) (transaction_doc b)) populated in
    formattedOrders <- mapM_index (formattedOrder env) 0 transactions ;;
    ret (res_status_json 200
           (JObj [("success", JBool true);
                  ("count", JNum (count formattedOrders));
                  ("data", JArr formattedOrders)]))).

(** GET /api/clerk/stats *)
Definition getDashboardStats : World -> Response * World :=
  try_catch "Failed to fetch dashboard statistics" (
    allProducts <- Product.find ;;
    let lowStockProducts := filter Clerk.checkLowStock allProducts in
    pendingTransactions <-
      gets (fun w => count (filter (hasStatus "pending") (transactions w))) ;;
    ret (res_status_json 200
           (JObj [("success", JBool true);
                  ("data",
                   JObj [("lowStockItems", JNum (count lowStockProducts));
                         ("pendingOrders", JNum pendingTransactions);
                         ("totalProducts", JNum (count allProducts));
                         ("outOfStock",
                          JNum (count (filter (fun p => productSchema.stock p =? 0)
                                              allProducts)))])]))).

End clerk_controller.

(** *** controllers/notification.controller.js: unread counts *)

(** The [recipient] part of the service's queries: the hardcoded admin
    matches every notification, any other user only their own. *)
Definition recipientQuery (recipientId : string) (n : notificationSchema.doc) : bool :=
  if (recipientId =? "admin-hardcoded")%string then true
  else (notificationSchema.recipient n =? recipientId)%string.

(** The query [{ isRead: false, recipient: ... }]. *)
Definition unreadQuery (recipientId : string) (n : notificationSchema.doc) : bool :=
  (negb (notificationSchema.isRead n) && recipientQuery recipientId n)%bool.

(** [Notification.updateMany(query, { isRead })]: every matching document
    is rewritten; the result counts those whose value changed. *)
Definition Notification_updateMany (query : notificationSchema.doc -> bool)
    (isRead : bool) : Handler Z :=
  modified <- gets (fun w =>
    count (filter (fun n => query n && negb (Bool.eqb (notificationSchema.isRead n) isRead))%bool
                  (notifications w))) ;;
  modify (fun w =>
    set_notifications
      (map (fun n => if query n then notificationSchema.set_isRead isRead n else n)
           (notifications w)) w) ;;
  ret modified.

(** [Notification.countDocuments(query)] *)
Definition Notification_countDocuments (query : notificationSchema.doc -> bool)
  : Handler Z :=
  gets (fun w => count (filter query (notifications w))).

Module notificationService_counts.

(** [markAllAsRead(recipientId)]: the result's [modifiedCount]. *)
Definition markAllAsRead (recipientId : string) : Handler Z :=
  Notification_updateMany (unreadQuery recipientId) true.

Definition getUnreadCount (recipientId : string) : Handler Z :=
  Notification_countDocuments (unreadQuery recipientId).

End notificationService_counts.

(** PUT /api/notifications/read-all *)
Definition markAllAsRead (user : AuthUser) : World -> Response * World :=
  try_catch "Failed to mark all notifications as read" (
    let recipientId := userId user in
    modifiedCount <- notificationService_counts.markAllAsRead recipientId ;;
    ret (res_status_json 200
           (JObj [("success", JBool true);
                  ("message", JStr "All notifications marked as read");
                  ("data", JObj [("modifiedCount", JNum modifiedCount)])]))).

(** GET /api/notifications/unread-count *)
Definition getUnreadCount (user : AuthUser) : World -> Response * World :=
  try_catch "Failed to get unread count" (
    let recipientId := userId user in
    count <- notificationService_counts.getUnreadCount recipientId ;;
    ret (res_status_json 200
           (JObj [("success", JBool true);
                  ("data", JObj [("count", JNum count)])]))).

(** *** controllers/auditor.controller.js: scheduling, history, statistics *)

Module auditor_controller.

Section ScheduleAudit.

(** [new Date(date)] on the request's date string: its timestamp, or the
    message of the error Mongoose raises when casting an Invalid Date. *)
Variable newDate : string -> string + Z.

(** POST /api/auditor/scheduleAudit *)
Definition scheduleAudit (env : Env) (user : AuthUser) (title date : option string)
  : World -> Response * World :=
  try_catch "Failed to schedule audit" (
    if (negb (truthy_string title) || negb (truthy_string date))%bool then
      send (res_status_json 400
              (JObj [("success", JBool false);
                     ("error", JStr "Audit title and date are required")]))
    else
      let title := string_of title in
      let date := string_of date in
      match newDate date with
      | inl message => throw message
      | inr date =>
          newAudit <- Audit.create env title date "scheduled" 0 [] (userId user)
                        "Audit scheduled by auditor." ;;
          ret (res_status_json 201
                 (JObj [("success", JBool true);
                        ("message",
                         JStr ("Audit scheduled for " ++ toLocaleDateString env date ++
                               " successfully.")%string);
                        ("data",
                         JObj [("auditId", JStr (auditSchema._id newAudit));
                               ("title", JStr (auditSchema.title newAudit));
                               ("date", JDate (auditSchema.date newAudit));
                               ("status", JStr (auditSchema.status newAudit))])]))
      end).

End ScheduleAudit.

(** [.sort({ date: -1 })] *)
Definition latest_first (a b : auditSchema.doc) : bool :=
  auditSchema.date b <=? auditSchema.date a.

Definition auditReport (audit : auditSchema.doc) : Json :=
  JObj [("id", JStr (auditSchema._id audit));
        ("title", JStr (auditSchema.title audit));
        ("date", JDate (auditSchema.date audit));
        ("status", JStr (auditSchema.status audit));
        ("discrepancies",
         JNum (if auditSchema.discrepancies audit =? 0 then 0
               else auditSchema.discrepancies audit))].

(** GET /api/auditor/reports *)
Definition getAuditReports : World -> Response * World :=
  try_catch "Failed to fetch audit reports" (
    audits <- gets (fun w => firstn 50 (sortBy latest_first (audits w))) ;;
    let auditReports := map auditReport audits in
    ret (res_status_json 200
           (JObj [("success", JBool true);
                  ("count", JNum (count auditReports));
                  ("data", JArr auditReports)]))).

(** One turn of [allProducts.forEach] in [getDashboardStats]. *)
Definition countStep (totalDiscrepancies : Z) (product : productSchema.doc) : Z :=
  let t1 := if productSchema.stock product <? 0
            then totalDiscrepancies + 1 else totalDiscrepancies in
  let t2 := if ((productSchema.stock product =? 0) &&
                negb (productSchema.status product =? "out-of-stock")%string)%bool
            then t1 + 1 else t1 in
  if productSchema.price product <=? 0 then t2 + 1 else t2.

(** [Audit.countDocuments({ status })] *)
Definition auditHasStatus (status : string) (a : auditSchema.doc) : bool :=
  (auditSchema.status a =? status)%string.

(** GET /api/auditor/stats *)
Definition getDashboardStats : World -> Response * World :=
  try_catch "Failed to fetch dashboard statistics" (
    allProducts <- Product.find ;;
    let totalDiscrepancies := fold_left countStep allProducts 0 in
    let totalProducts := count allProducts in
    totalAudits <- gets (fun w => count (audits w)) ;;
    completedAudits <- gets (fun w => count (filter (auditHasStatus "completed") (audits w))) ;;
    inProgressAudits <- gets (fun w => count (filter (auditHasStatus "in-progress") (audits w))) ;;
    ret (res_status_json 200
           (JObj [("success", JBool true);
                  ("data",
                   JObj [("totalAudits", JNum totalAudits);
                         ("completedAudits", JNum completedAudits);
                         ("inProgressAudits", JNum inProgressAudits);
                         ("totalDiscrepancies", JNum totalDiscrepancies);
                         ("totalProducts", JNum totalProducts)])]))).

End auditor_controller.

(** *** controllers/product.controller.js: update, delete, low-stock list *)

(** [req.body] of [updateProduct]; an absent property is left out of the
    update. *)
Module productUpdate.

Record t := {
  name : option string;
  category : option string;
  stock : option Z;
  price : option Z;
  description : option string;
  lowStockThreshold : option Z
}.

End productUpdate.

Module product_controller.

Definition or_keep {A : Type} (v : option A) (old : A) : A :=
  match v with Some v => v | None => old end.

(** The document after [$set] of the paths present in the update, with the
    [trim] setters of the string paths and a new [updatedAt].  [status]
    and [sku] are not among the paths. *)
Definition applyUpdate (env : Env) (u : productUpdate.t) (d : productSchema.doc)
  : productSchema.doc :=
  {| productSchema._id := productSchema._id d;
     productSchema.name := or_keep (option_map trim (productUpdate.name u)) (productSchema.name d);
     productSchema.sku := productSchema.sku d;
     productSchema.category :=
       or_keep (option_map trim (productUpdate.category u)) (productSchema.category d);
     productSchema.stock := or_keep (productUpdate.stock u) (productSchema.stock d);
     productSchema.price := or_keep (productUpdate.price u) (productSchema.price d);
     productSchema.description :=
       match productUpdate.description u with
       | Some v => Some (trim v)
       | None => productSchema.description d
       end;
     productSchema.status := productSchema.status d;
     productSchema.lowStockThreshold :=
       or_keep (productUpdate.lowStockThreshold u) (productSchema.lowStockThreshold d);
     productSchema.addedBy := productSchema.addedBy d;
     productSchema.createdAt := productSchema.createdAt d;
     productSchema.updatedAt := Date_now env |}.

(** [runValidators: true]: the schema's validators of the paths in the
    update. *)
Definition validateUpdate (u : productUpdate.t) : ValidationErrors :=
  match productUpdate.name u with
  | Some v => required_string "name" "Product name is required" (trim v)
  | None => []
  end ++
  match productUpdate.category u with
  | Some v => required_string "category" "Category is required" (trim v)
  | None => []
  end ++
  match productUpdate.stock u with
  | Some v => min_number 0 "stock" "Stock cannot be negative" v
  | None => []
  end ++
  match productUpdate.price u with
  | Some v => min_number 0 "price" "Price cannot be negative" v
  | None => []
  end.

(** [Product.findByIdAndUpdate(id, {...}, { new: true, runValidators: true })]:
    no pre-save hook runs on this path. *)
Definition Product_findByIdAndUpdate (env : Env) (id : string) (u : productUpdate.t)
  : Handler (option productSchema.doc) :=
  match validateUpdate u with
  | [] =>
      found <- Product.findById env id ;;
      match found with
      | None => ret None
      | Some p =>
          modify (fun w =>
            set_products (updateOne productSchema._id id (applyUpdate env u) (products w)) w) ;;
          ret (Some (applyUpdate env u p))
      end
  | errs =>
      throw ("Validation failed: " ++
             join ", " (map (fun e => fst e ++ ": " ++ snd e) errs))%string
  end.

(** [Product.findByIdAndDelete(id)] *)
Definition Product_findByIdAndDelete (env : Env) (id : string)
  : Handler (option productSchema.doc) :=
  found <- Product.findById env id ;;
  match found with
  | None => ret None
  | Some p =>
      modify (fun w => set_products (deleteOne productSchema._id id (products w)) w) ;;
      ret (Some p)
  end.

(** A product document after [.populate('addedBy', 'fullName email')]. *)
Definition json_of_product (users : list userSchema.doc) (p : productSchema.doc) : Json :=
  JObj ([("_id", JStr (productSchema._id p));
         ("name", JStr (productSchema.name p));
         ("sku", JStr (productSchema.sku p));
         ("category", JStr (productSchema.category p));
         ("stock", JNum (productSchema.stock p));
         ("price", JNum (productSchema.price p))] ++
        optional_field "description" (productSchema.description p) ++
        [("status", JStr (productSchema.status p));
         ("lowStockThreshold", JNum (productSchema.lowStockThreshold p))] ++
        match productSchema.addedBy p with
        | None => []
        | Some id =>
            [("addedBy",
              match lookupById userSchema._id id users with
              | Some u => JObj [("_id", JStr (userSchema._id u));
                                ("fullName", JStr (userSchema.fullName u));
                                ("email", JStr (userSchema.email u))]
              | None => JNull
              end)]
        end ++
        [("createdAt", JDate (productSchema.createdAt p));
         ("updatedAt", JDate (productSchema.updatedAt p))]).

(** PUT /api/products/:id *)
Definition updateProduct (env : Env) (id : string) (body : productUpdate.t)
  : World -> Response * World :=
  try_catch "Failed to update product" (
    product <- Product_findByIdAndUpdate env id body ;;
    match product with
    | None => send product_not_found
    | Some product =>
        users <- gets users ;;
        ret (res_status_json 200
               (JObj [("success", JBool true);
                      ("data", json_of_product users product);
                      ("message", JStr "Product updated successfully")]))
    end).

(** DELETE /api/products/:id *)
Definition deleteProduct (env : Env) (id : string) : World -> Response * World :=
  try_catch "Failed to delete product" (
    product <- Product_findByIdAndDelete env id ;;
    match product with
    | None => send product_not_found
    | Some _ =>
        ret (res_status_json 200
               (JObj [("success", JBool true);
                      ("message", JStr "Product deleted successfully")]))
    end).

(** The query [{ status: { $in: ['low-stock', 'out-of-stock'] } }]. *)
Definition statusIsLow (p : productSchema.doc) : bool :=
  includes ["low-stock"; "out-of-stock"] (productSchema.status p).

(** GET /api/products/low-stock *)
Definition getLowStockProducts : World -> Response * World :=
  try_catch "Failed to fetch low stock products" (
    products <- gets (fun w => filter statusIsLow (products w)) ;;
    users <- gets users ;;
    ret (res_status_json 200
           (JObj [("success", JBool true);
                  ("count", JNum (count products));
                  ("data", JArr (map (json_of_product users) products))]))).

End product_controller.

(** *** Names for the statements about these handlers *)

(** The product document a stock operation stores for the new stock. *)
Definition restocked (env : Env) (p : productSchema.doc) (newStock : Z)
  : productSchema.doc :=
  productSchema.set_updatedAt (Date_now env)
    (productSchema.pre_save (productSchema.set_stock newStock p)).

(** The number of unread notifications a user would be told of. *)
Definition unreadCount (recipientId : string) (ns : list notificationSchema.doc) : Z :=
  count (filter (unreadQuery recipientId) ns).

(** A handler step that leaves the database as it found it. *)
Definition readonly {A : Type} (m : Handler A) : Prop :=
  forall w, snd (m w) = w.

(** What [populate] attaches to a transaction in a given database. *)
Definition populated (w : World) (t : transactionSchema.doc) : Populated :=
  {| transaction_doc := t;
     populated_product := lookupById productSchema._id (transactionSchema.product t) (products w);
     populated_performedBy :=
       lookupById userSchema._id (transactionSchema.performedBy t) (users w) |}.

(** Both references of a transaction still resolve. *)
Definition resolves (w : World) (t : transactionSchema.doc) : bool :=
  match lookupById productSchema._id (transactionSchema.product t) (products w),
        lookupById userSchema._id (transactionSchema.performedBy t) (users w) with
  | Some _, Some _ => true
  | _, _ => false
  end.

(** [o.k1.k2...] on a JSON value. *)
Fixpoint path (keys : list string) (o : Json) : option Json :=
  match keys with
  | [] => Some o
  | k :: rest =>
      match field k o with
      | Some v => path rest v
      | None => None
      end
  end.

(** Both references of a populated transaction are present. *)
Definition complete (t : Populated) : bool :=
  match populated_product t, populated_performedBy t with
  | Some _, Some _ => true
  | _, _ => false
  end.

(** The populated transactions of a report, newest first. *)
Definition newestPopulated (w : World) : list Populated :=
  sortBy (fun a b => newest_first (transaction_doc a) (transaction_doc b))
         (map (populated w) (transactions w)).

(** The product of a populated transaction is present. *)
Definition hasProduct (t : Populated) : bool :=
  match populated_product t with
  | Some _ => true
  | None => false
  end.

(** The populated transactions of an order listing, newest first. *)
Definition newestOrders (status : string) (w : World) : list Populated :=
  sortBy (fun a b => newest_first (transaction_doc a) (transaction_doc b))
         (map (populated w) (filter (clerk_controller.hasStatus status) (transactions w))).

(** The audit record [scheduleAudit] creates. *)
Definition scheduled (env : Env) (user : AuthUser) (title : string) (date : Z) (n : nat)
  : auditSchema.doc :=
  {| auditSchema._id := newObjectId env n;
     auditSchema.title := trim title;
     auditSchema.date := date;
     auditSchema.status := "scheduled";
     auditSchema.discrepancies := 0;
     auditSchema.discrepancyDetails := [];
     auditSchema.notes := trim "Audit scheduled by auditor.";
     auditSchema.createdBy := userId user;
     auditSchema.createdAt := Date_now env;
     auditSchema.updatedAt := Date_now env |}.

(** A date parser that knows one date, to run [scheduleAudit] on the
    sample database. *)
Definition sampleDate (date : string) : string + Z :=
  if (date =? "2026-03-01")%string then inr 1772323200000
  else inl "Audit validation failed: date: Cast to date failed".

(** A list in the order of [leb]: every element is before all later ones. *)
Fixpoint sortedBy {A : Type} (leb : A -> A -> bool) (l : list A) : Prop :=
  match l with
  | [] => True
  | x :: rest => (forall y, In y rest -> leb x y = true) /\ sortedBy leb rest
  end.


(** ** The status rule of the data model

    Written from the specification, to be compared with the pre-save hook:
    out-of-stock if the stock is 0, else low-stock if the stock is at most
    the threshold, else in-stock. *)
Definition derivedStatus (stock lowStockThreshold : Z) : string :=
  if stock =? 0 then "out-of-stock"
  else if stock <=? lowStockThreshold then "low-stock"
  else "in-stock".

(** ** The notifications of a fan-out

    What [Promise.all(users.map(u => sendNotification(u._id, ...)))] adds to
    the collection: one unread notification per recipient, in order, with
    consecutive ObjectIds from the [n]-th on. *)
Fixpoint fanOut (env : Env) (message type : string) (sender product : option string)
    (metadata : Json) (n : nat) (recipients : list string)
  : list notificationSchema.doc :=
  match recipients with
  | [] => []
  | r :: rest =>
      {| notificationSchema._id := newObjectId env n;
         notificationSchema.recipient := r;
         notificationSchema.sender := sender;
         notificationSchema.message := message;
         notificationSchema.type := type;
         notificationSchema.relatedProduct := product;
         notificationSchema.metadata := metadata;
         notificationSchema.isRead := false;
         notificationSchema.createdAt := Date_now env |}
      :: fanOut env message type sender product metadata (S n) rest
  end.

(** ** The ledger entry of a stock operation *)

(** The transaction [stockIn] and [stockOut] append. *)
Definition ledgerEntry (env : Env) (user : AuthUser) (body : StockBody) (n : nat)
    (pid type : string) (q previousStock newStock : Z) (fallback : string)
  : transactionSchema.doc :=
  {| transactionSchema._id := newObjectId env n;
     transactionSchema.product := pid;
     transactionSchema.type := type;
     transactionSchema.quantity := q;
     transactionSchema.reference :=
       option_map trim (Some (string_or (reference body) fallback));
     transactionSchema.performedBy := userId user;
     transactionSchema.previousStock := previousStock;
     transactionSchema.newStock := newStock;
     transactionSchema.status := "completed";
     transactionSchema.createdAt := Date_now env;
     transactionSchema.updatedAt := Date_now env |}.

(** ** Queries and updates named for the statements below *)

(** The query [{ role: 'manager' }]. *)
Definition isManager (u : userSchema.doc) : bool :=
  (userSchema.role u =? "manager")%string.

(** The update [updateOrderStatus] applies to the transaction it finds. *)
Definition statusUpdate (env : Env) (status : string) (t : transactionSchema.doc)
  : transactionSchema.doc :=
  transactionSchema.set_updatedAt (Date_now env) (transactionSchema.set_status status t).

(** ** A sample database, used to run the handlers on concrete requests *)

Module Sample.

(** [Number(s)] on the strings the sample requests hold: decimal digits
    with an optional minus sign; no other string is used. *)
Definition decimal (s : string) : option Z :=
  match NilZero.int_of_string s with
  | Some n => Some (Z.of_int n)
  | None => None
  end.

Definition is_hex (c : ascii) : bool :=
  let n := nat_of_ascii c in
  ((Nat.leb 48 n && Nat.leb n 57) || (Nat.leb 65 n && Nat.leb n 70) ||
   (Nat.leb 97 n && Nat.leb n 102))%bool.

Fixpoint all_hex (s : string) : bool :=
  match s with
  | String c rest => (is_hex c && all_hex rest)%bool
  | EmptyString => true
  end.

(** The strings of 24 hexadecimal digits, which every version of the
    driver casts to an ObjectId; the sample requests hold no other
    string of 12 or 24 characters. *)
Definition hex24 (s : string) : bool :=
  (Nat.eqb (String.length s) 24 && all_hex s)%bool.

Definition env : Env :=
  {| Date_now := 1767225600000;
     newObjectId := fun n => ("66f0c0ffee00000000000" ++ Number_toString (Z.of_nat (100 + n)))%string;
     toLocaleDateString := fun _ => "1/1/2026";
     startOfDay := fun ms => ms - ms mod 86400000;
     ToNumber := decimal;
     isObjectId := hex24 |}.


Definition product (id name sku : string) (stock price : Z) (status : string)
  : productSchema.doc :=
  {| productSchema._id := id; productSchema.name := name; productSchema.sku := sku;
     productSchema.category := "hardware"; productSchema.stock := stock;
     productSchema.price := price; productSchema.description := None;
     productSchema.status := status; productSchema.lowStockThreshold := 10;
     productSchema.addedBy := None;
     productSchema.createdAt := 1764547200000; productSchema.updatedAt := 1764547200000 |}.

Definition widget : productSchema.doc := product "66f0c0ffee00000000000001" "Widget" "X1" 5 250 "low-stock".
(** Default price, and a status written past the pre-save hook. *)
Definition gadget : productSchema.doc := product "66f0c0ffee00000000000002" "Gadget" "G7" 0 0 "in-stock".
(** A stock written past the schema's minimum. *)
Definition bolt : productSchema.doc := product "66f0c0ffee00000000000003" "Bolt" "B3" (-1) 3 "in-stock".
Definition cable : productSchema.doc := product "66f0c0ffee00000000000004" "Cable" "C4" 4 7 "in-stock".

Definition user (id fullName role : string) : userSchema.doc :=
  {| userSchema._id := id; userSchema.fullName := fullName;
     userSchema.email := (fullName ++ "@inventra.test")%string; userSchema.role := role |}.

Definition maya : userSchema.doc := user "66f0c0ffee00000000000011" "maya" "manager".
Definition chen : userSchema.doc := user "66f0c0ffee00000000000012" "chen" "clerk".
Definition omar : userSchema.doc := user "66f0c0ffee00000000000013" "omar" "manager".
Definition ana : userSchema.doc := user "66f0c0ffee00000000000014" "ana" "auditor".
Definition lena : userSchema.doc := user "66f0c0ffee00000000000015" "lena" "manager".

Definition order : transactionSchema.doc :=
  {| transactionSchema._id := "66f0c0ffee00000000000021";
     transactionSchema.product := "66f0c0ffee00000000000001";
     transactionSchema.type := "out"; transactionSchema.quantity := 2;
     transactionSchema.reference := Some "PO-17";
     transactionSchema.performedBy := "66f0c0ffee00000000000011";
     transactionSchema.previousStock := 7; transactionSchema.newStock := 5;
     transactionSchema.status := "pending";
     transactionSchema.createdAt := 1764633600000;
     transactionSchema.updatedAt := 1764633600000 |}.

Definition audit (id status : string) (discrepancies : Z)
    (details : list auditSchema.detail) : auditSchema.doc :=
  {| auditSchema._id := id; auditSchema.title := "Quarterly audit";
     auditSchema.date := 1764720000000; auditSchema.status := status;
     auditSchema.discrepancies := discrepancies;
     auditSchema.discrepancyDetails := details;
     auditSchema.notes := "Audit started by auditor";
     auditSchema.createdBy := "66f0c0ffee00000000000014";
     auditSchema.createdAt := 1764720000000; auditSchema.updatedAt := 1764720000000 |}.

Definition gadgetDetail : auditSchema.detail :=
  {| auditSchema.productId := "66f0c0ffee00000000000002";
     auditSchema.productName := None; auditSchema.sku := "G7";
     auditSchema.currentStock := 0; auditSchema.detail_status := "in-stock";
     auditSchema.detail_discrepancies :=
       [auditSchema.text "Stock is 0 but status is in-stock"] |}.

(** The same detail with the finding as [createNewAudit] builds it: an
    object, which only a write past the schema can have stored. *)
Definition gadgetObjectDetail : auditSchema.detail :=
  {| auditSchema.productId := "66f0c0ffee00000000000002";
     auditSchema.productName := None; auditSchema.sku := "G7";
     auditSchema.currentStock := 0; auditSchema.detail_status := "in-stock";
     auditSchema.detail_discrepancies :=
       [auditSchema.object
          (finding "status_mismatch" "Stock is 0 but status is in-stock" "medium")] |}.

Definition running : auditSchema.doc := audit "66f0c0ffee00000000000031" "in-progress" 1 [gadgetDetail].
Definition closed : auditSchema.doc := audit "66f0c0ffee00000000000032" "completed" 1 [gadgetDetail].
Definition imported : auditSchema.doc :=
  audit "66f0c0ffee00000000000033" "in-progress" 1 [gadgetObjectDetail].
(** A spare part that is sold out, priced, and still marked in-stock. *)
Definition spare : productSchema.doc := product "66f0c0ffee00000000000005" "Spare" "S9" 0 40 "in-stock".
(** Marked out-of-stock with three on the shelf. *)
Definition nut : productSchema.doc := product "66f0c0ffee00000000000006" "Nut" "N2" 3 5 "out-of-stock".

Definition note : notificationSchema.doc :=
  {| notificationSchema._id := "66f0c0ffee00000000000041";
     notificationSchema.recipient := "66f0c0ffee00000000000012";
     notificationSchema.sender := Some "66f0c0ffee00000000000011";
     notificationSchema.message := "Widget restocked successfully.";
     notificationSchema.type := "restock";
     notificationSchema.relatedProduct := Some "66f0c0ffee00000000000001";
     notificationSchema.metadata := JObj [];
     notificationSchema.isRead := false;
     notificationSchema.createdAt := 1764806400000 |}.

Definition world : World :=
  {| products := [widget; gadget; bolt; cable];
     transactions := [order];
     audits := [running; closed];
     users := [maya; chen; omar; ana; lena];
     notifications := [note];
     objectIds := 0 |}.

Definition asMaya : AuthUser := {| userId := "66f0c0ffee00000000000011" |}.
Definition asChen : AuthUser := {| userId := "66f0c0ffee00000000000012" |}.
Definition asAna : AuthUser := {| userId := "66f0c0ffee00000000000014" |}.
Definition asAdmin : AuthUser := {| userId := "admin-hardcoded" |}.

End Sample.

(** * Properties *)

(** ** Sorting and collections *)

Section SortingFacts.
Context {A : Type} (leb : A -> A -> bool).

Lemma insert_sorted_perm x l : Permutation (x :: l) (insert_sorted leb x l).
Proof.
  induction l as [|y rest IH]; simpl; [reflexivity|].
  destruct (leb x y); [reflexivity|].
  rewrite perm_swap. now apply perm_skip.
Qed.

Lemma sortBy_perm l : Permutation l (sortBy leb l).
Proof.
  induction l as [|x rest IH]; simpl; [constructor|].
  rewrite <- insert_sorted_perm. now apply perm_skip.
Qed.

End SortingFacts.

Section CollectionFacts.
Context {D : Type} (id_of : D -> string).

Lemma lookupById_id id c d : lookupById id_of id c = Some d -> id_of d = id.
Proof.
  unfold lookupById. intros H. apply find_some in H as [_ H].
  now apply String.eqb_eq.
Qed.

Lemma lookupById_In id c d : lookupById id_of id c = Some d -> In d c.
Proof. unfold lookupById. intros H. now apply find_some in H. Qed.

Lemma lookupById_updateOne id f c d :
  lookupById id_of id c = Some d -> id_of (f d) = id ->
  lookupById id_of id (updateOne id_of id f c) = Some (f d).
Proof.
  unfold lookupById. induction c as [|x rest IH]; simpl; [discriminate|].
  intros H Hid. destruct (id_of x =? id)%string eqn:E.
  - injection H as ->. simpl. rewrite Hid, String.eqb_refl. reflexivity.
  - simpl. rewrite E. auto.
Qed.

Lemma lookupById_app_new id c d :
  lookupById id_of id c = None -> id_of d = id ->
  lookupById id_of id (c ++ [d]) = Some d.
Proof.
  unfold lookupById. induction c as [|x rest IH]; simpl; intros H Hid.
  - rewrite Hid, String.eqb_refl. reflexivity.
  - destruct (id_of x =? id)%string; [discriminate | auto].
Qed.

(** [updateOne] changes at most the document it finds. *)
Lemma updateOne_other id f c d :
  In d (updateOne id_of id f c) -> In d c \/ exists d0, In d0 c /\ id_of d0 = id /\ d = f d0.
Proof.
  induction c as [|x rest IH]; simpl; [tauto|].
  destruct (id_of x =? id)%string eqn:E; simpl.
  - intros [<- | H]; [|tauto]. right. exists x. apply String.eqb_eq in E. tauto.
  - intros [<- | H]; [tauto|]. destruct (IH H) as [H1 | [d0 [H1 H2]]]; [tauto|].
    right. exists d0. tauto.
Qed.

Lemma updateOne_length id f c :
  List.length (updateOne id_of id f c) = List.length c.
Proof.
  induction c as [|x rest IH]; simpl; [reflexivity|].
  destruct (id_of x =? id)%string; simpl; congruence.
Qed.

End CollectionFacts.

(** ** Status Deriver *)

Lemma pre_save_status d :
  productSchema.status (productSchema.pre_save d) =
  derivedStatus (productSchema.stock d) (productSchema.lowStockThreshold d).
Proof.
  unfold productSchema.pre_save, derivedStatus.
  destruct (productSchema.stock d =? 0); [reflexivity|].
  destruct (productSchema.stock d <=? productSchema.lowStockThreshold d); reflexivity.
Qed.

Lemma pre_save_overwrites s d :
  productSchema.pre_save (productSchema.set_status s d) = productSchema.pre_save d.
Proof.
  unfold productSchema.pre_save. simpl.
  destruct (productSchema.stock d =? 0); [reflexivity|].
  destruct (productSchema.stock d <=? productSchema.lowStockThreshold d); reflexivity.
Qed.

Lemma pre_save_frame d :
  productSchema._id (productSchema.pre_save d) = productSchema._id d /\
  productSchema.stock (productSchema.pre_save d) = productSchema.stock d /\
  productSchema.lowStockThreshold (productSchema.pre_save d) =
  productSchema.lowStockThreshold d.
Proof.
  unfold productSchema.pre_save.
  destruct (productSchema.stock d =? 0); [now simpl|].
  destruct (productSchema.stock d <=? productSchema.lowStockThreshold d); now simpl.
Qed.

Lemma Product_write_lookup d c :
  lookupById productSchema._id (productSchema._id d) (Product.write d c) = Some d.
Proof.
  unfold Product.write.
  destruct (lookupById productSchema._id (productSchema._id d) c) as [d0|] eqn:E.
  - now apply (lookupById_updateOne productSchema._id _ (fun _ => d) c d0).
  - now apply lookupById_app_new.
Qed.

(** What a successful [product.save()] returns and leaves in the world. *)
Lemma Product_save_value env d w saved w' :
  Product.save env d w = (Value saved, w') ->
  productSchema.validate d = [] /\
  saved = productSchema.set_updatedAt (Date_now env) (productSchema.pre_save d) /\
  w' = set_products (Product.write saved (products w)) w.
Proof.
  unfold Product.save. destruct (productSchema.validate d); [|discriminate].
  unfold bind, modify, ret. intros H. injection H as <- <-. auto.
Qed.

Lemma Product_save_valid env d w :
  productSchema.validate d = [] ->
  Product.save env d w =
  (Value (productSchema.set_updatedAt (Date_now env) (productSchema.pre_save d)),
   set_products
     (Product.write
        (productSchema.set_updatedAt (Date_now env) (productSchema.pre_save d))
        (products w)) w).
Proof. unfold Product.save. now intros ->. Qed.

(** C1. Whatever status the caller put on a product, a successful save
    through [product.save()] leaves in the collection, under the product's
    id, a document whose status is the one derived from its stock and
    threshold: out-of-stock if the stock is 0, else low-stock if the stock
    is at most the threshold, else in-stock.  Stock and threshold are
    stored as given. *)
Theorem save_persists_derived_status env d s w saved w' :
  Product.save env (productSchema.set_status s d) w = (Value saved, w') ->
  lookupById productSchema._id (productSchema._id d) (products w') = Some saved /\
  productSchema.status saved =
    derivedStatus (productSchema.stock saved) (productSchema.lowStockThreshold saved) /\
  productSchema.stock saved = productSchema.stock d /\
  productSchema.lowStockThreshold saved = productSchema.lowStockThreshold d.
Proof.
  intros H. apply Product_save_value in H as (_ & Hs & ->).
  rewrite pre_save_overwrites in Hs.
  destruct (pre_save_frame d) as (Hid & Hstock & Hthr).
  assert (Hid' : productSchema._id saved = productSchema._id d) by now subst saved.
  assert (Hst : productSchema.stock saved = productSchema.stock d) by now subst saved.
  assert (Hth : productSchema.lowStockThreshold saved = productSchema.lowStockThreshold d)
    by now subst saved.
  repeat split; auto.
  - simpl. rewrite <- Hid'. apply Product_write_lookup.
  - rewrite Hst, Hth, <- pre_save_status. now subst saved.
Qed.

(** The save of an empty Gadget stamped in-stock by its caller stores it
    as out-of-stock. *)
Lemma save_persists_derived_status_witness :
  let saved := productSchema.set_updatedAt (Date_now Sample.env)
                 (productSchema.set_status "out-of-stock" Sample.gadget) in
  lookupById productSchema._id "66f0c0ffee00000000000002"
    (products (set_products (Product.write saved (products Sample.world)) Sample.world))
    = Some saved /\
  productSchema.status saved = derivedStatus 0 10 /\
  productSchema.stock saved = 0 /\
  productSchema.lowStockThreshold saved = 10.
Proof.
  exact (save_persists_derived_status Sample.env Sample.gadget "in-stock"
           Sample.world _ _ eq_refl).
Defined.

(** ** Notification Relay: fan-out *)

Lemma fanOut_recipients env message type sender product metadata n recipients :
  map notificationSchema.recipient
      (fanOut env message type sender product metadata n recipients) = recipients.
Proof.
  revert n. induction recipients as [|r rest IH]; intros n; simpl; [reflexivity|].
  now rewrite IH.
Qed.

Lemma fanOut_type env message type sender product metadata n recipients :
  Forall (fun d => notificationSchema.type d = type)
         (fanOut env message type sender product metadata n recipients).
Proof.
  revert n. induction recipients as [|r rest IH]; intros n; simpl; constructor; auto.
Qed.

Lemma fanOut_length env message type sender product metadata n recipients :
  List.length (fanOut env message type sender product metadata n recipients) =
  List.length recipients.
Proof.
  revert n. induction recipients as [|r rest IH]; intros n; simpl; [reflexivity|].
  now rewrite IH.
Qed.

(** Sending to each user of a list always completes; it appends the
    fan-out to the notifications and touches nothing else but the ObjectId
    counter. *)
Lemma mapM_sendNotification env message type sender product metadata us w :
  mapM (fun u =>
          notificationService.sendNotification env (userSchema._id u)
            message type sender product metadata) us w =
  (Value (fanOut env message type sender product metadata (objectIds w)
            (map userSchema._id us)),
   set_objectIds (objectIds w + List.length us)
     (set_notifications
        (notifications w ++
         fanOut env message type sender product metadata (objectIds w)
           (map userSchema._id us)) w)).
Proof.
  revert w. induction us as [|u rest IH]; intros w.
  - destruct w. unfold set_objectIds, set_notifications. simpl.
    unfold ret. now rewrite app_nil_r, Nat.add_0_r.
  - cbn [mapM]. unfold bind at 1.
    unfold notificationService.sendNotification at 1, Notification.create,
      freshObjectId, bind, gets, modify, ret.
    cbn beta iota. fold (@bind). rewrite IH. destruct w.
    unfold set_objectIds, set_notifications. cbn.
    now rewrite <- app_assoc, Nat.add_succ_r.
Qed.

(** ** Stock Ledger *)

Lemma truthy_string_Some s : s <> "" -> truthy_string (Some s) = true.
Proof.
  intros H. unfold truthy_string. now destruct (String.eqb_spec s "").
Qed.

Lemma truthy_number_positive q : 0 < q -> truthy_value (Some (JsNumber q)) = true.
Proof.
  intros H. unfold truthy_value. destruct (Z.eqb_spec q 0); [lia | reflexivity].
Qed.

(** A query by id that finds a document returns it. *)
Lemma queryById_found {D : Type} env (id_of : D -> string) model collection id d w :
  lookupById id_of id (collection w) = Some d ->
  queryById env id_of model collection id w = (Value (Some d), w).
Proof. intros H. unfold queryById, bind, gets. now rewrite H. Qed.

(** A query by an id that finds none returns null when the id can be
    cast, and throws when it cannot. *)
Lemma queryById_unknown {D : Type} env (id_of : D -> string) model collection id w :
  lookupById id_of id (collection w) = None ->
  queryById env id_of model collection id w =
  if isObjectId env id then (Value None, w)
  else (Thrown (CastError_ObjectId model id), w).
Proof.
  intros H. unfold queryById, bind, gets. rewrite H.
  now destruct (isObjectId env id).
Qed.

(** A query by id never writes. *)
Lemma queryById_frame {D : Type} env (id_of : D -> string) model collection id w :
  snd (queryById env id_of model collection id w) = w.
Proof.
  unfold queryById, bind, gets.
  destruct (lookupById id_of id (collection w)); [reflexivity|].
  now destruct (isObjectId env id).
Qed.

(** The guard of both stock operations lets a present product id and a
    positive quantity through. *)
Lemma stock_guard env body pid q :
  productId body = Some pid -> pid <> "" ->
  quantity body = Some (JsNumber q) -> 0 < q ->
  (negb (truthy_string (productId body)) || negb (truthy_value (quantity body)) ||
   js_le env (value_of (quantity body)) 0)%bool = false /\
  string_of (productId body) = pid /\ value_of (quantity body) = JsNumber q.
Proof.
  intros -> Hpid -> Hq. rewrite truthy_string_Some, truthy_number_positive by assumption.
  cbn. split; [|auto]. apply Z.leb_gt. lia.
Qed.

(** C3. For an existing product and a positive quantity larger than its
    stock, [stockOut] answers 400 with the payload
    [{available: stock, requested: quantity}] and leaves the whole
    database as it was: the product keeps its stock and status and no
    transaction is appended. *)
Theorem stockOut_insufficient env user body pid q p w :
  productId body = Some pid -> pid <> "" ->
  quantity body = Some (JsNumber q) -> 0 < q ->
  lookupById productSchema._id pid (products w) = Some p ->
  productSchema.stock p < q ->
  stockOut env user body w =
  (res_status_json 400
     (JObj [("success", JBool false);
            ("error", JStr ("Insufficient stock. Available: " ++
                            Number_toString (productSchema.stock p) ++
                            ", Requested: " ++ Number_toString q)%string);
            ("data", JObj [("available", JNum (productSchema.stock p));
                           ("requested", JNum q)])]),
   w).
Proof.
  intros Hpid Hne Hq Hpos Hfind Hlt.
  destruct (stock_guard env body pid q Hpid Hne Hq Hpos) as (Hguard & Hp & Hn).
  unfold stockOut, try_catch. rewrite Hguard, Hp, Hn.
  unfold bind at 1. unfold Product.findById. rewrite (queryById_found _ _ _ _ _ _ _ Hfind).
  cbn [js_lt toNumber js_toString json_of_value].
  apply Z.ltb_lt in Hlt. rewrite Hlt. reflexivity.
Qed.

(** Twenty Widgets asked of a stock of five. *)
Lemma stockOut_insufficient_witness :
  stockOut Sample.env Sample.asMaya
    {| productId := Some "66f0c0ffee00000000000001"; quantity := Some (JsNumber 20);
       reference := None |} Sample.world =
  (res_status_json 400
     (JObj [("success", JBool false);
            ("error", JStr "Insufficient stock. Available: 5, Requested: 20");
            ("data", JObj [("available", JNum 5); ("requested", JNum 20)])]),
   Sample.world).
Proof.
  apply (stockOut_insufficient Sample.env Sample.asMaya
           {| productId := Some "66f0c0ffee00000000000001"; quantity := Some (JsNumber 20);
              reference := None |}
           "66f0c0ffee00000000000001" 20 Sample.widget Sample.world).
  - reflexivity.
  - discriminate.
  - reflexivity.
  - reflexivity.
  - reflexivity.
  - reflexivity.
Defined.

(** A transaction of a positive quantity, of type in or out and status
    completed, passes the Transaction validators. *)
Lemma Transaction_create_completed env product type q reference performedBy
    previousStock newStock w :
  0 < q -> includes transactionSchema.type_enum type = true ->
  Transaction.create env product type q reference performedBy previousStock newStock
    "completed" w =
  let t := {| transactionSchema._id := newObjectId env (objectIds w);
              transactionSchema.product := product;
              transactionSchema.type := type;
              transactionSchema.quantity := q;
              transactionSchema.reference := option_map trim reference;
              transactionSchema.performedBy := performedBy;
              transactionSchema.previousStock := previousStock;
              transactionSchema.newStock := newStock;
              transactionSchema.status := "completed";
              transactionSchema.createdAt := Date_now env;
              transactionSchema.updatedAt := Date_now env |} in
  (Value t, set_transactions (transactions w ++ [t]) (set_objectIds (S (objectIds w)) w)).
Proof.
  intros Hq Hty. unfold Transaction.create, freshObjectId, bind, gets, modify, ret.
  cbn beta iota. unfold transactionSchema.validate, enum_string, min_number.
  cbn [transactionSchema.type transactionSchema.quantity transactionSchema.status].
  rewrite Hty. replace (q <? 1) with false by (symmetry; apply Z.ltb_ge; lia).
  reflexivity.
Qed.

(** The run of [stockIn] when the product with its new stock is valid. *)
Lemma stockIn_valid env user body pid q p w :
  productId body = Some pid -> pid <> "" ->
  quantity body = Some (JsNumber q) -> 0 < q ->
  lookupById productSchema._id pid (products w) = Some p ->
  productSchema.validate (productSchema.set_stock (productSchema.stock p + q) p) = [] ->
  let saved := productSchema.set_updatedAt (Date_now env)
                 (productSchema.pre_save
                    (productSchema.set_stock (productSchema.stock p + q) p)) in
  let t := ledgerEntry env user body (objectIds w) pid "in" q (productSchema.stock p)
             (productSchema.stock p + q)
             ("STOCK-IN-" ++ Number_toString (Date_now env))%string in
  exists ns n,
    stockIn env user body w =
    (stock_response "Stock added successfully" saved (productSchema.stock p)
       (JNum (productSchema.stock p + q)) t,
     set_objectIds n
       (set_notifications ns
          (set_transactions (transactions w ++ [t])
             (set_objectIds (S (objectIds w))
                (set_products (Product.write saved (products w)) w))))).
Proof.
  intros Hpid Hne Hq Hpos Hfind V saved t.
  destruct (stock_guard env body pid q Hpid Hne Hq Hpos) as (Hguard & Hp & Hn).
  unfold stockIn, try_catch. rewrite Hguard, Hp, Hn.
  unfold bind at 1. unfold Product.findById. rewrite (queryById_found _ _ _ _ _ _ _ Hfind).
  cbn [js_plus toNumber Product.save_stock Transaction.create_cast js_toString
       json_of_value].
  unfold bind at 1. rewrite (Product_save_valid _ _ _ V).
  unfold bind at 1. rewrite Transaction_create_completed by (assumption || reflexivity).
  cbv zeta. unfold bind at 1. unfold User.find at 1, gets at 1.
  unfold bind at 1. rewrite mapM_sendNotification. unfold ret.
  do 2 eexists. reflexivity.
Qed.

(** The run of [stockIn] when the product with its new stock is rejected
    by the schema: the save throws and nothing is written. *)
Lemma stockIn_invalid env user body pid q p w :
  productId body = Some pid -> pid <> "" ->
  quantity body = Some (JsNumber q) -> 0 < q ->
  lookupById productSchema._id pid (products w) = Some p ->
  productSchema.validate (productSchema.set_stock (productSchema.stock p + q) p) <> [] ->
  statusCode (fst (stockIn env user body w)) = 500 /\ snd (stockIn env user body w) = w.
Proof.
  intros Hpid Hne Hq Hpos Hfind V.
  destruct (stock_guard env body pid q Hpid Hne Hq Hpos) as (Hguard & Hp & Hn).
  unfold stockIn, try_catch. rewrite Hguard, Hp, Hn.
  unfold bind. unfold Product.findById. rewrite !(queryById_found _ _ _ _ _ _ _ Hfind).
  cbn [js_plus toNumber Product.save_stock]. unfold Product.save.
  destruct (productSchema.validate
              (productSchema.set_stock (productSchema.stock p + q) p));
    [congruence|].
  unfold throw. now simpl.
Qed.

(** For an existing product [p] and a quantity that is an integer number
    [q > 0], a successful [stockIn] (answer 200) leaves the product with
    stock [stock p + q], where [stock p] is the stock read at the start,
    and appends exactly one transaction, of type in and status completed,
    whose previousStock and newStock are [stock p] and [stock p + q].  For
    such a quantity the operation does succeed whenever the product with
    its new stock passes the schema validators. *)
Theorem stockIn_adds_quantity env user body pid q p w :
  productId body = Some pid -> pid <> "" ->
  quantity body = Some (JsNumber q) -> 0 < q ->
  lookupById productSchema._id pid (products w) = Some p ->
  (productSchema.validate (productSchema.set_stock (productSchema.stock p + q) p) = [] ->
   statusCode (fst (stockIn env user body w)) = 200) /\
  (statusCode (fst (stockIn env user body w)) = 200 ->
   (exists p',
      lookupById productSchema._id pid (products (snd (stockIn env user body w))) = Some p' /\
      productSchema.stock p' = productSchema.stock p + q) /\
   (exists t,
      transactions (snd (stockIn env user body w)) = transactions w ++ [t] /\
      transactionSchema.product t = pid /\
      transactionSchema.type t = "in" /\
      transactionSchema.quantity t = q /\
      transactionSchema.status t = "completed" /\
      transactionSchema.previousStock t = productSchema.stock p /\
      transactionSchema.newStock t = productSchema.stock p + q)).
Proof.
  intros Hpid Hne Hq Hpos Hfind.
  pose proof (lookupById_id _ _ _ _ Hfind) as Hid.
  destruct (productSchema.validate
              (productSchema.set_stock (productSchema.stock p + q) p)) eqn:V.
  - destruct (stockIn_valid env user body pid q p w Hpid Hne Hq Hpos Hfind V)
      as (ns & n & ->).
    cbn [fst snd]. split; [reflexivity|]. intros _. split.
    + eexists. split.
      * cbn [products set_objectIds set_notifications set_transactions set_products].
        rewrite <- Hid at 1.
        replace (productSchema._id p) with
          (productSchema._id
             (productSchema.set_updatedAt (Date_now env)
                (productSchema.pre_save
                   (productSchema.set_stock (productSchema.stock p + q) p)))).
        -- apply Product_write_lookup.
        -- simpl. now rewrite (proj1 (pre_save_frame _)).
      * simpl. now rewrite (proj1 (proj2 (pre_save_frame _))).
    + eexists. split; [reflexivity|]. unfold ledgerEntry. cbn. repeat split; reflexivity.
  - assert (V' : productSchema.validate
                   (productSchema.set_stock (productSchema.stock p + q) p) <> [])
      by (rewrite V; discriminate).
    destruct (stockIn_invalid env user body pid q p w Hpid Hne Hq Hpos Hfind V')
      as [H500 _].
    rewrite H500. split; discriminate.
Qed.

(** Twenty Widgets added to a stock of five. *)
Lemma stockIn_adds_quantity_witness :
  let body := {| productId := Some "66f0c0ffee00000000000001"; quantity := Some (JsNumber 20);
                 reference := None |} in
  statusCode (fst (stockIn Sample.env Sample.asMaya body Sample.world)) = 200 /\
  (exists p',
     lookupById productSchema._id "66f0c0ffee00000000000001"
       (products (snd (stockIn Sample.env Sample.asMaya body Sample.world))) = Some p' /\
     productSchema.stock p' = 5 + 20) /\
  (exists t,
     transactions (snd (stockIn Sample.env Sample.asMaya body Sample.world)) =
       transactions Sample.world ++ [t] /\
     transactionSchema.product t = "66f0c0ffee00000000000001" /\
     transactionSchema.type t = "in" /\
     transactionSchema.quantity t = 20 /\
     transactionSchema.status t = "completed" /\
     transactionSchema.previousStock t = 5 /\
     transactionSchema.newStock t = 5 + 20).
Proof.
  intros body.
  assert (Hne : "66f0c0ffee00000000000001" <> "") by discriminate.
  assert (Hpos : 0 < 20) by reflexivity.
  destruct (stockIn_adds_quantity Sample.env Sample.asMaya body
              "66f0c0ffee00000000000001" 20 Sample.widget Sample.world
              eq_refl Hne eq_refl Hpos eq_refl) as [Hok Hdone].
  split; [exact (Hok eq_refl) | exact (Hdone (Hok eq_refl))].
Defined.

(** The end-to-end example of the specification: a product with stock 5
    and threshold 10 receives 20 units; its stock is 25, its status flips
    from low-stock to in-stock, and every clerk gets a restock
    notification. *)
Example stockIn_end_to_end :
  let body := {| productId := Some "66f0c0ffee00000000000001"; quantity := Some (JsNumber 20);
                 reference := None |} in
  let after := snd (stockIn Sample.env Sample.asMaya body Sample.world) in
  option_map (fun p => (productSchema.stock p, productSchema.status p))
    (lookupById productSchema._id "66f0c0ffee00000000000001" (products after)) =
    Some (25, "in-stock") /\
  map (fun n => (notificationSchema.recipient n, notificationSchema.type n))
    (skipn 1 (notifications after)) =
    [("66f0c0ffee00000000000012", "restock")].
Proof. split; reflexivity. Qed.

(** ** Audit Engine: completing an audit *)

Lemma Audit_validate_completed a :
  auditSchema.validate (auditSchema.set_status "completed" a) =
  required_string "title" "Audit title is required" (auditSchema.title a) ++
  auditSchema.cast_details 0 (auditSchema.discrepancyDetails a).
Proof. reflexivity. Qed.

(** Without details there is nothing to cast. *)
Lemma Audit_validate_no_details a :
  auditSchema.title a <> "" -> auditSchema.discrepancyDetails a = [] ->
  auditSchema.validate (auditSchema.set_status "completed" a) = [].
Proof.
  intros Htitle Hnone. rewrite Audit_validate_completed, Hnone.
  unfold required_string. apply String.eqb_neq in Htitle. now rewrite Htitle.
Qed.

Lemma completeAudit_closed env id a w :
  lookupById auditSchema._id id (audits w) = Some a ->
  auditSchema.status a = "completed" ->
  completeAudit env id w =
  (res_status_json 400
     (JObj [("success", JBool false); ("error", JStr "Audit is already completed")]),
   w).
Proof.
  intros Hfind Hst. unfold completeAudit, try_catch, bind, Audit.findById.
  rewrite (queryById_found _ _ _ _ _ _ _ Hfind), Hst. reflexivity.
Qed.

Lemma completeAudit_open env id a w :
  lookupById auditSchema._id id (audits w) = Some a ->
  (auditSchema.status a =? "completed")%string = false ->
  completeAudit env id w =
  match auditSchema.validate (auditSchema.set_status "completed" a) with
  | [] =>
      let a' := auditSchema.set_updatedAt (Date_now env)
                  (auditSchema.set_status "completed" a) in
      (res_status_json 200
         (JObj [("success", JBool true);
                ("message", JStr "Audit marked as completed successfully");
                ("data", json_of_audit a')]),
       set_audits (updateOne auditSchema._id id (fun _ => a') (audits w)) w)
  | e :: errs =>
      (res_status_json 500
         (JObj [("success", JBool false);
                ("error",
                 JStr (message_or (validationMessage "Audit" (e :: errs))
                         "Failed to complete audit"))]),
       w)
  end.
Proof.
  intros Hfind Hopen. pose proof (lookupById_id _ _ _ _ Hfind) as Hid.
  unfold completeAudit, try_catch, bind, Audit.findById.
  rewrite (queryById_found _ _ _ _ _ _ _ Hfind), Hopen. unfold Audit.save.
  destruct (auditSchema.validate (auditSchema.set_status "completed" a)); [|reflexivity].
  unfold bind, modify, ret, Audit.write.
  cbn [auditSchema._id auditSchema.set_updatedAt auditSchema.set_status].
  rewrite Hid, Hfind. reflexivity.
Qed.

(** C4, as amended.  For a stored audit, [completeAudit] refuses an
    already completed one with the answer 400, "Audit is already
    completed", and leaves the database as it was.  For a scheduled or
    in-progress audit the stored record keeps its discrepancy count and
    details, and, when the record passes the validation of the schema,
    the answer is 200 and the record is the old one with status completed
    (and a new [updatedAt]); no other record changes. *)
Theorem completeAudit_once env id a w :
  lookupById auditSchema._id id (audits w) = Some a ->
  (auditSchema.status a = "completed" ->
   completeAudit env id w =
   (res_status_json 400
      (JObj [("success", JBool false); ("error", JStr "Audit is already completed")]),
    w)) /\
  (auditSchema.status a = "scheduled" \/ auditSchema.status a = "in-progress" ->
   exists a',
     lookupById auditSchema._id id (audits (snd (completeAudit env id w))) = Some a' /\
     auditSchema.discrepancies a' = auditSchema.discrepancies a /\
     auditSchema.discrepancyDetails a' = auditSchema.discrepancyDetails a /\
     (auditSchema.validate (auditSchema.set_status "completed" a) = [] ->
      a' = auditSchema.set_updatedAt (Date_now env)
             (auditSchema.set_status "completed" a) /\
      auditSchema.status a' = "completed" /\
      completeAudit env id w =
      (res_status_json 200
         (JObj [("success", JBool true);
                ("message", JStr "Audit marked as completed successfully");
                ("data", json_of_audit a')]),
       set_audits (updateOne auditSchema._id id (fun _ => a') (audits w)) w))).
Proof.
  intros Hfind. pose proof (lookupById_id _ _ _ _ Hfind) as Hid. split.
  - now apply completeAudit_closed.
  - intros Hst.
    assert (Hopen : (auditSchema.status a =? "completed")%string = false)
      by (destruct Hst as [-> | ->]; reflexivity).
    rewrite (completeAudit_open env id a w Hfind Hopen).
    destruct (auditSchema.validate (auditSchema.set_status "completed" a)) as [|e errs].
    + exists (auditSchema.set_updatedAt (Date_now env)
                (auditSchema.set_status "completed" a)).
      cbn [fst snd audits set_audits]. repeat split.
      now apply (lookupById_updateOne auditSchema._id id (fun _ => _) (audits w) a).
    + exists a. cbn [fst snd]. repeat split; auto; discriminate.
Qed.

(** The completed sample audit is refused; the running one, whose finding
    is stored as a string, is completed and keeps it. *)
Lemma completeAudit_once_witness :
  completeAudit Sample.env "66f0c0ffee00000000000032" Sample.world =
  (res_status_json 400
     (JObj [("success", JBool false); ("error", JStr "Audit is already completed")]),
   Sample.world) /\
  exists a',
    lookupById auditSchema._id "66f0c0ffee00000000000031"
      (audits (snd (completeAudit Sample.env "66f0c0ffee00000000000031" Sample.world)))
      = Some a' /\
    auditSchema.discrepancies a' = 1 /\
    auditSchema.discrepancyDetails a' = [Sample.gadgetDetail] /\
    auditSchema.status a' = "completed".
Proof.
  split.
  - exact (proj1 (completeAudit_once Sample.env "66f0c0ffee00000000000032"
                    Sample.closed Sample.world eq_refl) eq_refl).
  - destruct (proj2 (completeAudit_once Sample.env "66f0c0ffee00000000000031"
                       Sample.running Sample.world eq_refl) (or_intror eq_refl))
      as (a' & Hlook & Hn & Hd & Hdone).
    exists a'. repeat split; auto.
    apply Hdone. reflexivity.
Defined.

(** The refusal of a completed audit is the answer 400 of the handler's
    own guard, not a 409 Conflict; and an in-progress audit whose one
    finding is stored as an object is not completed: the answer is 500
    and the record stays in-progress. *)
Lemma completed_audit_answers_400 :
  statusCode (fst (completeAudit Sample.env "66f0c0ffee00000000000032" Sample.world)) = 400 /\
  statusCode (fst (completeAudit Sample.env "66f0c0ffee00000000000032" Sample.world)) <> 409 /\
  (let w := set_audits [Sample.imported] Sample.world in
   auditSchema.status Sample.imported = "in-progress" /\
   statusCode (fst (completeAudit Sample.env "66f0c0ffee00000000000033" w)) = 500 /\
   option_map auditSchema.status
     (lookupById auditSchema._id "66f0c0ffee00000000000033"
        (audits (snd (completeAudit Sample.env "66f0c0ffee00000000000033" w))))
     = Some "in-progress").
Proof. split; [reflexivity|]. split; [discriminate|]. repeat split. Qed.

(** ** Audit Engine: the scan of [createNewAudit] *)

Lemma count_positive {A : Type} (xs : list A) :
  (count xs >? 0) = true <-> xs <> [].
Proof.
  unfold count. destruct xs as [|x rest]; simpl.
  - split; [discriminate | congruence].
  - split; [discriminate | reflexivity].
Qed.

(** The loop pushes, product after product, the product's findings onto
    [discrepancies] and, if there are any, one entry onto [auditResults]. *)
Lemma auditProducts_from acc allProducts :
  fold_left auditStep allProducts acc =
  (fst acc ++ flat_map productDiscrepancies allProducts,
   snd acc ++ map resultOf
                (filter (fun p => count (productDiscrepancies p) >? 0) allProducts)).
Proof.
  revert acc. induction allProducts as [|p rest IH]; intros [ds rs]; simpl.
  - now rewrite !app_nil_r.
  - rewrite IH. unfold auditStep.
    destruct (count (productDiscrepancies p) >? 0) eqn:E; simpl.
    + now rewrite <- !app_assoc.
    + destruct (productDiscrepancies p) as [|d rest']; [reflexivity|].
      exfalso. assert ((count (d :: rest') >? 0) = true) by now apply count_positive.
      congruence.
Qed.

Lemma auditProducts_spec allProducts :
  auditProducts allProducts =
  (flat_map productDiscrepancies allProducts,
   map resultOf (filter (fun p => count (productDiscrepancies p) >? 0) allProducts)).
Proof. unfold auditProducts. now rewrite auditProducts_from. Qed.

(** A product with a finding has its entry among the results. *)
Lemma auditResults_flagged allProducts p :
  In p allProducts -> productDiscrepancies p <> [] ->
  In (resultOf p) (snd (auditProducts allProducts)).
Proof.
  intros Hin Hne. rewrite auditProducts_spec. simpl. apply in_map.
  apply filter_In. split; [assumption|]. now apply count_positive.
Qed.

(** The third check fires exactly on a positive stock within the
    threshold whose status is neither low-stock nor out-of-stock. *)
Lemma low_stock_mismatch_check p :
  ((productSchema.stock p >? 0) &&
   (productSchema.stock p <=? productSchema.lowStockThreshold p) &&
   negb (productSchema.status p =? "low-stock")%string &&
   negb (productSchema.status p =? "out-of-stock")%string)%bool = true <->
  (0 < productSchema.stock p <= productSchema.lowStockThreshold p /\
   productSchema.status p <> "low-stock" /\
   productSchema.status p <> "out-of-stock").
Proof.
  rewrite !andb_true_iff, !negb_true_iff, !String.eqb_neq, Z.leb_le, Z.gtb_ltb, Z.ltb_lt.
  tauto.
Qed.

(** In the two arrays the scan of [createNewAudit] builds, a
    product with stock 0 and status in-stock has its entry among the
    audit results, and its findings are a status_mismatch of severity
    medium, followed by an invalid_price of severity medium when the price
    is not positive, and nothing else.  This is about the arrays of the
    loop, not about what the handler then stores or answers. *)
Theorem audit_empty_in_stock allProducts p :
  In p allProducts ->
  productSchema.stock p = 0 -> productSchema.status p = "in-stock" ->
  In (resultOf p) (snd (auditProducts allProducts)) /\
  auditResult.discrepancies (resultOf p) =
    finding "status_mismatch" "Stock is 0 but status is in-stock" "medium" ::
    (if productSchema.price p <=? 0
     then [finding "invalid_price"
             ("Invalid or missing price: " ++ Number_toString (productSchema.price p))%string
             "medium"]
     else []).
Proof.
  intros Hin Hstock Hstatus.
  assert (Hfindings :
    productDiscrepancies p =
    finding "status_mismatch" "Stock is 0 but status is in-stock" "medium" ::
    (if productSchema.price p <=? 0
     then [finding "invalid_price"
             ("Invalid or missing price: " ++ Number_toString (productSchema.price p))%string
             "medium"]
     else [])).
  { unfold productDiscrepancies. rewrite Hstock, Hstatus. cbn.
    destruct (Z.eqb_spec (productSchema.price p) 0) as [-> | Hp]; [reflexivity|].
    cbn. reflexivity. }
  split.
  - apply auditResults_flagged; [assumption|]. rewrite Hfindings. discriminate.
  - exact Hfindings.
Qed.

(** The scan of the sample products reports two findings on the Gadget. *)
Lemma audit_empty_in_stock_witness :
  In (resultOf Sample.gadget) (snd (auditProducts (products Sample.world))) /\
  auditResult.discrepancies (resultOf Sample.gadget) =
    [finding "status_mismatch" "Stock is 0 but status is in-stock" "medium";
     finding "invalid_price" "Invalid or missing price: 0" "medium"].
Proof.
  apply (audit_empty_in_stock (products Sample.world) Sample.gadget).
  - right. left. reflexivity.
  - reflexivity.
  - reflexivity.
Defined.

(** The Gadget has stock 0 and status in-stock, and the price it got by
    default, 0, earns it a second finding in the scan. *)
Lemma gadget_has_two_findings :
  productSchema.stock Sample.gadget = 0 /\
  productSchema.status Sample.gadget = "in-stock" /\
  snd (auditProducts [Sample.gadget]) = [resultOf Sample.gadget] /\
  map auditSchema.type (auditResult.discrepancies (resultOf Sample.gadget)) =
    ["status_mismatch"; "invalid_price"] /\
  ~ (exists d, auditResult.discrepancies (resultOf Sample.gadget) = [d]).
Proof.
  repeat split. intros [d H]. discriminate H.
Qed.

(** In the arrays the scan of [createNewAudit] builds, a product
    has a finding of severity low if and only if its stock is positive
    and at most its threshold and its status is neither low-stock nor
    out-of-stock; that finding is the low_stock_mismatch one.  This is
    about the arrays of the loop, not about what the handler then stores
    or answers. *)
Theorem audit_threshold_mismatch allProducts p :
  In p allProducts ->
  ((In (resultOf p) (snd (auditProducts allProducts)) /\
    exists d, In d (auditResult.discrepancies (resultOf p)) /\
              auditSchema.severity d = "low") <->
   (0 < productSchema.stock p <= productSchema.lowStockThreshold p /\
    productSchema.status p <> "low-stock" /\
    productSchema.status p <> "out-of-stock")) /\
  (forall d, In d (auditResult.discrepancies (resultOf p)) ->
             auditSchema.severity d = "low" ->
             auditSchema.type d = "low_stock_mismatch").
Proof.
  intros Hin. pose proof (low_stock_mismatch_check p) as Hcheck.
  cbn [resultOf auditResult.discrepancies]. unfold productDiscrepancies in *.
  destruct ((productSchema.stock p >? 0) &&
            (productSchema.stock p <=? productSchema.lowStockThreshold p) &&
            negb (productSchema.status p =? "low-stock")%string &&
            negb (productSchema.status p =? "out-of-stock")%string)%bool eqn:E3.
  - split.
    + split; [intros _; now apply Hcheck|]. intros _. split.
      * apply auditResults_flagged; [assumption|]. unfold productDiscrepancies.
        rewrite E3. intros H. apply (f_equal (@List.length _)) in H.
        rewrite !length_app in H. simpl in H. lia.
      * eexists. split.
        -- apply in_or_app. right. apply in_or_app. right. apply in_or_app. left.
           left. reflexivity.
        -- reflexivity.
    + intros d Hd Hlow. repeat (apply in_app_or in Hd; destruct Hd as [Hd | Hd]).
      * destruct (productSchema.stock p <? 0); [|contradiction].
        destruct Hd as [<- | []]. discriminate Hlow.
      * destruct ((productSchema.stock p =? 0) && _)%bool; [|contradiction].
        destruct Hd as [<- | []]. discriminate Hlow.
      * destruct Hd as [<- | []]. reflexivity.
      * destruct ((productSchema.price p =? 0) || _)%bool; [|contradiction].
        destruct Hd as [<- | []]. discriminate Hlow.
  - split.
    + split; [|intros H; apply Hcheck in H; discriminate].
      intros [_ [d [Hd Hlow]]]. exfalso.
      repeat (apply in_app_or in Hd; destruct Hd as [Hd | Hd]).
      * destruct (productSchema.stock p <? 0); [|contradiction].
        destruct Hd as [<- | []]. discriminate Hlow.
      * destruct ((productSchema.stock p =? 0) && _)%bool; [|contradiction].
        destruct Hd as [<- | []]. discriminate Hlow.
      * contradiction.
      * destruct ((productSchema.price p =? 0) || _)%bool; [|contradiction].
        destruct Hd as [<- | []]. discriminate Hlow.
    + intros d Hd Hlow. exfalso.
      repeat (apply in_app_or in Hd; destruct Hd as [Hd | Hd]).
      * destruct (productSchema.stock p <? 0); [|contradiction].
        destruct Hd as [<- | []]. discriminate Hlow.
      * destruct ((productSchema.stock p =? 0) && _)%bool; [|contradiction].
        destruct Hd as [<- | []]. discriminate Hlow.
      * contradiction.
      * destruct ((productSchema.price p =? 0) || _)%bool; [|contradiction].
        destruct Hd as [<- | []]. discriminate Hlow.
Qed.

(** The Cable, four in stock under a threshold of ten and stamped
    in-stock, gets the low-severity finding. *)
Lemma audit_threshold_mismatch_witness :
  In (resultOf Sample.cable) (snd (auditProducts (products Sample.world))) /\
  exists d, In d (auditResult.discrepancies (resultOf Sample.cable)) /\
            auditSchema.severity d = "low".
Proof.
  assert (Hin : In Sample.cable (products Sample.world)).
  { simpl. tauto. }
  apply (proj1 (audit_threshold_mismatch (products Sample.world) Sample.cable Hin)).
  cbn. repeat split; try lia; discriminate.
Defined.

(** *** What the handler does with the scan *)

Lemma cast_elements_objects i j ds :
  auditSchema.cast_elements i j (map auditSchema.object ds) = [] -> ds = [].
Proof. destruct ds as [|d rest]; [reflexivity | discriminate]. Qed.

(** The details built from the scan pass the casts of the schema only
    when there are none. *)
Lemma cast_details_of_results i rs :
  Forall (fun r => auditResult.discrepancies r <> []) rs ->
  auditSchema.cast_details i (map detail_of_result rs) = [] -> rs = [].
Proof.
  destruct rs as [|r rest]; [reflexivity|]. intros Hall H. exfalso.
  inversion Hall as [|? ? Hr _]; subst. apply Hr.
  cbn [map auditSchema.cast_details detail_of_result auditSchema.detail_discrepancies] in H.
  apply app_eq_nil in H as [H _]. now apply cast_elements_objects in H.
Qed.

Lemma auditResults_nonempty allProducts :
  Forall (fun r => auditResult.discrepancies r <> [])
         (snd (auditProducts allProducts)).
Proof.
  rewrite auditProducts_spec. cbn [snd]. apply Forall_forall. intros r Hr.
  apply in_map_iff in Hr as (p & <- & Hp). apply filter_In in Hp as [_ Hp].
  now apply count_positive.
Qed.

Lemma auditResults_none allProducts :
  snd (auditProducts allProducts) = [] <-> fst (auditProducts allProducts) = [].
Proof.
  rewrite auditProducts_spec. cbn [fst snd].
  induction allProducts as [|p rest IH]; cbn [flat_map filter map]; [tauto|].
  destruct (productDiscrepancies p) as [|d ds] eqn:E.
  - cbn. exact IH.
  - assert (Hpos : (count (d :: ds) >? 0) = true) by now apply count_positive.
    rewrite Hpos. cbn. split; discriminate.
Qed.

Lemma trimStart_rev_string r acc :
  trimStart acc <> "" -> trimStart (rev_string r acc) <> "".
Proof.
  revert acc. induction r as [|c r IH]; intros acc H; cbn [rev_string]; [exact H|].
  apply IH. cbn [trimStart]. destruct (is_space c); [exact H | discriminate].
Qed.

Lemma rev_string_nonempty s acc : acc <> "" -> rev_string s acc <> "".
Proof.
  revert acc. induction s as [|c s IH]; intros acc H; cbn [rev_string]; [exact H|].
  apply IH. discriminate.
Qed.

(** A string that starts with a character other than white space is not
    trimmed away. *)
Lemma trim_nonempty c s : is_space c = false -> trim (String c s) <> "".
Proof.
  intros Hc. unfold trim. cbn [trimStart]. rewrite Hc. cbn [rev_string].
  destruct (trimStart (rev_string s (String c ""))) as [|d t] eqn:E.
  - exfalso. revert E. apply trimStart_rev_string. cbn [trimStart]. rewrite Hc.
    discriminate.
  - cbn [rev_string]. apply rev_string_nonempty. discriminate.
Qed.

(** The audit [createNewAudit] creates for a scan without findings. *)
Lemma createNewAudit_without_findings env user w :
  fst (auditProducts (products w)) = [] ->
  exists a response,
    createNewAudit env user w =
      (response, set_audits (audits w ++ [a]) (set_objectIds (S (objectIds w)) w)) /\
    statusCode response = 200 /\
    path ["data"; "totalDiscrepancies"] (json response) = Some (JNum 0) /\
    auditSchema._id a = newObjectId env (objectIds w) /\
    auditSchema.status a = "in-progress" /\
    auditSchema.discrepancies a = 0 /\
    auditSchema.discrepancyDetails a = [].
Proof.
  intros Hnone. pose proof (proj2 (auditResults_none (products w)) Hnone) as Hrs.
  unfold createNewAudit, try_catch, bind, Product.find, gets.
  rewrite Hnone, Hrs. cbn [map].
  unfold Audit.create, freshObjectId, bind, gets, modify, ret. cbn beta iota.
  unfold auditSchema.validate.
  cbn [auditSchema.title auditSchema.status auditSchema.discrepancyDetails
       auditSchema.cast_details].
  unfold required_string.
  assert (Htitle : (trim ("Inventory Audit - " ++ toLocaleDateString env (Date_now env)) =? "")
                   %string = false).
  { apply String.eqb_neq. cbn [String.append]. now apply trim_nonempty. }
  rewrite Htitle. cbn.
  do 2 eexists. repeat split.
Qed.

(** With any finding in the scan the details do not validate:
    [Audit.create] throws, the answer is 500 and no audit is stored; only
    the ObjectId made for the discarded document is used up. *)
Lemma createNewAudit_with_findings env user w :
  fst (auditProducts (products w)) <> [] ->
  exists message,
    createNewAudit env user w =
      (res_status_json 500 (JObj [("success", JBool false); ("error", JStr message)]),
       set_objectIds (S (objectIds w)) w).
Proof.
  intros Hsome.
  unfold createNewAudit, try_catch, bind, Product.find, gets.
  unfold Audit.create, freshObjectId, bind, gets, modify, ret. cbn beta iota.
  match goal with
  | |- context [match auditSchema.validate ?d with _ => _ end] =>
      destruct (auditSchema.validate d) as [|e errs] eqn:E
  end.
  - exfalso. unfold auditSchema.validate in E.
    apply app_eq_nil in E as [_ E]. apply app_eq_nil in E as [_ E].
    cbn [auditSchema.discrepancyDetails] in E.
    apply cast_details_of_results in E; [|apply auditResults_nonempty].
    apply Hsome. now apply auditResults_none.
  - unfold throw. cbn. eexists. reflexivity.
Qed.

(** C5. At a database whose one product, the Spare, has stock 0, status
    in-stock and a positive price, the scan of [createNewAudit] finds the
    one status_mismatch of severity medium; the handler then fails to
    store it, answers 500, and leaves no audit behind: the audit yields
    no finding for the product. *)
Theorem createNewAudit_yields_no_status_mismatch :
  let w := set_products [Sample.spare] Sample.world in
  productSchema.stock Sample.spare = 0 /\
  productSchema.status Sample.spare = "in-stock" /\
  fst (auditProducts (products w)) =
    [finding "status_mismatch" "Stock is 0 but status is in-stock" "medium"] /\
  statusCode (fst (createNewAudit Sample.env Sample.asAna w)) = 500 /\
  audits (snd (createNewAudit Sample.env Sample.asAna w)) = audits w.
Proof. repeat split. Qed.

(** C6. At a database whose one product, the Cable, has four in stock
    under a threshold of ten and status in-stock, the scan of
    [createNewAudit] finds the low_stock_mismatch of severity low; the
    handler then fails to store it, answers 500, and records nothing.
    And [Auditor.auditInventory], the second place of the check, has no
    exception for out-of-stock: the Nut, three in stock under a
    threshold of ten and marked out-of-stock, gets its line there and no
    finding in the scan. *)
Theorem createNewAudit_records_no_threshold_mismatch :
  let w := set_products [Sample.cable] Sample.world in
  fst (auditProducts (products w)) =
    [finding "low_stock_mismatch"
       "Stock (4) is below threshold (10) but status is in-stock" "low"] /\
  statusCode (fst (createNewAudit Sample.env Sample.asAna w)) = 500 /\
  audits (snd (createNewAudit Sample.env Sample.asAna w)) = audits w /\
  productDiscrepancies Sample.nut = [] /\
  Auditor.productLines Sample.nut =
    ["Product Nut (N2) is below threshold but status is out-of-stock"].
Proof. repeat split. Qed.

(** X22. [createNewAudit] answers 200 exactly when its scan finds
    nothing.  With any finding the answer is 500 and no audit is stored,
    nor anything else; without, one in-progress audit with count 0 and no
    details is appended. *)
Theorem createNewAudit_succeeds_only_without_findings env user w :
  (statusCode (fst (createNewAudit env user w)) = 200 <->
   fst (auditProducts (products w)) = []) /\
  (fst (auditProducts (products w)) <> [] ->
   statusCode (fst (createNewAudit env user w)) = 500 /\
   audits (snd (createNewAudit env user w)) = audits w /\
   products (snd (createNewAudit env user w)) = products w /\
   transactions (snd (createNewAudit env user w)) = transactions w /\
   notifications (snd (createNewAudit env user w)) = notifications w) /\
  (fst (auditProducts (products w)) = [] ->
   exists a,
     audits (snd (createNewAudit env user w)) = audits w ++ [a] /\
     auditSchema.status a = "in-progress" /\
     auditSchema.discrepancies a = 0 /\
     auditSchema.discrepancyDetails a = []).
Proof.
  destruct (fst (auditProducts (products w))) as [|d ds] eqn:E.
  - destruct (createNewAudit_without_findings env user w E)
      as (a & response & Hrun & Hcode & _ & _ & Hst & Hn & Hd).
    rewrite Hrun. cbn [fst snd audits set_audits set_objectIds].
    split; [tauto|]. split; [intros H; now contradiction H|].
    intros _. exists a. repeat split; assumption.
  - assert (Hsome : fst (auditProducts (products w)) <> []) by (rewrite E; discriminate).
    destruct (createNewAudit_with_findings env user w Hsome) as (message & Hrun).
    rewrite Hrun. cbn [fst snd statusCode res_status_json]. destruct w.
    split; [split; discriminate|]. split; [|discriminate].
    intros _. repeat split.
Qed.

(** The summary string of [Auditor.auditInventory] applies its third check
    without the out-of-stock exception of the scan: a positive stock within
    the threshold under status out-of-stock gets a line in the summary and
    no finding in the scan. *)
Lemma auditInventory_out_of_stock_line p :
  0 < productSchema.stock p <= productSchema.lowStockThreshold p ->
  productSchema.status p = "out-of-stock" -> 0 < productSchema.price p ->
  productDiscrepancies p = [] /\
  Auditor.productLines p =
    [(("Product " ++ productSchema.name p ++ " (" ++ productSchema.sku p ++ ")") ++
      " is below threshold but status is out-of-stock")%string].
Proof.
  intros [Hpos Hle] Hst Hprice.
  unfold productDiscrepancies, Auditor.productLines. rewrite Hst. cbn [String.eqb].
  replace (productSchema.stock p <? 0) with false by (symmetry; apply Z.ltb_ge; lia).
  replace (productSchema.stock p =? 0) with false by (symmetry; apply Z.eqb_neq; lia).
  replace (productSchema.stock p >? 0) with true by (symmetry; rewrite Z.gtb_ltb; apply Z.ltb_lt; lia).
  replace (productSchema.stock p <=? productSchema.lowStockThreshold p) with true
    by (symmetry; apply Z.leb_le; lia).
  replace (productSchema.price p =? 0) with false by (symmetry; apply Z.eqb_neq; lia).
  replace (productSchema.price p <=? 0) with false by (symmetry; apply Z.leb_gt; lia).
  cbn. split; reflexivity.
Qed.

(** ** Report Generator: the low-stock report *)

Lemma filter_perm {A : Type} (f : A -> bool) (l l' : list A) :
  Permutation l l' -> Permutation (filter f l) (filter f l').
Proof.
  induction 1 as [|x l l' _ IH|x y l|l l' l'' _ IH1 _ IH2]; simpl.
  - constructor.
  - destruct (f x); [now constructor | assumption].
  - destruct (f x), (f y); try reflexivity. apply perm_swap.
  - now transitivity (filter f l').
Qed.

Lemma filter_twice {A : Type} (f g : A -> bool) (l : list A) :
  filter f (filter g l) = filter (fun x => g x && f x)%bool l.
Proof.
  induction l as [|x rest IH]; simpl; [reflexivity|].
  destruct (g x); simpl; [|assumption]. destruct (f x); now rewrite IH.
Qed.

Lemma count_perm {A : Type} (l l' : list A) : Permutation l l' -> count l = count l'.
Proof. intros H. unfold count. now rewrite (Permutation_length H). Qed.

(** Among products whose stock is at most their threshold, each is
    critical (stock 0), a warning (positive stock), or has a negative
    stock, and only one of the three. *)
Lemma lowStock_split (l : list productSchema.doc) :
  Forall (fun p => isLowStock p = true) l ->
  count l =
  count (filter isCritical l) + count (filter isWarning l) +
  count (filter (fun p => productSchema.stock p <? 0) l).
Proof.
  unfold count. induction 1 as [|p rest Hp _ IH]; [reflexivity|].
  cbn [filter]. unfold isCritical at 1, isWarning at 1. unfold isLowStock in Hp.
  rewrite Hp, Z.gtb_ltb.
  destruct (Z.eqb_spec (productSchema.stock p) 0) as [E0 | E0];
    destruct (Z.ltb_spec 0 (productSchema.stock p));
    destruct (Z.ltb_spec (productSchema.stock p) 0);
    cbn [andb List.length]; lia.
Qed.

Lemma generateReport_lowStock env w :
  generateReport env (Some "lowStock") w =
  (res_status_json 200
     (JObj [("success", JBool true);
            ("data", lowStockReport env (sortByStock (products w)))]),
   w).
Proof. reflexivity. Qed.

(** C7, as the code has it.  The low-stock report answers 200, changes
    nothing, and lists exactly the products whose stock is at most their
    threshold.  criticalItems counts those
    with stock 0, warningItems those with a positive stock, and
    totalLowStockItems counts them all: it is criticalItems plus
    warningItems plus the number of listed products with a negative
    stock. *)
Theorem lowStock_report env w :
  let listed := filter isLowStock (sortByStock (products w)) in
  let critical := filter isCritical listed in
  let warning := filter isWarning listed in
  generateReport env (Some "lowStock") w =
  (res_status_json 200
     (JObj [("success", JBool true);
            ("data",
             JObj [("type", JStr "lowStock");
                   ("generatedAt", JDate (Date_now env));
                   ("summary",
                    JObj [("totalLowStockItems", JNum (count listed));
                          ("criticalItems", JNum (count critical));
                          ("warningItems", JNum (count warning))]);
                   ("products", JArr (map lowStock_product listed))])]),
   w) /\
  Permutation listed
    (filter (fun p => productSchema.stock p <=? productSchema.lowStockThreshold p)
            (products w)) /\
  count critical =
    count (filter (fun p => (productSchema.stock p <=? productSchema.lowStockThreshold p) &&
                            (productSchema.stock p =? 0))%bool (products w)) /\
  count warning =
    count (filter (fun p => (productSchema.stock p <=? productSchema.lowStockThreshold p) &&
                            (0 <? productSchema.stock p))%bool (products w)) /\
  count listed =
    count critical + count warning +
    count (filter (fun p => productSchema.stock p <? 0) listed).
Proof.
  intros listed critical warning.
  assert (Hperm : Permutation listed (filter isLowStock (products w))).
  { apply filter_perm. symmetry. apply sortBy_perm. }
  split; [apply generateReport_lowStock|]. split; [exact Hperm|].
  split; [|split].
  - unfold critical. rewrite (count_perm _ _ (filter_perm isCritical _ _ Hperm)).
    f_equal. rewrite filter_twice. apply filter_ext. intros p.
    reflexivity.
  - unfold warning. rewrite (count_perm _ _ (filter_perm isWarning _ _ Hperm)).
    f_equal. rewrite filter_twice. apply filter_ext. intros p.
    unfold isWarning, isLowStock. rewrite Z.gtb_ltb.
    destruct (productSchema.stock p <=? productSchema.lowStockThreshold p),
             (0 <? productSchema.stock p); reflexivity.
  - apply lowStock_split. apply Forall_forall. intros p Hp.
    unfold listed in Hp. now apply filter_In in Hp.
Qed.

(** C7 as stated fails on the sample database: four products are listed,
    one critical and two warnings; the Bolt, with stock -1, is neither. *)
Lemma sample_total_exceeds_sum :
  exists data summary,
    fst (generateReport Sample.env (Some "lowStock") Sample.world) =
      res_status_json 200 (JObj [("success", JBool true); ("data", data)]) /\
    field "summary" data = Some summary /\
    field "totalLowStockItems" summary = Some (JNum 4) /\
    field "criticalItems" summary = Some (JNum 1) /\
    field "warningItems" summary = Some (JNum 2) /\
    4 <> 1 + 2.
Proof.
  do 2 eexists. repeat split; try reflexivity. discriminate.
Qed.

(** ** Notification Relay: reorder requests *)

Lemma NoDup_map_filter {A B : Type} (f : A -> B) (g : A -> bool) (l : list A) :
  NoDup (map f l) -> NoDup (map f (filter g l)).
Proof.
  induction l as [|x rest IH]; simpl; [auto|].
  intros H. inversion H as [|? ? Hnotin Hrest]; subst.
  destruct (g x); simpl; [|auto]. constructor; [|auto].
  intros Hin. apply Hnotin. apply in_map_iff in Hin as (y & Hy & Hin).
  apply filter_In in Hin as [Hin _]. apply in_map_iff. eauto.
Qed.

Lemma NoDup_map_injective {A B : Type} (f : A -> B) (l : list A) x y :
  NoDup (map f l) -> In x l -> In y l -> f x = f y -> x = y.
Proof.
  induction l as [|z rest IH]; simpl; [tauto|].
  intros H Hx Hy Hf. inversion H as [|? ? Hnotin Hrest]; subst.
  destruct Hx as [-> | Hx], Hy as [-> | Hy]; auto.
  - exfalso. apply Hnotin. rewrite Hf. now apply in_map.
  - exfalso. apply Hnotin. rewrite <- Hf. now apply in_map.
Qed.

(** The run of [requestReorder] on an existing product. *)
Lemma requestReorder_found env user pid p w :
  pid <> "" -> lookupById productSchema._id pid (products w) = Some p ->
  let created := fanOut env (reorder_message p) "reorder" (Some (userId user))
                   (Some pid) (reorder_metadata p) (objectIds w)
                   (map userSchema._id (filter isManager (users w))) in
  requestReorder env user (Some pid) w =
  (res_status_json 200
     (JObj [("success", JBool true);
            ("message", JStr "Reorder request sent successfully");
            ("data",
             JObj [("product",
                    JObj [("id", JStr (productSchema._id p));
                          ("name", JStr (productSchema.name p));
                          ("sku", JStr (productSchema.sku p));
                          ("stock", JNum (productSchema.stock p));
                          ("reorderLevel", JNum (productSchema.lowStockThreshold p))]);
                   ("notificationsSent", JNum (count created))])]),
   set_objectIds (objectIds w + List.length (filter isManager (users w)))
     (set_notifications (notifications w ++ created) w)).
Proof.
  intros Hne Hfind created. unfold requestReorder, try_catch.
  rewrite truthy_string_Some by assumption. cbn [negb string_of].
  unfold bind at 1. unfold Product.findById. rewrite (queryById_found _ _ _ _ _ _ _ Hfind).
  unfold bind at 1. unfold User.find at 1, gets at 1.
  unfold bind at 1. fold isManager. rewrite mapM_sendNotification. reflexivity.
Qed.

(** C8. For an existing product, [requestReorder] answers 200 and appends
    to the notifications exactly one notification of type reorder per
    user with role manager: as many notifications as managers, addressed
    to the managers in turn, so to pairwise distinct users, and none
    addressed to a user of another role.  Nothing else in the database
    changes. *)
Theorem requestReorder_notifies_managers env user pid p w :
  pid <> "" -> lookupById productSchema._id pid (products w) = Some p ->
  NoDup (map userSchema._id (users w)) ->
  exists created,
    statusCode (fst (requestReorder env user (Some pid) w)) = 200 /\
    notifications (snd (requestReorder env user (Some pid) w)) =
      notifications w ++ created /\
    List.length created =
      List.length (filter (fun u => userSchema.role u =? "manager")%string (users w)) /\
    map notificationSchema.recipient created =
      map userSchema._id
          (filter (fun u => userSchema.role u =? "manager")%string (users w)) /\
    Forall (fun n => notificationSchema.type n = "reorder") created /\
    NoDup (map notificationSchema.recipient created) /\
    (forall u, In u (users w) -> userSchema.role u <> "manager" ->
               ~ In (userSchema._id u) (map notificationSchema.recipient created)) /\
    products (snd (requestReorder env user (Some pid) w)) = products w /\
    transactions (snd (requestReorder env user (Some pid) w)) = transactions w /\
    audits (snd (requestReorder env user (Some pid) w)) = audits w /\
    users (snd (requestReorder env user (Some pid) w)) = users w.
Proof.
  intros Hne Hfind Hnodup.
  rewrite (requestReorder_found env user pid p w Hne Hfind). cbv zeta.
  fold isManager. eexists. split; [reflexivity|]. split; [reflexivity|].
  rewrite fanOut_length, length_map, fanOut_recipients.
  repeat split.
  - apply fanOut_type.
  - now apply NoDup_map_filter.
  - intros u Hu Hrole Hin. apply in_map_iff in Hin as (m & Hid & Hm).
    apply filter_In in Hm as [Hm Hman].
    assert (m = u) by exact (NoDup_map_injective _ _ _ _ Hnodup Hm Hu Hid).
    subst m. unfold isManager in Hman. now apply String.eqb_eq in Hman.
Qed.

(** A reorder request for the Widget with three managers in the system. *)
Lemma requestReorder_notifies_managers_witness :
  exists created,
    statusCode (fst (requestReorder Sample.env Sample.asChen
                       (Some "66f0c0ffee00000000000001") Sample.world)) = 200 /\
    notifications (snd (requestReorder Sample.env Sample.asChen
                          (Some "66f0c0ffee00000000000001") Sample.world)) =
      notifications Sample.world ++ created /\
    List.length created = 3%nat /\
    map notificationSchema.recipient created =
      ["66f0c0ffee00000000000011"; "66f0c0ffee00000000000013";
       "66f0c0ffee00000000000015"].
Proof.
  assert (Hne : "66f0c0ffee00000000000001" <> "") by discriminate.
  assert (Hnodup : NoDup (map userSchema._id (users Sample.world))).
  { repeat constructor; simpl; intuition discriminate. }
  destruct (requestReorder_notifies_managers Sample.env Sample.asChen
              "66f0c0ffee00000000000001" Sample.widget Sample.world
              Hne eq_refl Hnodup)
    as (created & Hok & Happ & Hlen & Hrec & _).
  exists created. repeat split; assumption.
Defined.

(** ** Order workflow: the status of a transaction *)

Lemma includes_In xs x : includes xs x = true <-> In x xs.
Proof.
  unfold includes. rewrite existsb_exists. split.
  - intros (y & Hy & E). apply String.eqb_eq in E. now subst.
  - intros H. exists x. split; [assumption | apply String.eqb_refl].
Qed.

Lemma updateOrderStatus_invalid env id status w :
  match status with
  | Some s => includes order_statuses s
  | None => false
  end = false ->
  updateOrderStatus env id status w =
  (res_status_json 400
     (JObj [("success", JBool false);
            ("error", JStr "Invalid status. Must be: pending, completed, or rejected")]),
   w).
Proof. intros H. unfold updateOrderStatus, try_catch. now rewrite H. Qed.

Lemma updateOrderStatus_valid env id s t w :
  includes order_statuses s = true ->
  lookupById transactionSchema._id id (transactions w) = Some t ->
  snd (updateOrderStatus env id (Some s) w) =
    set_transactions
      (updateOne transactionSchema._id id (statusUpdate env s) (transactions w)) w /\
  statusCode (fst (updateOrderStatus env id (Some s) w)) =
    match lookupById productSchema._id (transactionSchema.product t) (products w) with
    | Some _ => 200
    | None => 500
    end.
Proof.
  intros Hs Hfind. unfold updateOrderStatus, try_catch. rewrite Hs. cbn [negb string_of].
  unfold bind, Transaction.findByIdAndUpdate, enum_string.
  change transactionSchema.status_enum with order_statuses. rewrite Hs.
  unfold bind. rewrite !(queryById_found _ _ _ _ _ _ _ Hfind).
  unfold modify, ret, populate, bind.
  unfold Product.resolve, User.resolve, gets, ret.
  cbn [products set_transactions transactionSchema.product
       transactionSchema.set_updatedAt transactionSchema.set_status
       populated_product].
  destruct (lookupById productSchema._id (transactionSchema.product t) (products w));
    split; reflexivity.
Qed.

(** C9. For an existing transaction and a target status among pending,
    completed and rejected, [updateOrderStatus] rewrites that transaction
    alone, giving it the target status (and a new [updatedAt]): its
    product, type, quantity, reference, performedBy, previousStock and
    newStock are as before, and so is the rest of the database.  The
    answer is 200 when the transaction's product still exists.  Any other
    target status, or none, is refused with 400 and changes nothing. *)
Theorem updateOrderStatus_status_only env id status t w :
  lookupById transactionSchema._id id (transactions w) = Some t ->
  (forall s, status = Some s -> In s ["pending"; "completed"; "rejected"] ->
   exists t',
     snd (updateOrderStatus env id status w) =
       set_transactions
         (updateOne transactionSchema._id id (fun _ => t') (transactions w)) w /\
     lookupById transactionSchema._id id
       (transactions (snd (updateOrderStatus env id status w))) = Some t' /\
     transactionSchema.status t' = s /\
     transactionSchema._id t' = transactionSchema._id t /\
     transactionSchema.product t' = transactionSchema.product t /\
     transactionSchema.type t' = transactionSchema.type t /\
     transactionSchema.quantity t' = transactionSchema.quantity t /\
     transactionSchema.reference t' = transactionSchema.reference t /\
     transactionSchema.performedBy t' = transactionSchema.performedBy t /\
     transactionSchema.previousStock t' = transactionSchema.previousStock t /\
     transactionSchema.newStock t' = transactionSchema.newStock t /\
     (lookupById productSchema._id (transactionSchema.product t) (products w) <> None ->
      statusCode (fst (updateOrderStatus env id status w)) = 200)) /\
  ((forall s, status = Some s -> ~ In s ["pending"; "completed"; "rejected"]) ->
   updateOrderStatus env id status w =
   (res_status_json 400
      (JObj [("success", JBool false);
             ("error", JStr "Invalid status. Must be: pending, completed, or rejected")]),
    w)).
Proof.
  intros Hfind. pose proof (lookupById_id _ _ _ _ Hfind) as Hid. split.
  - intros s -> Hs. apply includes_In in Hs.
    destruct (updateOrderStatus_valid env id s t w Hs Hfind) as [Hw Hcode].
    exists (statusUpdate env s t). rewrite Hw, Hcode.
    cbn [transactions set_transactions].
    assert (Hupd : updateOne transactionSchema._id id (statusUpdate env s) (transactions w) =
                   updateOne transactionSchema._id id (fun _ => statusUpdate env s t)
                     (transactions w)).
    { clear Hw Hcode. revert Hfind. unfold lookupById.
      induction (transactions w) as [|x rest IH]; simpl; [reflexivity|].
      destruct (transactionSchema._id x =? id)%string.
      - intros H. injection H as ->. reflexivity.
      - intros H. now rewrite IH. }
    rewrite Hupd. repeat split.
    + now apply (lookupById_updateOne transactionSchema._id id (fun _ => _)
                   (transactions w) t).
    + destruct (lookupById productSchema._id (transactionSchema.product t) (products w));
        [reflexivity | congruence].
  - intros Hbad. apply updateOrderStatus_invalid.
    destruct status as [s|]; [|reflexivity].
    destruct (includes order_statuses s) eqn:E; [|reflexivity].
    apply includes_In in E. exfalso. now apply (Hbad s).
Qed.

(** The pending sample order is completed; the status "done" is refused. *)
Lemma updateOrderStatus_status_only_witness :
  (exists t',
     lookupById transactionSchema._id "66f0c0ffee00000000000021"
       (transactions (snd (updateOrderStatus Sample.env "66f0c0ffee00000000000021"
                             (Some "completed") Sample.world))) = Some t' /\
     transactionSchema.status t' = "completed" /\
     transactionSchema.quantity t' = 2 /\
     transactionSchema.previousStock t' = 7 /\
     transactionSchema.newStock t' = 5) /\
  snd (updateOrderStatus Sample.env "66f0c0ffee00000000000021" (Some "done")
         Sample.world) = Sample.world.
Proof.
  split.
  - destruct (proj1 (updateOrderStatus_status_only Sample.env
                       "66f0c0ffee00000000000021" (Some "completed") Sample.order
                       Sample.world eq_refl) "completed" eq_refl
                    (or_intror (or_introl eq_refl)))
      as (t' & _ & Hlook & Hst & _ & _ & _ & Hq & _ & _ & Hprev & Hnew & _).
    exists t'. repeat split; assumption.
  - rewrite (proj2 (updateOrderStatus_status_only Sample.env
                      "66f0c0ffee00000000000021" (Some "done") Sample.order
                      Sample.world eq_refl)); [reflexivity|].
    intros s E. injection E as <-. simpl. intuition discriminate.
Defined.

(** ** Notification Relay: marking as read *)

Lemma markAsRead_allowed env user id n w :
  lookupById notificationSchema._id id (notifications w) = Some n ->
  userId user = "admin-hardcoded" \/ notificationSchema.recipient n = userId user ->
  markAsRead env user id w =
  (res_status_json 200
     (JObj [("success", JBool true);
            ("message", JStr "Notification marked as read");
            ("data", notificationSchema.toJSON (notificationSchema.set_isRead true n))]),
   set_notifications
     (updateOne notificationSchema._id id (notificationSchema.set_isRead true)
        (notifications w)) w).
Proof.
  intros Hfind Hmay. unfold markAsRead, try_catch.
  unfold bind at 1. unfold Notification.findById at 1.
  rewrite (queryById_found _ _ _ _ _ _ _ Hfind).
  assert (Hguard :
    (negb (userId user =? "admin-hardcoded")%string &&
     negb (notificationSchema.recipient n =? userId user)%string)%bool = false).
  { destruct Hmay as [-> | ->]; [reflexivity|].
    rewrite String.eqb_refl. apply andb_false_r. }
  rewrite Hguard.
  unfold notificationService.markAsRead, Notification.findByIdAndUpdate, bind,
    Notification.findById.
  rewrite (queryById_found _ _ _ _ _ _ _ Hfind). reflexivity.
Qed.

Lemma markAsRead_forbidden env user id n w :
  lookupById notificationSchema._id id (notifications w) = Some n ->
  userId user <> "admin-hardcoded" -> notificationSchema.recipient n <> userId user ->
  markAsRead env user id w =
  (res_status_json 403
     (JObj [("success", JBool false);
            ("error", JStr "You are not authorized to mark this notification as read")]),
   w).
Proof.
  intros Hfind Hadmin Hother. unfold markAsRead, try_catch, bind.
  unfold Notification.findById. rewrite (queryById_found _ _ _ _ _ _ _ Hfind).
  apply String.eqb_neq in Hadmin, Hother. rewrite Hadmin, Hother. reflexivity.
Qed.

(** C10. For an existing notification and a caller other than the admin
    sentinel, [markAsRead] succeeds (answer 200) if and only if the caller
    is the recipient; otherwise the answer is 403 and the database is as
    it was.  A success, by the recipient or by the admin sentinel for any
    notification, sets [isRead] on that notification and changes nothing
    else. *)
Theorem markAsRead_recipient_or_admin env user id n w :
  lookupById notificationSchema._id id (notifications w) = Some n ->
  (userId user <> "admin-hardcoded" ->
   (statusCode (fst (markAsRead env user id w)) = 200 <->
    notificationSchema.recipient n = userId user) /\
   (notificationSchema.recipient n <> userId user ->
    statusCode (fst (markAsRead env user id w)) = 403 /\
    snd (markAsRead env user id w) = w)) /\
  (userId user = "admin-hardcoded" \/ notificationSchema.recipient n = userId user ->
   statusCode (fst (markAsRead env user id w)) = 200 /\
   snd (markAsRead env user id w) =
     set_notifications
       (updateOne notificationSchema._id id (fun _ => notificationSchema.set_isRead true n)
          (notifications w)) w /\
   lookupById notificationSchema._id id (notifications (snd (markAsRead env user id w))) =
     Some (notificationSchema.set_isRead true n) /\
   notificationSchema.isRead (notificationSchema.set_isRead true n) = true /\
   notificationSchema.recipient (notificationSchema.set_isRead true n) =
     notificationSchema.recipient n /\
   notificationSchema.message (notificationSchema.set_isRead true n) =
     notificationSchema.message n).
Proof.
  intros Hfind.
  assert (Hallowed :
    userId user = "admin-hardcoded" \/ notificationSchema.recipient n = userId user ->
    statusCode (fst (markAsRead env user id w)) = 200 /\
    snd (markAsRead env user id w) =
      set_notifications
        (updateOne notificationSchema._id id
           (fun _ => notificationSchema.set_isRead true n) (notifications w)) w /\
    lookupById notificationSchema._id id (notifications (snd (markAsRead env user id w))) =
      Some (notificationSchema.set_isRead true n)).
  { intros Hmay. rewrite (markAsRead_allowed env user id n w Hfind Hmay).
    cbn [fst snd statusCode res_status_json notifications set_notifications].
    split; [reflexivity|]. split.
    - f_equal. revert Hfind. unfold lookupById.
      induction (notifications w) as [|x rest IH]; simpl; [reflexivity|].
      destruct (notificationSchema._id x =? id)%string.
      + intros H. injection H as ->. reflexivity.
      + intros H. now rewrite IH.
    - apply (lookupById_updateOne notificationSchema._id id _ (notifications w) n);
        [assumption|]. exact (lookupById_id _ _ _ _ Hfind). }
  split.
  - intros Hadmin. split.
    + split.
      * intros H200.
        destruct (String.eqb_spec (notificationSchema.recipient n) (userId user))
          as [E | E]; [assumption|].
        rewrite (markAsRead_forbidden env user id n w Hfind Hadmin E) in H200.
        discriminate H200.
      * intros E. apply Hallowed. now right.
    + intros E. now rewrite (markAsRead_forbidden env user id n w Hfind Hadmin E).
  - intros Hmay. destruct (Hallowed Hmay) as (H1 & H2 & H3). repeat split; assumption.
Qed.

(** Maya may not mark Chen's notification as read; Chen and the admin may. *)
Lemma markAsRead_recipient_or_admin_witness :
  (statusCode (fst (markAsRead Sample.env Sample.asMaya "66f0c0ffee00000000000041" Sample.world))
     = 403 /\
   snd (markAsRead Sample.env Sample.asMaya "66f0c0ffee00000000000041" Sample.world) = Sample.world) /\
  statusCode (fst (markAsRead Sample.env Sample.asChen "66f0c0ffee00000000000041" Sample.world))
    = 200 /\
  statusCode (fst (markAsRead Sample.env Sample.asAdmin "66f0c0ffee00000000000041" Sample.world))
    = 200.
Proof.
  split; [|split].
  - apply (proj1 (markAsRead_recipient_or_admin Sample.env Sample.asMaya
                    "66f0c0ffee00000000000041" Sample.note Sample.world eq_refl));
      discriminate.
  - apply (proj2 (markAsRead_recipient_or_admin Sample.env Sample.asChen
                    "66f0c0ffee00000000000041" Sample.note Sample.world eq_refl)).
    right. reflexivity.
  - apply (proj2 (markAsRead_recipient_or_admin Sample.env Sample.asAdmin
                    "66f0c0ffee00000000000041" Sample.note Sample.world eq_refl)).
    left. reflexivity.
Defined.

(** * Further properties *)

(** ** Stock Ledger: the rest of the two operations *)

(** A document passes the Product validators exactly when its three
    required strings are present, stock and price are not negative and
    the status is one of the three. *)
Lemma Product_validate_nil d :
  productSchema.validate d = [] <->
  (productSchema.name d <> "" /\ productSchema.sku d <> "" /\
   productSchema.category d <> "" /\ 0 <= productSchema.stock d /\
   0 <= productSchema.price d /\
   includes productSchema.status_enum (productSchema.status d) = true).
Proof.
  unfold productSchema.validate, required_string, min_number, enum_string.
  destruct (String.eqb_spec (productSchema.name d) "");
    destruct (String.eqb_spec (productSchema.sku d) "");
    destruct (String.eqb_spec (productSchema.category d) "");
    destruct (Z.ltb_spec (productSchema.stock d) 0);
    destruct (Z.ltb_spec (productSchema.price d) 0);
    destruct (includes productSchema.status_enum (productSchema.status d));
    simpl; split; try discriminate; try tauto; try lia;
    intros (? & ? & ? & ? & ? & ?); try congruence; try lia.
Qed.


(** The guard of the stock operations passes only a present, non-empty
    product id and a present quantity that is neither falsy nor at most
    0: a positive number, or a non-empty string that converts to a
    positive number or to NaN. *)
Lemma stock_guard_inv env body :
  (negb (truthy_string (productId body)) || negb (truthy_value (quantity body)) ||
   js_le env (value_of (quantity body)) 0)%bool = false ->
  exists pid v,
    productId body = Some pid /\ pid <> "" /\ quantity body = Some v /\
    js_le env v 0 = false /\
    (forall q, v = JsNumber q -> 0 < q) /\
    (forall s, v = JsString s -> s <> "").
Proof.
  intros H. apply orb_false_iff in H as [H Hq]. apply orb_false_iff in H as [Hp Hn].
  apply negb_false_iff in Hp, Hn. unfold truthy_string in Hp.
  destruct (productId body) as [pid|]; [|discriminate].
  destruct (quantity body) as [v|]; [|discriminate].
  exists pid, v. cbn [value_of] in Hq. repeat split; auto.
  - intros ->. discriminate Hp.
  - intros q ->. cbn in Hq. apply Z.leb_gt in Hq. exact Hq.
  - intros s' -> ->. discriminate Hn.
Qed.

Lemma restocked_frame env p newStock :
  productSchema._id (restocked env p newStock) = productSchema._id p /\
  productSchema.stock (restocked env p newStock) = newStock /\
  productSchema.lowStockThreshold (restocked env p newStock) =
    productSchema.lowStockThreshold p /\
  productSchema.status (restocked env p newStock) =
    derivedStatus newStock (productSchema.lowStockThreshold p) /\
  productSchema.name (restocked env p newStock) = productSchema.name p /\
  productSchema.sku (restocked env p newStock) = productSchema.sku p /\
  productSchema.category (restocked env p newStock) = productSchema.category p /\
  productSchema.price (restocked env p newStock) = productSchema.price p.
Proof.
  unfold restocked, productSchema.pre_save, derivedStatus.
  cbn [productSchema.stock productSchema.set_stock productSchema.lowStockThreshold].
  destruct (newStock =? 0); [now cbn|].
  destruct (newStock <=? productSchema.lowStockThreshold p); now cbn.
Qed.





Lemma Product_write_In d c x : In x (Product.write d c) -> In x c \/ x = d.
Proof.
  unfold Product.write.
  destruct (lookupById productSchema._id (productSchema._id d) c).
  - intros H. apply updateOne_other in H as [H | (old & _ & _ & H)]; auto.
  - intros H. apply in_app_or in H as [H | [H | []]]; auto.
Qed.

Lemma stock_bad_request env user body w :
  (negb (truthy_string (productId body)) || negb (truthy_value (quantity body)) ||
   js_le env (value_of (quantity body)) 0)%bool = true ->
  stockIn env user body w = (bad_stock_request, w) /\
  stockOut env user body w = (bad_stock_request, w).
Proof. intros H. unfold stockIn, stockOut, try_catch. now rewrite H. Qed.

(** A request that passes the guard with an id that finds no product:
    404 when the id can be cast to an ObjectId, the CastError and 500
    when it cannot; nothing is written. *)
Lemma stock_unknown env user body pid w :
  (negb (truthy_string (productId body)) || negb (truthy_value (quantity body)) ||
   js_le env (value_of (quantity body)) 0)%bool = false ->
  productId body = Some pid ->
  lookupById productSchema._id pid (products w) = None ->
  let answer :=
    if isObjectId env pid then product_not_found
    else res_status_json 500
           (JObj [("success", JBool false);
                  ("error", JStr (CastError_ObjectId "Product" pid))]) in
  stockIn env user body w = (answer, w) /\ stockOut env user body w = (answer, w).
Proof.
  intros Hguard Hpid Hfind answer. unfold answer.
  unfold stockIn, stockOut, try_catch. rewrite Hguard, Hpid. cbn [string_of].
  unfold bind, Product.findById. rewrite !(queryById_unknown _ _ _ _ _ _ Hfind).
  destruct (isObjectId env pid); split; reflexivity.
Qed.


(** The run of [stockIn] with the fan-out to the clerks spelled out. *)
Lemma stockIn_run env user body pid q p w :
  productId body = Some pid -> pid <> "" ->
  quantity body = Some (JsNumber q) -> 0 < q ->
  lookupById productSchema._id pid (products w) = Some p ->
  productSchema.validate (productSchema.set_stock (productSchema.stock p + q) p) = [] ->
  let saved := restocked env p (productSchema.stock p + q) in
  let t := ledgerEntry env user body (objectIds w) pid "in" q (productSchema.stock p)
             (productSchema.stock p + q)
             ("STOCK-IN-" ++ Number_toString (Date_now env))%string in
  let clerks := filter (fun u => userSchema.role u =? "clerk")%string (users w) in
  exists message metadata,
    stockIn env user body w =
    (stock_response "Stock added successfully" saved (productSchema.stock p)
       (JNum (productSchema.stock p + q)) t,
     set_objectIds (S (objectIds w) + List.length clerks)
       (set_notifications
          (notifications w ++
           fanOut env message "restock" (Some (userId user)) (Some pid) metadata
             (S (objectIds w)) (map userSchema._id clerks))
          (set_transactions (transactions w ++ [t])
             (set_objectIds (S (objectIds w))
                (set_products (Product.write saved (products w)) w))))).
Proof.
  intros Hpid Hne Hq Hpos Hfind V saved t clerks.
  destruct (stock_guard env body pid q Hpid Hne Hq Hpos) as (Hguard & Hp & Hn).
  unfold stockIn, try_catch. rewrite Hguard, Hp, Hn.
  unfold bind at 1. unfold Product.findById. rewrite (queryById_found _ _ _ _ _ _ _ Hfind).
  cbn [js_plus toNumber Product.save_stock Transaction.create_cast js_toString
       json_of_value].
  unfold bind at 1. rewrite (Product_save_valid _ _ _ V).
  unfold bind at 1. rewrite Transaction_create_completed by (assumption || reflexivity).
  cbv zeta. unfold bind at 1. unfold User.find at 1, gets at 1.
  unfold bind at 1. rewrite mapM_sendNotification. unfold ret.
  do 2 eexists. reflexivity.
Qed.



(** What a stock operation may do to the products: nothing, or one write
    of a product it found, with a stock that passed the validators. *)
Lemma stock_operation_products env user body w :
  (products (snd (stockIn env user body w)) = products w \/
   exists p n,
     In p (products w) /\ productSchema.validate (productSchema.set_stock n p) = [] /\
     products (snd (stockIn env user body w)) =
       Product.write (restocked env p n) (products w)) /\
  (products (snd (stockOut env user body w)) = products w \/
   exists p n,
     In p (products w) /\ productSchema.validate (productSchema.set_stock n p) = [] /\
     products (snd (stockOut env user body w)) =
       Product.write (restocked env p n) (products w)).
Proof.
  destruct (negb (truthy_string (productId body)) || negb (truthy_value (quantity body)) ||
            js_le env (value_of (quantity body)) 0)%bool eqn:G.
  { destruct (stock_bad_request env user body w G) as [-> ->]. split; now left. }
  destruct (stock_guard_inv env body G) as (pid & v & Hpid & Hne & Hq & _).
  destruct (lookupById productSchema._id pid (products w)) as [p|] eqn:Hfind.
  2: { destruct (stock_unknown env user body pid w G Hpid Hfind) as [-> ->].
       split; now left. }
  pose proof (lookupById_In _ _ _ _ Hfind) as Hin.
  assert (Hin_run :
    stockIn env user body w =
    try_catch "Failed to add stock"
      (product <- Product.save_stock env
                    (toNumber env (js_plus (productSchema.stock p) v)) p ;;
       transaction <- Transaction.create_cast env pid "in" (toNumber env v)
         (Some (string_or (reference body)
                  ("STOCK-IN-" ++ Number_toString (Date_now env))%string))
         (userId user) (productSchema.stock p)
         (toNumber env (js_plus (productSchema.stock p) v)) "completed" ;;
       clerks <- User.find "clerk" ;;
       mapM (fun clerk =>
         notificationService.sendNotification env (userSchema._id clerk)
           (productSchema.name product ++ " restocked successfully. New stock: " ++
            js_toString (js_plus (productSchema.stock p) v) ++ " units (" ++
            js_toString v ++ " added). SKU: " ++ productSchema.sku product)%string
           "restock" (Some (userId user)) (Some pid)
           (JObj [("productName", JStr (productSchema.name product));
                  ("sku", JStr (productSchema.sku product));
                  ("previousStock", JNum (productSchema.stock p));
                  ("newStock", json_of_value (js_plus (productSchema.stock p) v));
                  ("quantityAdded", json_of_value v)])) clerks ;;
       ret (stock_response "Stock added successfully" product
              (productSchema.stock p)
              (json_of_value (js_plus (productSchema.stock p) v)) transaction)) w).
  { unfold stockIn, try_catch. rewrite G, Hpid, Hq. cbn [string_of value_of].
    unfold bind at 1. unfold Product.findById.
    now rewrite (queryById_found _ _ _ _ _ _ _ Hfind). }
  assert (Hout_run :
    stockOut env user body w =
    try_catch "Failed to remove stock"
      (if js_lt env (productSchema.stock p) v then
         send (res_status_json 400
                 (JObj [("success", JBool false);
                        ("error", JStr ("Insufficient stock. Available: " ++
                                        Number_toString (productSchema.stock p) ++
                                        ", Requested: " ++ js_toString v)%string);
                        ("data", JObj [("available", JNum (productSchema.stock p));
                                       ("requested", json_of_value v)])]))
       else
         product <- Product.save_stock env
                      (js_minus env (productSchema.stock p) v) p ;;
         transaction <- Transaction.create_cast env pid "out" (toNumber env v)
           (Some (string_or (reference body)
                    ("STOCK-OUT-" ++ Number_toString (Date_now env))%string))
           (userId user) (productSchema.stock p)
           (js_minus env (productSchema.stock p) v) "completed" ;;
         ret (stock_response "Stock removed successfully" product
                (productSchema.stock p)
                (json_of_number (js_minus env (productSchema.stock p) v))
                transaction)) w).
  { unfold stockOut, try_catch. rewrite G, Hpid, Hq. cbn [string_of value_of].
    unfold bind at 1. unfold Product.findById.
    now rewrite (queryById_found _ _ _ _ _ _ _ Hfind). }
  rewrite Hin_run, Hout_run. clear Hin_run Hout_run.
  assert (Hcreate : forall type quantity reference newStock w1,
            products (snd (Transaction.create_cast env pid type quantity reference
                             (userId user) (productSchema.stock p) newStock
                             "completed" w1)) = products w1).
  { intros type quantity reference newStock w1. unfold Transaction.create_cast.
    destruct quantity as [q|], newStock as [n|];
      unfold Transaction.create, freshObjectId, bind, gets, modify, ret, throw;
      cbn beta iota; try (destruct w1; reflexivity).
    match goal with
    | |- context [match transactionSchema.validate ?d with _ => _ end] =>
        destruct (transactionSchema.validate d)
    end; destruct w1; reflexivity. }
  split.
  - match goal with
    | |- products (snd ?t) = _ \/ _ => remember t as r eqn:Hr
    end.
    unfold try_catch, Product.save_stock in Hr.
    destruct (toNumber env (js_plus (productSchema.stock p) v)) as [n|];
      [|left; now subst r].
    unfold bind at 1 in Hr. unfold Product.save in Hr.
    destruct (productSchema.validate (productSchema.set_stock n p)) eqn:V;
      [|left; now subst r].
    right. exists p, n. split; [exact Hin|]. split; [exact V|].
    unfold bind at 1, modify, ret in Hr. cbn beta iota in Hr.
    unfold bind at 1 in Hr.
    match type of Hr with
    | context [Transaction.create_cast ?e ?i ?t ?q ?rf ?u ?ps ?ns ?st ?w1] =>
        pose proof (Hcreate t q rf ns w1) as Hframe;
        destruct (Transaction.create_cast e i t q rf u ps ns st w1) as [[t' | r' | e'] w2]
    end; cbn [snd] in Hframe.
    + unfold bind at 1 in Hr. unfold User.find at 1, gets at 1 in Hr.
      unfold bind at 1 in Hr. rewrite mapM_sendNotification in Hr. unfold ret in Hr.
      subst r. cbn [snd products set_objectIds set_notifications]. exact Hframe.
    + subst r. exact Hframe.
    + subst r. exact Hframe.
  - match goal with
    | |- products (snd ?t) = _ \/ _ => remember t as r eqn:Hr
    end.
    unfold try_catch in Hr.
    destruct (js_lt env (productSchema.stock p) v); [left; now subst r|].
    unfold Product.save_stock in Hr.
    destruct (js_minus env (productSchema.stock p) v) as [n|];
      [|left; now subst r].
    unfold bind at 1 in Hr. unfold Product.save in Hr.
    destruct (productSchema.validate (productSchema.set_stock n p)) eqn:V;
      [|left; now subst r].
    right. exists p, n. split; [exact Hin|]. split; [exact V|].
    unfold bind at 1, modify, ret in Hr. cbn beta iota in Hr.
    unfold bind at 1 in Hr.
    match type of Hr with
    | context [Transaction.create_cast ?e ?i ?t ?q ?rf ?u ?ps ?ns ?st ?w1] =>
        pose proof (Hcreate t q rf ns w1) as Hframe;
        destruct (Transaction.create_cast e i t q rf u ps ns st w1) as [[t' | r' | e'] w2]
    end; cbn [snd] in Hframe; subst r; exact Hframe.
Qed.

(** X4. The stock operations keep every stock non-negative: if no product
    has a negative stock before a [stockIn] or a [stockOut], whatever the
    request and its outcome, none has one after. *)
Theorem stock_stays_nonnegative env user body w :
  Forall (fun p => 0 <= productSchema.stock p) (products w) ->
  Forall (fun p => 0 <= productSchema.stock p) (products (snd (stockIn env user body w))) /\
  Forall (fun p => 0 <= productSchema.stock p) (products (snd (stockOut env user body w))).
Proof.
  intros Hall.
  assert (Hwrite : forall p n,
            productSchema.validate (productSchema.set_stock n p) = [] ->
            Forall (fun p => 0 <= productSchema.stock p)
                   (Product.write (restocked env p n) (products w))).
  { intros p n V. apply Product_validate_nil in V as (_ & _ & _ & Hn & _).
    cbn [productSchema.set_stock productSchema.stock] in Hn.
    apply Forall_forall. intros x Hx.
    apply Product_write_In in Hx as [Hx | ->].
    - now apply (proj1 (Forall_forall _ _) Hall).
    - now rewrite (proj1 (proj2 (restocked_frame env p n))). }
  destruct (stock_operation_products env user body w) as [Hin Hout].
  split.
  - destruct Hin as [-> | (p & n & _ & V & ->)]; [exact Hall | now apply Hwrite].
  - destruct Hout as [-> | (p & n & _ & V & ->)]; [exact Hall | now apply Hwrite].
Qed.

(** Taking five Widgets from a database without negative stocks. *)
Lemma stock_stays_nonnegative_witness :
  let w := set_products [Sample.widget; Sample.gadget; Sample.cable] Sample.world in
  let body := {| productId := Some "66f0c0ffee00000000000001";
                 quantity := Some (JsNumber 5); reference := None |} in
  Forall (fun p => 0 <= productSchema.stock p)
         (products (snd (stockOut Sample.env Sample.asMaya body w))).
Proof.
  intros w body.
  apply (stock_stays_nonnegative Sample.env Sample.asMaya body w).
  repeat constructor; cbn; lia.
Defined.

(** *** A quantity sent as a string *)

Lemma stock_guard_string env body pid s :
  productId body = Some pid -> pid <> "" ->
  quantity body = Some (JsString s) -> s <> "" ->
  js_le env (JsString s) 0 = false ->
  (negb (truthy_string (productId body)) || negb (truthy_value (quantity body)) ||
   js_le env (value_of (quantity body)) 0)%bool = false /\
  string_of (productId body) = pid /\ value_of (quantity body) = JsString s.
Proof.
  intros -> Hpid -> Hs Hle. rewrite truthy_string_Some by assumption.
  cbn [truthy_value value_of string_of]. apply String.eqb_neq in Hs. rewrite Hs, Hle.
  repeat split.
Qed.

(** The run of [stockIn] on a string that converts to a positive number:
    the new stock is what the digits of the old stock followed by the
    string convert to. *)
Lemma stockIn_string_run env user body pid s q n p w :
  productId body = Some pid -> pid <> "" ->
  quantity body = Some (JsString s) -> s <> "" ->
  ToNumber env s = Some q -> 0 < q ->
  lookupById productSchema._id pid (products w) = Some p ->
  ToNumber env (Number_toString (productSchema.stock p) ++ s) = Some n ->
  productSchema.validate (productSchema.set_stock n p) = [] ->
  let saved := restocked env p n in
  let t := ledgerEntry env user body (objectIds w) pid "in" q (productSchema.stock p) n
             ("STOCK-IN-" ++ Number_toString (Date_now env))%string in
  let clerks := filter (fun u => userSchema.role u =? "clerk")%string (users w) in
  exists message metadata,
    stockIn env user body w =
    (stock_response "Stock added successfully" saved (productSchema.stock p)
       (JStr (Number_toString (productSchema.stock p) ++ s)) t,
     set_objectIds (S (objectIds w) + List.length clerks)
       (set_notifications
          (notifications w ++
           fanOut env message "restock" (Some (userId user)) (Some pid) metadata
             (S (objectIds w)) (map userSchema._id clerks))
          (set_transactions (transactions w ++ [t])
             (set_objectIds (S (objectIds w))
                (set_products (Product.write saved (products w)) w))))).
Proof.
  intros Hpid Hne Hq Hs Hnum Hpos Hfind Hcat V saved t clerks.
  assert (Hle : js_le env (JsString s) 0 = false).
  { unfold js_le. cbn [toNumber]. rewrite Hnum. apply Z.leb_gt. lia. }
  destruct (stock_guard_string env body pid s Hpid Hne Hq Hs Hle) as (Hguard & Hp & Hn).
  unfold stockIn, try_catch. rewrite Hguard, Hp, Hn.
  unfold bind at 1. unfold Product.findById. rewrite (queryById_found _ _ _ _ _ _ _ Hfind).
  cbn [js_plus toNumber js_toString json_of_value]. rewrite Hcat, Hnum.
  cbn [Product.save_stock Transaction.create_cast].
  unfold bind at 1. rewrite (Product_save_valid _ _ _ V).
  unfold bind at 1. rewrite Transaction_create_completed by (assumption || reflexivity).
  cbv zeta. unfold bind at 1. unfold User.find at 1, gets at 1.
  unfold bind at 1. rewrite mapM_sendNotification. unfold ret.
  do 2 eexists. reflexivity.
Qed.


(** The run of [stockOut] on a string that converts to a positive number
    within the stock: the string is converted and subtracted. *)
Lemma stockOut_string_run env user body pid s q p w :
  productId body = Some pid -> pid <> "" ->
  quantity body = Some (JsString s) -> s <> "" ->
  ToNumber env s = Some q -> 0 < q ->
  lookupById productSchema._id pid (products w) = Some p ->
  q <= productSchema.stock p ->
  productSchema.validate (productSchema.set_stock (productSchema.stock p - q) p) = [] ->
  let saved := restocked env p (productSchema.stock p - q) in
  let t := ledgerEntry env user body (objectIds w) pid "out" q (productSchema.stock p)
             (productSchema.stock p - q)
             ("STOCK-OUT-" ++ Number_toString (Date_now env))%string in
  stockOut env user body w =
  (stock_response "Stock removed successfully" saved (productSchema.stock p)
     (JNum (productSchema.stock p - q)) t,
   set_transactions (transactions w ++ [t])
     (set_objectIds (S (objectIds w))
        (set_products (Product.write saved (products w)) w))).
Proof.
  intros Hpid Hne Hq Hs Hnum Hpos Hfind Hle V saved t.
  assert (Hle0 : js_le env (JsString s) 0 = false).
  { unfold js_le. cbn [toNumber]. rewrite Hnum. apply Z.leb_gt. lia. }
  destruct (stock_guard_string env body pid s Hpid Hne Hq Hs Hle0) as (Hguard & Hp & Hn).
  unfold stockOut, try_catch. rewrite Hguard, Hp, Hn.
  unfold bind at 1. unfold Product.findById. rewrite (queryById_found _ _ _ _ _ _ _ Hfind).
  unfold js_lt, js_minus. cbn [toNumber]. rewrite Hnum.
  cbn [Product.save_stock Transaction.create_cast json_of_number].
  replace (productSchema.stock p <? q) with false by (symmetry; apply Z.ltb_ge; lia).
  unfold bind at 1. rewrite (Product_save_valid _ _ _ V).
  unfold bind at 1. rewrite Transaction_create_completed by (assumption || reflexivity).
  reflexivity.
Qed.

(** C2. A request the handler accepts, on which the claim fails: the
    quantity 20 sent as the string [20] for the Widget, which has 5 in
    stock.  [stockIn] answers 200, and [5 + quantity] being the
    concatenation of the digits of 5 and the string, the product gets
    stock 520, not 25, and the log records previousStock 5, quantity 20
    and newStock 520. *)
Theorem stockIn_concatenates_string_quantity :
  let body := {| productId := Some "66f0c0ffee00000000000001";
                 quantity := Some (JsString "20"); reference := None |} in
  let after := snd (stockIn Sample.env Sample.asMaya body Sample.world) in
  productSchema.stock Sample.widget = 5 /\
  statusCode (fst (stockIn Sample.env Sample.asMaya body Sample.world)) = 200 /\
  option_map productSchema.stock
    (lookupById productSchema._id "66f0c0ffee00000000000001" (products after)) = Some 520 /\
  map (fun t => (transactionSchema.type t, transactionSchema.previousStock t,
                 transactionSchema.quantity t, transactionSchema.newStock t))
      (skipn 1 (transactions after)) = [("in", 5, 20, 520)].
Proof. repeat split. Qed.

(** X30. A quantity sent as a string is added as text and taken away as
    a number.  For an existing product and a non-empty string that
    converts to a positive integer [q]: [stockIn], when the digits of the
    stock followed by the string convert to [n] and the product is valid
    with stock [n], answers 200, gives the product stock [n], and logs
    the quantity [q] with the stock read as previousStock and [n] as
    newStock; [stockOut], when [q] is within the stock, the stock is in
    the range of the exact integers and the product is valid with stock
    [stock p - q], answers 200, gives the product stock
    [stock p - q] and logs [newStock = previousStock - quantity]. *)
Theorem string_quantity_in_and_out env user body pid s q p w :
  productId body = Some pid -> pid <> "" ->
  quantity body = Some (JsString s) -> s <> "" ->
  ToNumber env s = Some q -> 0 < q ->
  lookupById productSchema._id pid (products w) = Some p ->
  (forall n,
     ToNumber env (Number_toString (productSchema.stock p) ++ s) = Some n ->
     productSchema.validate (productSchema.set_stock n p) = [] ->
     statusCode (fst (stockIn env user body w)) = 200 /\
     (exists p',
        lookupById productSchema._id pid (products (snd (stockIn env user body w)))
          = Some p' /\
        productSchema.stock p' = n) /\
     (exists t,
        transactions (snd (stockIn env user body w)) = transactions w ++ [t] /\
        transactionSchema.type t = "in" /\
        transactionSchema.quantity t = q /\
        transactionSchema.previousStock t = productSchema.stock p /\
        transactionSchema.newStock t = n)) /\
  (q <= productSchema.stock p -> productSchema.stock p <= MAX_SAFE_INTEGER ->
   productSchema.validate (productSchema.set_stock (productSchema.stock p - q) p) = [] ->
   statusCode (fst (stockOut env user body w)) = 200 /\
   (exists p',
      lookupById productSchema._id pid (products (snd (stockOut env user body w)))
        = Some p' /\
      productSchema.stock p' = productSchema.stock p - q) /\
   (exists t,
      transactions (snd (stockOut env user body w)) = transactions w ++ [t] /\
      transactionSchema.type t = "out" /\
      transactionSchema.quantity t = q /\
      transactionSchema.previousStock t = productSchema.stock p /\
      transactionSchema.newStock t =
        transactionSchema.previousStock t - transactionSchema.quantity t)).
Proof.
  intros Hpid Hne Hq Hs Hnum Hpos Hfind.
  pose proof (lookupById_id _ _ _ _ Hfind) as Hid. split.
  - intros n Hcat V.
    destruct (stockIn_string_run env user body pid s q n p w
                Hpid Hne Hq Hs Hnum Hpos Hfind Hcat V) as (message & metadata & ->).
    destruct (restocked_frame env p n) as (Rid & Rstock & _).
    cbn [fst snd]. split; [reflexivity|]. split.
    + exists (restocked env p n). split; [|exact Rstock].
      cbn [products set_objectIds set_notifications set_transactions set_products].
      rewrite <- Hid at 1. rewrite <- Rid. apply Product_write_lookup.
    + eexists. split; [reflexivity|]. unfold ledgerEntry. cbn. repeat split.
  - intros Hle _ V.
    rewrite (stockOut_string_run env user body pid s q p w
               Hpid Hne Hq Hs Hnum Hpos Hfind Hle V).
    destruct (restocked_frame env p (productSchema.stock p - q)) as (Rid & Rstock & _).
    cbn [fst snd]. split; [reflexivity|]. split.
    + exists (restocked env p (productSchema.stock p - q)). split; [|exact Rstock].
      cbn [products set_objectIds set_transactions set_products].
      rewrite <- Hid at 1. rewrite <- Rid. apply Product_write_lookup.
    + eexists. split; [reflexivity|]. unfold ledgerEntry. cbn. repeat split.
Qed.

(** The string [3] for the Cable, which has 4 in stock: stocked in, the
    Cable has 43; stocked out, it has 1. *)
Lemma string_quantity_in_and_out_witness :
  let body := {| productId := Some "66f0c0ffee00000000000004";
                 quantity := Some (JsString "3"); reference := None |} in
  (exists p',
     lookupById productSchema._id "66f0c0ffee00000000000004"
       (products (snd (stockIn Sample.env Sample.asMaya body Sample.world))) = Some p' /\
     productSchema.stock p' = 43) /\
  (exists p',
     lookupById productSchema._id "66f0c0ffee00000000000004"
       (products (snd (stockOut Sample.env Sample.asMaya body Sample.world))) = Some p' /\
     productSchema.stock p' = 4 - 3).
Proof.
  intros body.
  assert (Hne : "66f0c0ffee00000000000004" <> "") by discriminate.
  assert (Hs : "3" <> "") by discriminate.
  assert (Hpos : 0 < 3) by reflexivity.
  assert (Hle : 3 <= productSchema.stock Sample.cable) by (cbn; lia).
  destruct (string_quantity_in_and_out Sample.env Sample.asMaya body
              "66f0c0ffee00000000000004" "3" 3 Sample.cable Sample.world
              eq_refl Hne eq_refl Hs eq_refl Hpos eq_refl) as [Hin Hout].
  split.
  - exact (proj1 (proj2 (Hin 43 eq_refl eq_refl))).
  - assert (Hsafe : productSchema.stock Sample.cable <= MAX_SAFE_INTEGER)
      by (cbn; unfold MAX_SAFE_INTEGER; lia).
    exact (proj1 (proj2 (Hout Hle Hsafe eq_refl))).
Defined.



Lemma fanOut_fields env message type sender product metadata n recipients :
  Forall (fun d => notificationSchema.sender d = sender /\
                   notificationSchema.relatedProduct d = product /\
                   notificationSchema.isRead d = false)
         (fanOut env message type sender product metadata n recipients).
Proof.
  revert n. induction recipients as [|r rest IH]; intros n; simpl; constructor; auto.
Qed.

(** X5. A successful [stockIn] appends exactly one notification per user
    with role clerk, in turn: each is of type restock, unread, sent by
    the caller and related to the product; with distinct user ids the
    recipients are pairwise distinct and no user of another role is
    addressed. *)
Theorem stockIn_notifies_clerks env user body pid q p w :
  productId body = Some pid -> pid <> "" ->
  quantity body = Some (JsNumber q) -> 0 < q ->
  lookupById productSchema._id pid (products w) = Some p ->
  productSchema.validate (productSchema.set_stock (productSchema.stock p + q) p) = [] ->
  NoDup (map userSchema._id (users w)) ->
  exists created,
    notifications (snd (stockIn env user body w)) = notifications w ++ created /\
    map notificationSchema.recipient created =
      map userSchema._id (filter (fun u => userSchema.role u =? "clerk")%string (users w)) /\
    Forall (fun n => notificationSchema.type n = "restock" /\
                     notificationSchema.sender n = Some (userId user) /\
                     notificationSchema.relatedProduct n = Some pid /\
                     notificationSchema.isRead n = false) created /\
    NoDup (map notificationSchema.recipient created) /\
    (forall u, In u (users w) -> userSchema.role u <> "clerk" ->
               ~ In (userSchema._id u) (map notificationSchema.recipient created)).
Proof.
  intros Hpid Hne Hq Hpos Hfind V Hnodup.
  destruct (stockIn_run env user body pid q p w Hpid Hne Hq Hpos Hfind V)
    as (message & metadata & ->).
  cbn [snd notifications set_objectIds set_notifications].
  eexists. split; [reflexivity|]. rewrite fanOut_recipients. split; [reflexivity|].
  split; [|split].
  - apply Forall_forall. intros n Hn.
    pose proof (proj1 (Forall_forall _ _) (fanOut_type _ _ _ _ _ _ _ _) n Hn) as Ht.
    pose proof (proj1 (Forall_forall _ _) (fanOut_fields _ _ _ _ _ _ _ _) n Hn) as Hf.
    cbn beta in Ht, Hf. tauto.
  - now apply NoDup_map_filter.
  - intros u Hu Hrole Hin. apply in_map_iff in Hin as (m & Hid & Hm).
    apply filter_In in Hm as [Hm Hclerk].
    assert (m = u) by exact (NoDup_map_injective _ _ _ _ Hnodup Hm Hu Hid).
    subst m. now apply String.eqb_eq in Hclerk.
Qed.

(** Twenty Widgets added: Chen, the only clerk, is told. *)
Lemma stockIn_notifies_clerks_witness :
  let body := {| productId := Some "66f0c0ffee00000000000001"; quantity := Some (JsNumber 20);
                 reference := None |} in
  exists created,
    notifications (snd (stockIn Sample.env Sample.asMaya body Sample.world)) =
      notifications Sample.world ++ created /\
    map notificationSchema.recipient created = ["66f0c0ffee00000000000012"].
Proof.
  intros body.
  assert (Hne : "66f0c0ffee00000000000001" <> "") by discriminate.
  assert (Hpos : 0 < 20) by reflexivity.
  assert (Hnodup : NoDup (map userSchema._id (users Sample.world))).
  { repeat constructor; simpl; intuition discriminate. }
  destruct (stockIn_notifies_clerks Sample.env Sample.asMaya body
              "66f0c0ffee00000000000001" 20 Sample.widget Sample.world
              eq_refl Hne eq_refl Hpos eq_refl eq_refl Hnodup)
    as (created & Happ & Hrec & _).
  exists created. split; assumption.
Defined.



(** ** Reading handlers *)

Lemma readonly_ret {A : Type} (a : A) : readonly (ret a).
Proof. intros w. reflexivity. Qed.

Lemma readonly_send {A : Type} r : readonly (@send A r).
Proof. intros w. reflexivity. Qed.

Lemma readonly_throw {A : Type} e : readonly (@throw A e).
Proof. intros w. reflexivity. Qed.

Lemma readonly_gets {A : Type} (f : World -> A) : readonly (gets f).
Proof. intros w. reflexivity. Qed.

Lemma readonly_bind {A B : Type} (m : Handler A) (k : A -> Handler B) :
  readonly m -> (forall a, readonly (k a)) -> readonly (bind m k).
Proof.
  intros Hm Hk w. unfold bind. specialize (Hm w).
  destruct (m w) as [[a | r | e] w1]; simpl in Hm; subst w1; try reflexivity.
  apply Hk.
Qed.

Lemma readonly_mapM {A B : Type} (f : A -> Handler B) xs :
  (forall x, readonly (f x)) -> readonly (mapM f xs).
Proof.
  intros Hf. induction xs as [|x rest IH]; simpl.
  - apply readonly_ret.
  - apply readonly_bind; [apply Hf|]. intros y.
    apply readonly_bind; [apply IH|]. intros ys. apply readonly_ret.
Qed.

Lemma readonly_mapM_index {A B : Type} (f : A -> nat -> Handler B) i xs :
  (forall x n, readonly (f x n)) -> readonly (mapM_index f i xs).
Proof.
  intros Hf. revert i. induction xs as [|x rest IH]; intros i; simpl.
  - apply readonly_ret.
  - apply readonly_bind; [apply Hf|]. intros y.
    apply readonly_bind; [apply IH|]. intros ys. apply readonly_ret.
Qed.

Lemma readonly_try_catch fallback body w :
  readonly body -> snd (try_catch fallback body w) = w.
Proof.
  intros H. unfold try_catch. specialize (H w).
  destruct (body w) as [[r | r | e] w1]; exact H.
Qed.

Lemma readonly_populate t : readonly (populate t).
Proof.
  unfold populate. apply readonly_bind; [apply readonly_gets|]. intros p.
  apply readonly_bind; [apply readonly_gets|]. intros u. apply readonly_ret.
Qed.

Lemma readonly_inventory_transaction t : readonly (inventory_transaction t).
Proof.
  unfold inventory_transaction.
  destruct (populated_product t); [|apply readonly_throw].
  destruct (populated_performedBy t); [apply readonly_ret | apply readonly_throw].
Qed.

Lemma readonly_report_transaction t : readonly (report_transaction t).
Proof.
  unfold report_transaction.
  destruct (populated_product t); [|apply readonly_throw].
  destruct (populated_performedBy t); [apply readonly_ret | apply readonly_throw].
Qed.

Lemma readonly_formattedOrder env t n : readonly (clerk_controller.formattedOrder env t n).
Proof.
  unfold clerk_controller.formattedOrder.
  destruct (populated_product t); [apply readonly_ret | apply readonly_throw].
Qed.

Ltac readonly_steps :=
  repeat first
    [ apply readonly_ret | apply readonly_send | apply readonly_throw
    | apply readonly_gets
    | apply readonly_mapM; intros ?
    | apply readonly_mapM_index; intros ? ?
    | apply readonly_populate | apply readonly_inventory_transaction
    | apply readonly_report_transaction | apply readonly_formattedOrder
    | apply readonly_bind; [|intros ?] ].

(** X7. The reading endpoints never write: whatever they answer,
    [generateReport] (for any type), [validateStockLevel], the clerk's
    low-stock list, order list and statistics, the auditor's history and
    statistics, the product low-stock list and the unread count leave the
    database exactly as it was. *)
Theorem reading_handlers_never_write env user type status w :
  snd (generateReport env type w) = w /\
  snd (validateStockLevel env w) = w /\
  snd (clerk_controller.getLowStockProducts w) = w /\
  snd (clerk_controller.getPendingOrders env status w) = w /\
  snd (clerk_controller.getDashboardStats w) = w /\
  snd (auditor_controller.getAuditReports w) = w /\
  snd (auditor_controller.getDashboardStats w) = w /\
  snd (product_controller.getLowStockProducts w) = w /\
  snd (getUnreadCount user w) = w.
Proof.
  repeat match goal with |- _ /\ _ => split end; apply readonly_try_catch.
  - apply readonly_bind; [|intros ?; apply readonly_ret].
    destruct ((match type with Some t => t | None => "inventory" end) =? "inventory")%string;
      [readonly_steps|].
    destruct ((match type with Some t => t | None => "inventory" end) =? "transactions")%string;
      [readonly_steps|].
    destruct ((match type with Some t => t | None => "inventory" end) =? "lowStock")%string;
      readonly_steps.
  - unfold Product.find. readonly_steps.
  - unfold Product.find. readonly_steps.
  - readonly_steps.
  - unfold Product.find. readonly_steps.
  - readonly_steps.
  - unfold Product.find. readonly_steps.
  - readonly_steps.
  - unfold notificationService_counts.getUnreadCount, Notification_countDocuments.
    readonly_steps.
Qed.

(** ** Stock validation *)

Lemma count_cons {A : Type} (x : A) (l : list A) : count (x :: l) = count l + 1.
Proof. unfold count. cbn [List.length]. lia. Qed.

Lemma count_app {A : Type} (l l' : list A) : count (l ++ l') = count l + count l'.
Proof. unfold count. rewrite length_app. lia. Qed.

Lemma count_nonneg {A : Type} (l : list A) : 0 <= count l.
Proof. unfold count. lia. Qed.

(** The loop of [validateStockLevel] in closed form. *)
Lemma validateStep_fold ps summary issues :
  fold_left validateStep ps (summary, issues) =
  ({| stockSummary.totalProducts := stockSummary.totalProducts summary;
      stockSummary.lowStock :=
        stockSummary.lowStock summary +
        count (filter (fun p => negb (productSchema.stock p =? 0) &&
                                (productSchema.stock p <=? productSchema.lowStockThreshold p))%bool
                      ps);
      stockSummary.outOfStock :=
        stockSummary.outOfStock summary +
        count (filter (fun p => productSchema.stock p =? 0) ps);
      stockSummary.healthy :=
        stockSummary.healthy summary +
        count (filter (fun p => negb (productSchema.stock p =? 0) &&
                                negb (productSchema.stock p <=? productSchema.lowStockThreshold p))%bool
                      ps) |},
   issues ++
   map (fun p => stock_issue p (productSchema.status (productSchema.pre_save p)))
       (filter (fun p => negb (productSchema.status (productSchema.pre_save p) =? "in-stock")%string)
               ps)).
Proof.
  revert summary issues. induction ps as [|p rest IH]; intros [t l o h] issues.
  - cbn. rewrite app_nil_r. f_equal. f_equal; lia.
  - cbn [fold_left]. unfold validateStep at 2. cbn [fst snd filter map].
    rewrite !pre_save_status. unfold derivedStatus.
    destruct (productSchema.stock p =? 0) eqn:E0;
      [|destruct (productSchema.stock p <=? productSchema.lowStockThreshold p) eqn:E1];
      rewrite IH;
      cbn [stockSummary.totalProducts stockSummary.lowStock stockSummary.outOfStock
           stockSummary.healthy negb andb String.eqb Ascii.eqb Bool.eqb map];
      rewrite ?pre_save_status; unfold derivedStatus; rewrite ?E0, ?E1;
      rewrite ?count_cons, <- ?app_assoc;
      (apply (f_equal2 pair); [f_equal; lia | reflexivity]).
Qed.

(** X8. [validateStockLevel] sorts every product into exactly one of
    three classes: it answers 200 with totalProducts = outOfStock +
    lowStock + healthy, where outOfStock counts the products with stock 0,
    and with one issue per product that is not healthy; hasIssues tells
    whether there is any. *)
Theorem validateStockLevel_partition env w :
  exists summary issues,
    validateStockLevel env w =
    (res_status_json 200
       (JObj [("success", JBool true);
              ("data",
               JObj [("summary", json_of_summary summary);
                     ("issues", JArr issues);
                     ("hasIssues", JBool (count issues >? 0));
                     ("timestamp", JDate (Date_now env))])]), w) /\
    stockSummary.totalProducts summary = count (products w) /\
    stockSummary.totalProducts summary =
      stockSummary.outOfStock summary + stockSummary.lowStock summary +
      stockSummary.healthy summary /\
    count issues = stockSummary.outOfStock summary + stockSummary.lowStock summary /\
    stockSummary.outOfStock summary =
      count (filter (fun p => productSchema.stock p =? 0) (products w)) /\
    stockSummary.healthy summary =
      count (filter (fun p => negb (productSchema.stock p =? 0) &&
                              (productSchema.lowStockThreshold p <? productSchema.stock p))%bool
                    (products w)).
Proof.
  unfold validateStockLevel, try_catch, bind, Product.find, gets, ret.
  rewrite validateStep_fold. cbn [fst snd app].
  do 2 eexists. split; [reflexivity|].
  cbn [stockSummary.totalProducts stockSummary.lowStock stockSummary.outOfStock
       stockSummary.healthy].
  split; [reflexivity|].
  induction (products w) as [|p rest IH]; [cbn; repeat split; reflexivity|].
  destruct IH as (IH1 & IH2 & _ & IH4).
  cbn [filter map]. rewrite !pre_save_status. unfold derivedStatus. rewrite count_cons.
  destruct (productSchema.stock p =? 0) eqn:E0;
    [|destruct (productSchema.stock p <=? productSchema.lowStockThreshold p) eqn:E1];
    cbn [negb andb filter map String.eqb Ascii.eqb Bool.eqb];
    rewrite ?count_cons;
    try (replace (productSchema.lowStockThreshold p <? productSchema.stock p) with false
           by (symmetry; apply Z.ltb_ge; now apply Z.leb_le));
    try (replace (productSchema.lowStockThreshold p <? productSchema.stock p) with true
           by (symmetry; apply Z.ltb_lt; now apply Z.leb_gt));
    rewrite ?count_cons; repeat split; lia.
Qed.

(** X9. The issues of [validateStockLevel] are the verdicts of the
    pre-save hook: a product is reported exactly when saving it would not
    make it in-stock, and the issue it is reported with is the status the
    save would give it. *)
Theorem validateStockLevel_agrees_with_hook env w :
  path ["data"; "issues"] (json (fst (validateStockLevel env w))) =
  Some (JArr
          (map (fun p => stock_issue p (productSchema.status (productSchema.pre_save p)))
               (filter (fun p =>
                          negb (productSchema.status (productSchema.pre_save p)
                                =? "in-stock")%string)
                       (products w)))).
Proof.
  unfold validateStockLevel, try_catch, bind, Product.find, gets, ret.
  rewrite validateStep_fold. reflexivity.
Qed.

(** ** Reports and deleted references *)

Lemma mapM_populate ts w :
  mapM populate ts w = (Value (map (populated w) ts), w).
Proof.
  induction ts as [|t rest IH]; [reflexivity|].
  cbn [mapM map]. unfold bind at 1.
  unfold populate at 1, bind, Product.resolve, User.resolve, gets, ret.
  fold (@bind). unfold bind. rewrite IH. reflexivity.
Qed.

Lemma mapM_report_complete l w :
  forallb complete l = true ->
  exists rows, mapM report_transaction l w = (Value rows, w).
Proof.
  induction l as [|t rest IH]; intros H; [now exists []|].
  cbn [forallb] in H. apply andb_true_iff in H as [Ht Hrest].
  destruct (IH Hrest) as (rows & Hrows).
  cbn [mapM]. unfold bind. unfold report_transaction at 1. unfold complete in Ht.
  destruct (populated_product t); [|discriminate].
  destruct (populated_performedBy t); [|discriminate].
  unfold ret at 1. rewrite Hrows. eexists. reflexivity.
Qed.

Lemma mapM_report_incomplete l w :
  forallb complete l = false ->
  exists message, message <> "" /\ mapM report_transaction l w = (Thrown message, w).
Proof.
  induction l as [|t rest IH]; intros H; [discriminate|].
  cbn [forallb] in H. cbn [mapM]. unfold bind. unfold report_transaction at 1.
  unfold complete in H at 1.
  destruct (populated_product t).
  - destruct (populated_performedBy t).
    + cbn [andb] in H. destruct (IH H) as (message & Hne & Hthrow).
      unfold ret at 1. rewrite Hthrow. now exists message.
    + eexists. split; [|reflexivity]. discriminate.
  - eexists. split; [|reflexivity]. discriminate.
Qed.

Lemma transactions_report_status env w o w1 :
  mapM report_transaction (newestPopulated w) w = (o, w1) ->
  statusCode (fst (generateReport env (Some "transactions") w)) =
  match o with Value _ => 200 | Sent r => statusCode r | Thrown _ => 500 end.
Proof.
  intros H. unfold generateReport, try_catch.
  cbn [String.eqb Ascii.eqb Bool.eqb].
  unfold bind at 1. unfold bind at 1. unfold Transaction.find at 1, gets at 1.
  unfold bind at 1. rewrite mapM_populate. unfold bind at 1.
  fold (newestPopulated w). rewrite H. destruct o; reflexivity.
Qed.

Lemma newestPopulated_complete w :
  forallb complete (newestPopulated w) = true <->
  Forall (fun t => resolves w t = true) (transactions w).
Proof.
  unfold newestPopulated. rewrite forallb_forall, Forall_forall. split.
  - intros H t Ht. apply (H (populated w t)).
    apply (Permutation_in _ (sortBy_perm _ _)). now apply in_map.
  - intros H p Hp. apply (Permutation_in _ (Permutation_sym (sortBy_perm _ _))) in Hp.
    apply in_map_iff in Hp as (t & <- & Ht). now apply H.
Qed.

(** X10. The transactions report needs every reference to resolve: it
    answers 200 when the product and the performer of every transaction
    still exist, and 500 as soon as one transaction refers to a product or
    a user that is gone. *)
Theorem transactions_report_needs_references env w :
  (Forall (fun t => resolves w t = true) (transactions w) ->
   statusCode (fst (generateReport env (Some "transactions") w)) = 200) /\
  (forall t, In t (transactions w) -> resolves w t = false ->
   statusCode (fst (generateReport env (Some "transactions") w)) = 500).
Proof.
  split.
  - intros H. apply newestPopulated_complete in H.
    destruct (mapM_report_complete _ w H) as (rows & Hrows).
    now rewrite (transactions_report_status env w _ _ Hrows).
  - intros t Ht Hbad.
    destruct (forallb complete (newestPopulated w)) eqn:E.
    + apply newestPopulated_complete in E. rewrite Forall_forall in E.
      specialize (E t Ht). congruence.
    + destruct (mapM_report_incomplete _ w E) as (message & _ & Hthrow).
      now rewrite (transactions_report_status env w _ _ Hthrow).
Qed.

(** The sample order refers to the Widget and to Maya: the report is
    served; once the Widget is gone it is not. *)
Lemma transactions_report_needs_references_witness :
  statusCode (fst (generateReport Sample.env (Some "transactions") Sample.world)) = 200 /\
  statusCode (fst (generateReport Sample.env (Some "transactions")
                     (set_products [Sample.gadget] Sample.world))) = 500.
Proof.
  split.
  - apply (proj1 (transactions_report_needs_references Sample.env Sample.world)).
    repeat constructor.
  - apply (proj2 (transactions_report_needs_references Sample.env
                    (set_products [Sample.gadget] Sample.world)) Sample.order).
    + left. reflexivity.
    + reflexivity.
Defined.

(** ** Low-stock listings *)

(** X11. The low-stock figures of the clerk and of the manager agree: the
    clerk's list, the clerk's statistics and the manager's low-stock
    report all count the products whose stock is at most their threshold,
    and the clerk's list and the manager's report hold the same products. *)
Theorem low_stock_figures_agree env w :
  let n := count (filter (fun p => productSchema.stock p <=? productSchema.lowStockThreshold p)
                         (products w)) in
  path ["count"] (json (fst (clerk_controller.getLowStockProducts w))) = Some (JNum n) /\
  path ["data"; "lowStockItems"] (json (fst (clerk_controller.getDashboardStats w))) =
    Some (JNum n) /\
  path ["data"; "summary"; "totalLowStockItems"]
       (json (fst (generateReport env (Some "lowStock") w))) = Some (JNum n) /\
  path ["data"] (json (fst (clerk_controller.getLowStockProducts w))) =
    Some (JArr (map clerk_controller.lowStock_entry
                    (filter Clerk.checkLowStock (products w)))) /\
  path ["data"; "products"] (json (fst (generateReport env (Some "lowStock") w))) =
    Some (JArr (map lowStock_product (filter isLowStock (sortByStock (products w))))) /\
  Permutation (filter Clerk.checkLowStock (products w))
              (filter isLowStock (sortByStock (products w))).
Proof.
  intros n.
  assert (Hperm : Permutation (filter Clerk.checkLowStock (products w))
                              (filter isLowStock (sortByStock (products w)))).
  { change Clerk.checkLowStock with isLowStock. apply filter_perm. apply sortBy_perm. }
  repeat match goal with |- _ /\ _ => split end; try exact Hperm.
  - unfold clerk_controller.getLowStockProducts, try_catch, bind, Product.find, gets, ret.
    cbn. f_equal. f_equal. unfold count. now rewrite length_map.
  - reflexivity.
  - rewrite generateReport_lowStock. cbn. f_equal. f_equal. symmetry.
    apply (count_perm _ _ Hperm).
  - reflexivity.
  - reflexivity.
Qed.

(** X12. When every product carries the status derived from its stock and
    no threshold is negative, the product API's low-stock list, which
    selects by status, holds exactly the products of the clerk's list,
    which selects by stock. *)
Theorem low_stock_by_status_and_by_stock w :
  Forall (fun p => productSchema.status p =
                   derivedStatus (productSchema.stock p) (productSchema.lowStockThreshold p) /\
                   0 <= productSchema.lowStockThreshold p) (products w) ->
  filter product_controller.statusIsLow (products w) =
  filter Clerk.checkLowStock (products w) /\
  path ["count"] (json (fst (product_controller.getLowStockProducts w))) =
  path ["count"] (json (fst (clerk_controller.getLowStockProducts w))).
Proof.
  intros Hall.
  assert (Heq : filter product_controller.statusIsLow (products w) =
                filter Clerk.checkLowStock (products w)).
  { apply filter_ext_in. intros p Hp.
    destruct (proj1 (Forall_forall _ _) Hall p Hp) as [Hst Hthr].
    unfold product_controller.statusIsLow, Clerk.checkLowStock. rewrite Hst.
    unfold derivedStatus.
    destruct (Z.eqb_spec (productSchema.stock p) 0) as [E | E].
    - rewrite E. cbn. symmetry. now apply Z.leb_le.
    - destruct (productSchema.stock p <=? productSchema.lowStockThreshold p); reflexivity. }
  split; [exact Heq|].
  unfold product_controller.getLowStockProducts, clerk_controller.getLowStockProducts,
    try_catch, bind, Product.find, gets, ret.
  cbn. rewrite Heq. unfold count. now rewrite length_map.
Qed.

(** Three products saved through the hook under the default threshold. *)
Lemma low_stock_by_status_and_by_stock_witness :
  let saved := map (fun p => restocked Sample.env p (productSchema.stock p))
                   [Sample.widget; Sample.gadget; Sample.cable] in
  filter product_controller.statusIsLow saved = filter Clerk.checkLowStock saved.
Proof.
  intros saved.
  apply (low_stock_by_status_and_by_stock (set_products saved Sample.world)).
  repeat constructor; cbn; lia.
Defined.

(** ** Product updates and deletions *)

Lemma lookupById_not_In {D : Type} (id_of : D -> string) id c :
  ~ In id (map id_of c) -> lookupById id_of id c = None.
Proof.
  unfold lookupById. induction c as [|x rest IH]; simpl; [reflexivity|].
  intros H. destruct (String.eqb_spec (id_of x) id) as [E | E]; [tauto|].
  apply IH. tauto.
Qed.

Lemma lookupById_deleteOne {D : Type} (id_of : D -> string) id c :
  NoDup (map id_of c) -> lookupById id_of id (deleteOne id_of id c) = None.
Proof.
  induction c as [|x rest IH]; simpl; [reflexivity|].
  intros H. inversion H as [|? ? Hnotin Hrest]; subst.
  destruct (String.eqb_spec (id_of x) id) as [E | E].
  - subst id. now apply lookupById_not_In.
  - unfold lookupById in *. simpl.
    destruct (String.eqb_spec (id_of x) id); [contradiction|]. now apply IH.
Qed.

Lemma lookupById_deleteOne_other {D : Type} (id_of : D -> string) id id' c :
  id' <> id -> lookupById id_of id' (deleteOne id_of id c) = lookupById id_of id' c.
Proof.
  intros Hne. unfold lookupById. induction c as [|x rest IH]; simpl; [reflexivity|].
  destruct (String.eqb_spec (id_of x) id) as [E | E].
  - destruct (String.eqb_spec (id_of x) id'); [congruence | reflexivity].
  - simpl. now rewrite IH.
Qed.

Lemma deleteProduct_run env id p w :
  lookupById productSchema._id id (products w) = Some p ->
  product_controller.deleteProduct env id w =
  (res_status_json 200
     (JObj [("success", JBool true); ("message", JStr "Product deleted successfully")]),
   set_products (deleteOne productSchema._id id (products w)) w).
Proof.
  intros H. unfold product_controller.deleteProduct, try_catch, bind,
    product_controller.Product_findByIdAndDelete, bind, Product.findById.
  rewrite (queryById_found _ _ _ _ _ _ _ H). reflexivity.
Qed.

(** X13. [deleteProduct] removes the product and nothing else: with
    distinct product ids the id no longer resolves, every other product
    is still found, and the transactions are all kept, so that each
    transaction of the deleted product is left with a dangling reference
    and the transactions report, until then served, answers 500. *)
Theorem deleteProduct_leaves_dangling_transactions env id p t w :
  NoDup (map productSchema._id (products w)) ->
  lookupById productSchema._id id (products w) = Some p ->
  In t (transactions w) -> transactionSchema.product t = id ->
  let w' := snd (product_controller.deleteProduct env id w) in
  statusCode (fst (product_controller.deleteProduct env id w)) = 200 /\
  lookupById productSchema._id id (products w') = None /\
  (forall id', id' <> id ->
     lookupById productSchema._id id' (products w') =
     lookupById productSchema._id id' (products w)) /\
  transactions w' = transactions w /\
  statusCode (fst (generateReport env (Some "transactions") w')) = 500.
Proof.
  intros Hnodup Hfind Ht Hprod w'. unfold w'.
  rewrite (deleteProduct_run env id p w Hfind). cbn [fst snd statusCode res_status_json].
  assert (Hgone : lookupById productSchema._id id
                    (deleteOne productSchema._id id (products w)) = None)
    by now apply lookupById_deleteOne.
  repeat split; auto.
  - intros id' Hne. now apply lookupById_deleteOne_other.
  - set (w1 := set_products (deleteOne productSchema._id id (products w)) w).
    assert (Hbad : resolves w1 t = false).
    { unfold resolves, w1. cbn [products set_products]. now rewrite Hprod, Hgone. }
    destruct (forallb complete (newestPopulated w1)) eqn:E.
    + apply newestPopulated_complete in E. rewrite Forall_forall in E.
      specialize (E t Ht). congruence.
    + destruct (mapM_report_incomplete _ w1 E) as (message & _ & Hthrow).
      now rewrite (transactions_report_status env w1 _ _ Hthrow).
Qed.

(** Deleting the Widget, which the sample order refers to. *)
Lemma deleteProduct_leaves_dangling_transactions_witness :
  let w' := snd (product_controller.deleteProduct Sample.env "66f0c0ffee00000000000001" Sample.world) in
  lookupById productSchema._id "66f0c0ffee00000000000001" (products w') = None /\
  transactions w' = transactions Sample.world /\
  statusCode (fst (generateReport Sample.env (Some "transactions") w')) = 500.
Proof.
  assert (Hnodup : NoDup (map productSchema._id (products Sample.world))).
  { repeat constructor; simpl; intuition discriminate. }
  assert (Hin : In Sample.order (transactions Sample.world)) by (left; reflexivity).
  destruct (deleteProduct_leaves_dangling_transactions Sample.env
              "66f0c0ffee00000000000001" Sample.widget Sample.order Sample.world
              Hnodup eq_refl Hin eq_refl) as (_ & Hgone & _ & Hkept & H500).
  repeat split; assumption.
Defined.

Lemma updateProduct_run env id body p w :
  product_controller.validateUpdate body = [] ->
  lookupById productSchema._id id (products w) = Some p ->
  product_controller.updateProduct env id body w =
  (res_status_json 200
     (JObj [("success", JBool true);
            ("data", product_controller.json_of_product (users w)
                       (product_controller.applyUpdate env body p));
            ("message", JStr "Product updated successfully")]),
   set_products
     (updateOne productSchema._id id (product_controller.applyUpdate env body) (products w))
     w).
Proof.
  intros V Hfind.
  unfold product_controller.updateProduct, try_catch, bind,
    product_controller.Product_findByIdAndUpdate.
  rewrite V. unfold bind, Product.findById. rewrite !(queryById_found _ _ _ _ _ _ _ Hfind). reflexivity.
Qed.

Lemma updateProduct_invalid env id body w :
  product_controller.validateUpdate body <> [] ->
  statusCode (fst (product_controller.updateProduct env id body w)) = 500 /\
  snd (product_controller.updateProduct env id body w) = w.
Proof.
  intros V.
  unfold product_controller.updateProduct, try_catch, bind,
    product_controller.Product_findByIdAndUpdate.
  destruct (product_controller.validateUpdate body); [congruence|].
  unfold throw. now cbn.
Qed.

Lemma updateProduct_unknown env id body w :
  product_controller.validateUpdate body = [] ->
  lookupById productSchema._id id (products w) = None ->
  snd (product_controller.updateProduct env id body w) = w.
Proof.
  intros V Hfind.
  unfold product_controller.updateProduct, try_catch, bind,
    product_controller.Product_findByIdAndUpdate.
  rewrite V. unfold bind, Product.findById. rewrite !(queryById_unknown _ _ _ _ _ _ Hfind).
  now destruct (isObjectId env id).
Qed.



(** X15. [updateProduct] cannot make a stock negative: an update with a
    negative stock or price is refused with 500 before anything is looked
    up or written, and if no product has a negative stock before an
    update, whatever the request, none has one after. *)
Theorem updateProduct_keeps_stock_nonnegative env id body w :
  (forall n, productUpdate.stock body = Some n \/ productUpdate.price body = Some n ->
             n < 0 ->
             statusCode (fst (product_controller.updateProduct env id body w)) = 500 /\
             snd (product_controller.updateProduct env id body w) = w) /\
  (Forall (fun p => 0 <= productSchema.stock p) (products w) ->
   Forall (fun p => 0 <= productSchema.stock p)
          (products (snd (product_controller.updateProduct env id body w)))).
Proof.
  split.
  - intros n Hn Hneg. apply updateProduct_invalid.
    unfold product_controller.validateUpdate, min_number. intros V.
    apply app_eq_nil in V as [_ V]. apply app_eq_nil in V as [_ V].
    apply app_eq_nil in V as [Vs Vp].
    destruct Hn as [Hn | Hn]; rewrite Hn in *.
    + replace (n <? 0) with true in Vs by (symmetry; now apply Z.ltb_lt). discriminate.
    + replace (n <? 0) with true in Vp by (symmetry; now apply Z.ltb_lt). discriminate.
  - intros Hall.
    destruct (product_controller.validateUpdate body) eqn:V.
    + destruct (lookupById productSchema._id id (products w)) as [p|] eqn:Hfind.
      * rewrite (updateProduct_run env id body p w V Hfind).
        cbn [snd products set_products]. apply Forall_forall. intros x Hx.
        apply updateOne_other in Hx as [Hx | (old & Hold & _ & ->)].
        -- now apply (proj1 (Forall_forall _ _) Hall).
        -- cbn [product_controller.applyUpdate productSchema.stock].
           unfold product_controller.validateUpdate, min_number in V.
           apply app_eq_nil in V as [_ V]. apply app_eq_nil in V as [_ V].
           apply app_eq_nil in V as [Vs _].
           destruct (productUpdate.stock body) as [n|]; cbn.
           ++ destruct (Z.ltb_spec n 0); [discriminate | assumption].
           ++ now apply (proj1 (Forall_forall _ _) Hall).
      * now rewrite (updateProduct_unknown env id body w V Hfind).
    + rewrite (proj2 (updateProduct_invalid env id body w ltac:(rewrite V; discriminate))).
      exact Hall.
Qed.

(** An update to a stock of -1 is refused. *)
Lemma updateProduct_keeps_stock_nonnegative_witness :
  let body := {| productUpdate.name := None; productUpdate.category := None;
                 productUpdate.stock := Some (-1); productUpdate.price := None;
                 productUpdate.description := None;
                 productUpdate.lowStockThreshold := None |} in
  statusCode (fst (product_controller.updateProduct Sample.env
                     "66f0c0ffee00000000000004" body Sample.world)) = 500 /\
  snd (product_controller.updateProduct Sample.env
         "66f0c0ffee00000000000004" body Sample.world) = Sample.world.
Proof.
  intros body.
  apply (proj1 (updateProduct_keeps_stock_nonnegative Sample.env
                  "66f0c0ffee00000000000004" body Sample.world) (-1)).
  - left. reflexivity.
  - reflexivity.
Defined.

(** ** Orders *)

(** X16. A status update is not rolled back when the answer fails: for an
    existing transaction whose product has been deleted and a valid
    target status, [updateOrderStatus] answers 500, yet the transaction
    now carries the new status. *)
Theorem updateOrderStatus_writes_then_fails env id s t w :
  lookupById transactionSchema._id id (transactions w) = Some t ->
  In s ["pending"; "completed"; "rejected"] ->
  lookupById productSchema._id (transactionSchema.product t) (products w) = None ->
  statusCode (fst (updateOrderStatus env id (Some s) w)) = 500 /\
  exists t',
    lookupById transactionSchema._id id
      (transactions (snd (updateOrderStatus env id (Some s) w))) = Some t' /\
    transactionSchema.status t' = s /\
    transactionSchema.quantity t' = transactionSchema.quantity t.
Proof.
  intros Hfind Hs Hgone. apply includes_In in Hs.
  destruct (updateOrderStatus_valid env id s t w Hs Hfind) as [Hw Hcode].
  rewrite Hw, Hcode, Hgone. split; [reflexivity|].
  exists (statusUpdate env s t). cbn [transactions set_transactions]. split; [|split].
  - apply lookupById_updateOne; [assumption|]. exact (lookupById_id _ _ _ _ Hfind).
  - reflexivity.
  - reflexivity.
Qed.

(** The sample order is completed after its product, the Widget, is gone. *)
Lemma updateOrderStatus_writes_then_fails_witness :
  let w := set_products [Sample.gadget] Sample.world in
  statusCode (fst (updateOrderStatus Sample.env "66f0c0ffee00000000000021"
                     (Some "completed") w)) = 500 /\
  exists t',
    lookupById transactionSchema._id "66f0c0ffee00000000000021"
      (transactions (snd (updateOrderStatus Sample.env "66f0c0ffee00000000000021"
                            (Some "completed") w))) = Some t' /\
    transactionSchema.status t' = "completed".
Proof.
  intros w.
  destruct (updateOrderStatus_writes_then_fails Sample.env "66f0c0ffee00000000000021"
              "completed" Sample.order w eq_refl (or_intror (or_introl eq_refl)) eq_refl)
    as (H500 & t' & Hlook & Hst & _).
  split; [exact H500|]. exists t'. split; assumption.
Defined.

Lemma mapM_index_orders_ok env i l w :
  forallb hasProduct l = true ->
  exists rows,
    mapM_index (clerk_controller.formattedOrder env) i l w = (Value rows, w) /\
    List.length rows = List.length l.
Proof.
  revert i. induction l as [|t rest IH]; intros i H; [now exists []|].
  cbn [forallb] in H. apply andb_true_iff in H as [Ht Hrest].
  destruct (IH (S i) Hrest) as (rows & Hrows & Hlen).
  cbn [mapM_index]. unfold bind. unfold clerk_controller.formattedOrder at 1.
  unfold hasProduct in Ht. destruct (populated_product t); [|discriminate].
  unfold ret at 1. rewrite Hrows. eexists. split; [reflexivity|]. cbn. now rewrite Hlen.
Qed.

Lemma mapM_index_orders_fail env i l w :
  forallb hasProduct l = false ->
  exists message, mapM_index (clerk_controller.formattedOrder env) i l w = (Thrown message, w).
Proof.
  revert i. induction l as [|t rest IH]; intros i H; [discriminate|].
  cbn [forallb] in H. cbn [mapM_index]. unfold bind.
  unfold clerk_controller.formattedOrder at 1. unfold hasProduct in H at 1.
  destruct (populated_product t).
  - cbn [andb] in H. destruct (IH (S i) H) as (message & Hthrow).
    unfold ret at 1. rewrite Hthrow. now exists message.
  - eexists. reflexivity.
Qed.

Lemma getPendingOrders_status env status w o w1 :
  mapM_index (clerk_controller.formattedOrder env) 0
    (newestOrders (match status with Some s => s | None => "pending" end) w) w = (o, w1) ->
  fst (clerk_controller.getPendingOrders env status w) =
  match o with
  | Value rows =>
      res_status_json 200
        (JObj [("success", JBool true); ("count", JNum (count rows)); ("data", JArr rows)])
  | Sent r => r
  | Thrown message =>
      res_status_json 500
        (JObj [("success", JBool false);
               ("error", JStr (message_or message "Failed to fetch orders"))])
  end.
Proof.
  intros H. unfold clerk_controller.getPendingOrders, try_catch.
  unfold bind at 1. unfold gets at 1.
  unfold bind at 1. rewrite mapM_populate. unfold bind at 1.
  fold (newestOrders (match status with Some s => s | None => "pending" end) w).
  rewrite H. destruct o; reflexivity.
Qed.

Lemma newestOrders_hasProduct status w :
  forallb hasProduct (newestOrders status w) = true <->
  Forall (fun t => lookupById productSchema._id (transactionSchema.product t) (products w)
                   <> None)
         (filter (clerk_controller.hasStatus status) (transactions w)).
Proof.
  unfold newestOrders. rewrite forallb_forall, Forall_forall. split.
  - intros H t Ht Hnone.
    assert (Hin : In (populated w t)
                     (sortBy (fun a b => newest_first (transaction_doc a) (transaction_doc b))
                        (map (populated w)
                           (filter (clerk_controller.hasStatus status) (transactions w))))).
    { apply (Permutation_in _ (sortBy_perm _ _)). now apply in_map. }
    specialize (H _ Hin). unfold hasProduct in H.
    cbn [populated populated_product] in H. rewrite Hnone in H. discriminate.
  - intros H p Hp. apply (Permutation_in _ (Permutation_sym (sortBy_perm _ _))) in Hp.
    apply in_map_iff in Hp as (t & <- & Ht). specialize (H t Ht).
    unfold hasProduct, populated. cbn.
    destruct (lookupById productSchema._id (transactionSchema.product t) (products w));
      [reflexivity | congruence].
Qed.

Lemma newestOrders_length status w :
  List.length (newestOrders status w) =
  List.length (filter (clerk_controller.hasStatus status) (transactions w)).
Proof.
  unfold newestOrders.
  rewrite <- (Permutation_length (sortBy_perm _ _)). apply length_map.
Qed.

(** X17. The clerk's order list holds the transactions of the requested
    status, pending by default: it answers 200 with their number when the
    product of each of them still exists, whether or not the user who
    performed it does, and 500 when the product of one of them is gone. *)
Theorem getPendingOrders_lists_status env status w :
  let wanted := match status with Some s => s | None => "pending" end in
  let listed := filter (fun t => transactionSchema.status t =? wanted)%string
                       (transactions w) in
  (Forall (fun t => lookupById productSchema._id (transactionSchema.product t) (products w)
                    <> None) listed ->
   statusCode (fst (clerk_controller.getPendingOrders env status w)) = 200 /\
   path ["count"] (json (fst (clerk_controller.getPendingOrders env status w))) =
     Some (JNum (count listed))) /\
  (forall t, In t listed ->
     lookupById productSchema._id (transactionSchema.product t) (products w) = None ->
     statusCode (fst (clerk_controller.getPendingOrders env status w)) = 500).
Proof.
  intros wanted listed. split.
  - intros H. apply newestOrders_hasProduct in H.
    destruct (mapM_index_orders_ok env 0 _ w H) as (rows & Hrows & Hlen).
    rewrite (getPendingOrders_status env status w _ _ Hrows).
    split; [reflexivity|]. cbn. unfold count. rewrite Hlen, newestOrders_length.
    reflexivity.
  - intros t Ht Hgone.
    destruct (forallb hasProduct (newestOrders wanted w)) eqn:E.
    + apply newestOrders_hasProduct in E. rewrite Forall_forall in E.
      now specialize (E t Ht).
    + destruct (mapM_index_orders_fail env 0 _ w E) as (message & Hthrow).
      now rewrite (getPendingOrders_status env status w _ _ Hthrow).
Qed.

(** The one pending order of the sample database is listed. *)
Lemma getPendingOrders_lists_status_witness :
  statusCode (fst (clerk_controller.getPendingOrders Sample.env None Sample.world)) = 200 /\
  path ["count"] (json (fst (clerk_controller.getPendingOrders Sample.env None Sample.world)))
    = Some (JNum 1).
Proof.
  apply (proj1 (getPendingOrders_lists_status Sample.env None Sample.world)).
  repeat constructor. discriminate.
Defined.

Lemma pending_after_update env id s t c :
  lookupById transactionSchema._id id c = Some t ->
  transactionSchema.status t = "pending" -> s <> "pending" ->
  (List.length (filter (clerk_controller.hasStatus "pending")
                  (updateOne transactionSchema._id id (statusUpdate env s) c)) + 1)%nat =
  List.length (filter (clerk_controller.hasStatus "pending") c) /\
  (forall x, In x (filter (clerk_controller.hasStatus "pending")
                     (updateOne transactionSchema._id id (statusUpdate env s) c)) ->
             In x (filter (clerk_controller.hasStatus "pending") c)).
Proof.
  unfold lookupById. intros Hfind Hpending Hs.
  induction c as [|x rest IH]; [discriminate|].
  cbn [find] in Hfind. cbn [updateOne].
  destruct (transactionSchema._id x =? id)%string eqn:E.
  - injection Hfind as ->.
    assert (Hold : clerk_controller.hasStatus "pending" t = true).
    { unfold clerk_controller.hasStatus. now rewrite Hpending. }
    assert (Hnew : clerk_controller.hasStatus "pending" (statusUpdate env s t) = false).
    { unfold clerk_controller.hasStatus. cbn. now apply String.eqb_neq. }
    cbn [filter]. rewrite Hold, Hnew. split; [cbn; lia|]. intros y Hy. now right.
  - destruct (IH Hfind) as [IHlen IHin]. cbn [filter].
    destruct (clerk_controller.hasStatus "pending" x).
    + split; [cbn; lia|]. intros y [-> | Hy]; [now left | right; now apply IHin].
    + split; [assumption|]. assumption.
Qed.

(** X18. An order that is completed or rejected leaves the pending list:
    when the pending orders can be listed (their products exist), after
    [updateOrderStatus] gives a pending order another status the default
    listing still answers 200 and counts exactly one order less. *)
Theorem updated_order_leaves_pending_list env id s t w :
  lookupById transactionSchema._id id (transactions w) = Some t ->
  transactionSchema.status t = "pending" ->
  s = "completed" \/ s = "rejected" ->
  Forall (fun t => lookupById productSchema._id (transactionSchema.product t) (products w)
                   <> None)
         (filter (fun t => transactionSchema.status t =? "pending")%string (transactions w)) ->
  let w' := snd (updateOrderStatus env id (Some s) w) in
  statusCode (fst (clerk_controller.getPendingOrders env None w')) = 200 /\
  path ["count"] (json (fst (clerk_controller.getPendingOrders env None w'))) =
    Some (JNum (count (filter (fun t => transactionSchema.status t =? "pending")%string
                              (transactions w)) - 1)).
Proof.
  intros Hfind Hpending Hs Hall w'.
  assert (Hvalid : includes order_statuses s = true)
    by (destruct Hs as [-> | ->]; reflexivity).
  assert (Hne : s <> "pending") by (destruct Hs as [-> | ->]; discriminate).
  destruct (updateOrderStatus_valid env id s t w Hvalid Hfind) as [Hw _].
  destruct (pending_after_update env id s t (transactions w) Hfind Hpending Hne)
    as [Hlen Hin].
  assert (Hall' : forallb hasProduct (newestOrders "pending" w') = true).
  { apply newestOrders_hasProduct. unfold w'. rewrite Hw.
    cbn [transactions products set_transactions]. apply Forall_forall. intros x Hx.
    apply (proj1 (Forall_forall _ _) Hall). now apply Hin. }
  destruct (mapM_index_orders_ok env 0 _ w' Hall') as (rows & Hrows & Hrowlen).
  rewrite (getPendingOrders_status env None w' _ _ Hrows).
  split; [reflexivity|]. cbn. unfold count. rewrite Hrowlen, newestOrders_length.
  unfold w'. rewrite Hw. cbn [transactions set_transactions].
  change (fun t0 => (transactionSchema.status t0 =? "pending")%string)
    with (clerk_controller.hasStatus "pending").
  rewrite <- Hlen. do 2 f_equal. lia.
Qed.

(** The pending sample order is completed: no pending order is left. *)
Lemma updated_order_leaves_pending_list_witness :
  let w' := snd (updateOrderStatus Sample.env "66f0c0ffee00000000000021"
                   (Some "completed") Sample.world) in
  path ["count"] (json (fst (clerk_controller.getPendingOrders Sample.env None w'))) =
    Some (JNum 0).
Proof.
  intros w'.
  refine (proj2 (updated_order_leaves_pending_list Sample.env "66f0c0ffee00000000000021"
                   "completed" Sample.order Sample.world eq_refl eq_refl
                   (or_introl eq_refl) _)).
  repeat constructor. discriminate.
Defined.

(** ** Audits: scheduling and completing *)

(** X19. Completing an audit is irreversible: after [completeAudit] has
    completed a scheduled or in-progress audit, which it does when the
    stored record passes the validation of the schema, a second
    [completeAudit] on it is refused with 400 and changes nothing. *)
Theorem completeAudit_twice env1 env2 id a w :
  lookupById auditSchema._id id (audits w) = Some a ->
  auditSchema.status a = "scheduled" \/ auditSchema.status a = "in-progress" ->
  auditSchema.validate (auditSchema.set_status "completed" a) = [] ->
  let w1 := snd (completeAudit env1 id w) in
  statusCode (fst (completeAudit env1 id w)) = 200 /\
  completeAudit env2 id w1 =
  (res_status_json 400
     (JObj [("success", JBool false); ("error", JStr "Audit is already completed")]),
   w1).
Proof.
  intros Hfind Hst Hvalid w1.
  assert (Hopen : (auditSchema.status a =? "completed")%string = false)
    by (destruct Hst as [-> | ->]; reflexivity).
  pose proof (completeAudit_open env1 id a w Hfind Hopen) as Hrun.
  rewrite Hvalid in Hrun. cbv zeta in Hrun.
  unfold w1. rewrite Hrun. cbn [fst snd]. split; [reflexivity|].
  apply (completeAudit_closed env2 id
           (auditSchema.set_updatedAt (Date_now env1) (auditSchema.set_status "completed" a)));
    [|reflexivity].
  cbn [audits set_audits].
  apply (lookupById_updateOne auditSchema._id id (fun _ => _) (audits w) a Hfind).
  exact (lookupById_id _ _ _ _ Hfind).
Qed.

(** The running sample audit is completed once, and only once. *)
Lemma completeAudit_twice_witness :
  let w1 := snd (completeAudit Sample.env "66f0c0ffee00000000000031" Sample.world) in
  statusCode (fst (completeAudit Sample.env "66f0c0ffee00000000000031" w1)) = 400 /\
  snd (completeAudit Sample.env "66f0c0ffee00000000000031" w1) = w1.
Proof.
  intros w1.
  destruct (completeAudit_twice Sample.env Sample.env "66f0c0ffee00000000000031"
              Sample.running Sample.world eq_refl (or_intror eq_refl) eq_refl)
    as [_ Hsecond].
  fold w1 in Hsecond. rewrite Hsecond. split; reflexivity.
Defined.

(** X29. [completeAudit] on a scheduled or in-progress audit whose
    stored record does not pass the validation of the schema (no title,
    or a finding stored as an object, which the String elements of the
    schema cannot hold) answers 500 and leaves the database as it was:
    the audit stays open. *)
Theorem completeAudit_refuses_invalid_record env id a w :
  lookupById auditSchema._id id (audits w) = Some a ->
  auditSchema.status a = "scheduled" \/ auditSchema.status a = "in-progress" ->
  auditSchema.validate (auditSchema.set_status "completed" a) <> [] ->
  statusCode (fst (completeAudit env id w)) = 500 /\
  snd (completeAudit env id w) = w.
Proof.
  intros Hfind Hst Hinvalid.
  assert (Hopen : (auditSchema.status a =? "completed")%string = false)
    by (destruct Hst as [-> | ->]; reflexivity).
  rewrite (completeAudit_open env id a w Hfind Hopen).
  destruct (auditSchema.validate (auditSchema.set_status "completed" a));
    [now contradiction Hinvalid | split; reflexivity].
Qed.

(** An in-progress audit whose one finding is stored as an object cannot
    be completed. *)
Lemma completeAudit_refuses_invalid_record_witness :
  let w := set_audits [Sample.imported] Sample.world in
  statusCode (fst (completeAudit Sample.env "66f0c0ffee00000000000033" w)) = 500 /\
  snd (completeAudit Sample.env "66f0c0ffee00000000000033" w) = w.
Proof.
  intros w.
  apply (completeAudit_refuses_invalid_record Sample.env "66f0c0ffee00000000000033"
           Sample.imported w eq_refl (or_intror eq_refl)).
  discriminate.
Defined.

Lemma scheduleAudit_run newDate env user title date ti d ms w :
  title = Some ti -> ti <> "" -> date = Some d -> d <> "" ->
  newDate d = inr ms -> trim ti <> "" ->
  let a := scheduled env user ti ms (objectIds w) in
  auditor_controller.scheduleAudit newDate env user title date w =
  (res_status_json 201
     (JObj [("success", JBool true);
            ("message",
             JStr ("Audit scheduled for " ++ toLocaleDateString env ms ++
                   " successfully.")%string);
            ("data",
             JObj [("auditId", JStr (auditSchema._id a));
                   ("title", JStr (auditSchema.title a));
                   ("date", JDate (auditSchema.date a));
                   ("status", JStr (auditSchema.status a))])]),
   set_audits (audits w ++ [a]) (set_objectIds (S (objectIds w)) w)).
Proof.
  intros -> Hti -> Hd Hdate Htrim a.
  unfold auditor_controller.scheduleAudit, try_catch.
  rewrite !truthy_string_Some by assumption. cbn [negb orb string_of]. rewrite Hdate.
  unfold bind, Audit.create, freshObjectId, bind, gets, modify, ret. cbn beta iota.
  unfold auditSchema.validate, required_string.
  cbn [auditSchema.title auditSchema.status].
  apply String.eqb_neq in Htrim. rewrite Htrim. reflexivity.
Qed.

(** X20. Scheduling never scans: whatever the products are, a request
    with a title and a date creates one audit with status scheduled,
    discrepancy count 0 and no details, and touches nothing else; and
    completing that audit (its id being new) yields a completed audit that
    still has no findings. *)
Theorem scheduled_audit_has_no_findings newDate env env' user title date ti d ms w :
  title = Some ti -> ti <> "" -> date = Some d -> d <> "" ->
  newDate d = inr ms -> trim ti <> "" ->
  lookupById auditSchema._id (newObjectId env (objectIds w)) (audits w) = None ->
  let w1 := snd (auditor_controller.scheduleAudit newDate env user title date w) in
  exists a,
    statusCode (fst (auditor_controller.scheduleAudit newDate env user title date w)) = 201 /\
    audits w1 = audits w ++ [a] /\
    auditSchema.status a = "scheduled" /\
    auditSchema.discrepancies a = 0 /\
    auditSchema.discrepancyDetails a = [] /\
    products w1 = products w /\ transactions w1 = transactions w /\
    notifications w1 = notifications w /\
    statusCode (fst (completeAudit env' (auditSchema._id a) w1)) = 200 /\
    exists a',
      lookupById auditSchema._id (auditSchema._id a)
        (audits (snd (completeAudit env' (auditSchema._id a) w1))) = Some a' /\
      auditSchema.status a' = "completed" /\
      auditSchema.discrepancies a' = 0 /\
      auditSchema.discrepancyDetails a' = [].
Proof.
  intros Htitle Hti Hdate Hd Hparse Htrim Hfresh w1. unfold w1.
  rewrite (scheduleAudit_run newDate env user title date ti d ms w
             Htitle Hti Hdate Hd Hparse Htrim).
  cbn [fst snd statusCode res_status_json audits products transactions notifications
       set_audits set_objectIds].
  set (a := scheduled env user ti ms (objectIds w)).
  set (w2 := set_audits (audits w ++ [a]) (set_objectIds (S (objectIds w)) w)).
  assert (Hfind : lookupById auditSchema._id (auditSchema._id a) (audits w2) = Some a).
  { unfold w2. cbn [audits set_audits]. now apply lookupById_app_new. }
  pose proof (completeAudit_open env' (auditSchema._id a) a w2 Hfind eq_refl) as Hrun.
  rewrite (Audit_validate_no_details a Htrim eq_refl) in Hrun. cbv zeta in Hrun.
  exists a. repeat split; try reflexivity.
  - now rewrite Hrun.
  - rewrite Hrun. cbn [snd audits set_audits].
    eexists. split.
    + apply (lookupById_updateOne auditSchema._id (auditSchema._id a) (fun _ => _)
               (audits w2) a Hfind). reflexivity.
    + repeat split.
Qed.

(** The auditor Ana schedules an audit for March on the sample database,
    whose products do have discrepancies. *)
Lemma scheduled_audit_has_no_findings_witness :
  let asAna := {| userId := "66f0c0ffee00000000000014" |} in
  let w1 := snd (auditor_controller.scheduleAudit sampleDate Sample.env asAna
                   (Some "Spring audit") (Some "2026-03-01") Sample.world) in
  fst (auditProducts (products Sample.world)) <> [] /\
  exists a, audits w1 = audits Sample.world ++ [a] /\
            auditSchema.discrepancies a = 0 /\ auditSchema.discrepancyDetails a = [].
Proof.
  intros asAna w1. split; [discriminate|].
  assert (H1 : "Spring audit" <> "") by discriminate.
  assert (H2 : "2026-03-01" <> "") by discriminate.
  assert (H3 : trim "Spring audit" <> "") by discriminate.
  destruct (scheduled_audit_has_no_findings sampleDate Sample.env Sample.env asAna
              (Some "Spring audit") (Some "2026-03-01") "Spring audit" "2026-03-01"
              1772323200000 Sample.world eq_refl H1 eq_refl H2 eq_refl H3 eq_refl)
    as (a & _ & Happ & _ & Hn & Hd & _).
  exists a. repeat split; assumption.
Defined.

(** ** Audits: what the scan counts *)

Lemma filter_flat_map {A B : Type} (g : B -> bool) (f : A -> list B) (l : list A) :
  filter g (flat_map f l) = flat_map (fun x => filter g (f x)) l.
Proof.
  induction l as [|x rest IH]; simpl; [reflexivity|].
  now rewrite filter_app, IH.
Qed.

Lemma count_flat_map {A B : Type} (f : A -> list B) (l : list A) :
  count (flat_map f l) = fold_left (fun total x => total + count (f x)) l 0.
Proof.
  assert (H : forall acc, fold_left (fun total x => total + count (f x)) l acc =
                          acc + count (flat_map f l)).
  { induction l as [|x rest IH]; intros acc; simpl.
    - unfold count. simpl. lia.
    - rewrite IH, count_app. lia. }
  rewrite H. lia.
Qed.

(** The findings of a product, counted by severity: the three checks of
    the dashboard and of the export, plus the low-severity one. *)
Lemma productDiscrepancies_count p :
  count (productDiscrepancies p) =
  auditor_controller.countStep 0 p +
  count (filter (hasSeverity "low") (productDiscrepancies p)) /\
  count (productDiscrepancies p) =
  count (filter (hasSeverity "high") (productDiscrepancies p)) +
  count (filter (hasSeverity "medium") (productDiscrepancies p)) +
  count (filter (hasSeverity "low") (productDiscrepancies p)).
Proof.
  unfold productDiscrepancies, auditor_controller.countStep.
  assert (Hprice : ((productSchema.price p =? 0) || (productSchema.price p <=? 0))%bool =
                   (productSchema.price p <=? 0)).
  { destruct (Z.eqb_spec (productSchema.price p) 0) as [-> | _]; reflexivity. }
  rewrite Hprice.
  destruct (productSchema.stock p <? 0);
    destruct ((productSchema.stock p =? 0) &&
              negb (productSchema.status p =? "out-of-stock")%string)%bool;
    destruct ((productSchema.stock p >? 0) &&
              (productSchema.stock p <=? productSchema.lowStockThreshold p) &&
              negb (productSchema.status p =? "low-stock")%string &&
              negb (productSchema.status p =? "out-of-stock")%string)%bool;
    destruct (productSchema.price p <=? 0); split; reflexivity.
Qed.

Lemma fold_sum_shift {A : Type} (k : A -> Z) (l : list A) (acc : Z) :
  fold_left (fun total x => total + k x) l acc =
  acc + fold_left (fun total x => total + k x) l 0.
Proof.
  revert acc. induction l as [|x rest IH]; intros acc; simpl; [lia|].
  rewrite IH. rewrite (IH (k x)). lia.
Qed.

Lemma countStep_fold ps acc :
  fold_left auditor_controller.countStep ps acc =
  acc + fold_left (fun total p => total + auditor_controller.countStep 0 p) ps 0.
Proof.
  revert acc. induction ps as [|p rest IH]; intros acc; simpl; [lia|].
  rewrite IH, (fold_sum_shift _ rest (auditor_controller.countStep 0 p)).
  assert (H : auditor_controller.countStep acc p = acc + auditor_controller.countStep 0 p).
  { unfold auditor_controller.countStep.
    destruct (productSchema.stock p <? 0);
      destruct ((productSchema.stock p =? 0) &&
                negb (productSchema.status p =? "out-of-stock")%string)%bool;
      destruct (productSchema.price p <=? 0); lia. }
  rewrite H. lia.
Qed.

Lemma fold_sum_split {A : Type} (f g h : A -> Z) (l : list A) :
  (forall x, f x = g x + h x) ->
  fold_left (fun total x => total + f x) l 0 =
  fold_left (fun total x => total + g x) l 0 + fold_left (fun total x => total + h x) l 0.
Proof.
  intros H. induction l as [|x rest IH]; simpl; [reflexivity|].
  rewrite (fold_sum_shift f), (fold_sum_shift g), (fold_sum_shift h), IH, H. lia.
Qed.

(** X21. The auditor's dashboard counts what the audit finds, less the
    threshold mismatches: its totalDiscrepancies is the number of
    findings of the scan of [createNewAudit] on the same products minus
    the number of its low-severity findings. *)
Theorem dashboard_counts_scan_without_low w :
  path ["data"; "totalDiscrepancies"]
       (json (fst (auditor_controller.getDashboardStats w))) =
  Some (JNum (count (fst (auditProducts (products w))) -
              count (filter (hasSeverity "low") (fst (auditProducts (products w)))))).
Proof.
  unfold auditor_controller.getDashboardStats, try_catch, bind, Product.find, gets, ret.
  cbn [fst json res_status_json path field find String.eqb Ascii.eqb Bool.eqb fst snd].
  do 2 f_equal. rewrite auditProducts_spec. cbn [fst].
  rewrite filter_flat_map, !count_flat_map, countStep_fold.
  rewrite (fold_sum_split (fun p => count (productDiscrepancies p))
             (auditor_controller.countStep 0)
             (fun p => count (filter (hasSeverity "low") (productDiscrepancies p)))).
  - lia.
  - intros p. apply (proj1 (productDiscrepancies_count p)).
Qed.

Lemma productDiscrepancies_at_most_two p : count (productDiscrepancies p) <= 2.
Proof.
  unfold productDiscrepancies.
  destruct (productSchema.stock p <? 0) eqn:Eneg;
    destruct (productSchema.stock p =? 0) eqn:Ezero;
    destruct (productSchema.stock p >? 0) eqn:Epos;
    try (exfalso; lia);
    cbn [andb];
    repeat match goal with
           | |- context [if ?b then _ else _] => destruct b
           end;
    unfold count; cbn; lia.
Qed.

Lemma flat_map_nonempty {A B : Type} (f : A -> list B) (l : list A) :
  flat_map f l = List.concat (map f (filter (fun x => count (f x) >? 0) l)).
Proof.
  induction l as [|x rest IH]; simpl; [reflexivity|].
  destruct (f x) as [|y ys] eqn:E.
  - cbn. exact IH.
  - assert (Hpos : (count (y :: ys) >? 0) = true) by now apply count_positive.
    rewrite Hpos. cbn [map List.concat]. now rewrite E, IH.
Qed.

(** X23. The two arrays of the scan of [createNewAudit] agree: the flat
    list of findings is the concatenation, in order, of the lists of the
    per-product entries; no entry is without a finding; and since the
    three stock checks exclude each other, an entry has at most two
    findings. *)
Theorem audit_results_group_findings allProducts :
  fst (auditProducts allProducts) =
  List.concat (map auditResult.discrepancies (snd (auditProducts allProducts))) /\
  Forall (fun r => 1 <= count (auditResult.discrepancies r) <= 2)
         (snd (auditProducts allProducts)) /\
  count (snd (auditProducts allProducts)) <= count (fst (auditProducts allProducts))
    <= 2 * count (snd (auditProducts allProducts)).
Proof.
  rewrite auditProducts_spec. cbn [fst snd].
  assert (Hall : Forall (fun r => 1 <= count (auditResult.discrepancies r) <= 2)
                   (map resultOf
                      (filter (fun p => count (productDiscrepancies p) >? 0) allProducts))).
  { apply Forall_forall. intros r Hr. apply in_map_iff in Hr as (p & <- & Hp).
    apply filter_In in Hp as [_ Hp]. cbn [auditResult.discrepancies resultOf].
    pose proof (productDiscrepancies_at_most_two p). lia. }
  assert (Hcat : flat_map productDiscrepancies allProducts =
                 List.concat (map auditResult.discrepancies
                           (map resultOf
                              (filter (fun p => count (productDiscrepancies p) >? 0)
                                      allProducts)))).
  { rewrite map_map. cbn [auditResult.discrepancies resultOf].
    apply flat_map_nonempty. }
  split; [exact Hcat|]. split; [exact Hall|].
  rewrite Hcat. clear Hcat.
  induction Hall as [|r rs Hr _ IH]; cbn [map List.concat].
  - unfold count. cbn. lia.
  - rewrite count_app, !count_cons. lia.
Qed.

(** ** Notification Relay: unread counts *)

Lemma count_filter_updateOne {D : Type} (id_of : D -> string) (q : D -> bool)
    id f c d :
  lookupById id_of id c = Some d ->
  count (filter q (updateOne id_of id f c)) =
  count (filter q c) - Z.b2z (q d) + Z.b2z (q (f d)).
Proof.
  unfold lookupById. induction c as [|x rest IH]; simpl; [discriminate|].
  destruct (id_of x =? id)%string.
  - intros [= ->]. cbn [filter].
    destruct (q d), (q (f d)); rewrite ?count_cons; cbn [Z.b2z]; lia.
  - intros H. cbn [filter]. destruct (q x); rewrite ?count_cons, IH by assumption; lia.
Qed.

(** X24. [markAsRead], when it answers 200, lowers a user's unread count
    by one exactly if the notification was among that user's unread ones:
    the recipient's count (and the administrator's) drops for an unread
    notification, every other count stays, and marking a read
    notification again changes no count. *)
Theorem markAsRead_lowers_unread_count env user id n w :
  lookupById notificationSchema._id id (notifications w) = Some n ->
  userId user = "admin-hardcoded" \/ notificationSchema.recipient n = userId user ->
  forall r,
    unreadCount r (notifications (snd (markAsRead env user id w))) =
    unreadCount r (notifications w) - (if unreadQuery r n then 1 else 0).
Proof.
  intros Hfind Hmay r. rewrite (markAsRead_allowed env user id n w Hfind Hmay).
  cbn [snd]. destruct w. cbn [notifications set_notifications] in *.
  unfold unreadCount.
  rewrite (count_filter_updateOne notificationSchema._id (unreadQuery r) id
             (notificationSchema.set_isRead true) _ n Hfind).
  assert (Hread : unreadQuery r (notificationSchema.set_isRead true n) = false).
  { unfold unreadQuery. destruct n. reflexivity. }
  rewrite Hread. destruct (unreadQuery r n); cbn [Z.b2z]; lia.
Qed.

(** Chen reads the one notification of the sample database. *)
Lemma markAsRead_lowers_unread_count_witness :
  unreadCount "66f0c0ffee00000000000012" (notifications Sample.world) = 1 /\
  unreadCount "66f0c0ffee00000000000012"
    (notifications (snd (markAsRead Sample.env Sample.asChen "66f0c0ffee00000000000041" Sample.world)))
  = 1 - 1.
Proof.
  split; [reflexivity|].
  exact (markAsRead_lowers_unread_count Sample.env Sample.asChen "66f0c0ffee00000000000041"
           Sample.note Sample.world eq_refl (or_intror eq_refl)
           "66f0c0ffee00000000000012").
Defined.

Lemma markAllAsRead_run user w :
  markAllAsRead user w =
  (res_status_json 200
     (JObj [("success", JBool true);
            ("message", JStr "All notifications marked as read");
            ("data",
             JObj [("modifiedCount",
                    JNum (count (filter (fun n => unreadQuery (userId user) n &&
                                           negb (Bool.eqb (notificationSchema.isRead n) true))%bool
                                        (notifications w))))])]),
   set_notifications
     (map (fun n => if unreadQuery (userId user) n
                    then notificationSchema.set_isRead true n else n)
          (notifications w)) w).
Proof. reflexivity. Qed.

Lemma unreadQuery_after_markAll uid r n :
  unreadQuery r (if unreadQuery uid n then notificationSchema.set_isRead true n else n) =
  (unreadQuery r n && negb (unreadQuery uid n))%bool.
Proof.
  destruct (unreadQuery uid n) eqn:E.
  - unfold unreadQuery. destruct n. cbn. now rewrite andb_false_r.
  - now rewrite andb_true_r.
Qed.

Lemma filter_map_commute {A B : Type} (q : B -> bool) (f : A -> B) (l : list A) :
  filter q (map f l) = map f (filter (fun x => q (f x)) l).
Proof.
  induction l as [|x rest IH]; simpl; [reflexivity|].
  destruct (q (f x)); simpl; now rewrite IH.
Qed.

Lemma count_map {A B : Type} (f : A -> B) (l : list A) : count (map f l) = count l.
Proof. unfold count. now rewrite length_map. Qed.

Lemma filter_false {A : Type} (q : A -> bool) (l : list A) :
  (forall x, q x = false) -> filter q l = [].
Proof.
  intros H. induction l as [|x rest IH]; simpl; [reflexivity|]. now rewrite H.
Qed.

Lemma count_filter_le {A : Type} (q q' : A -> bool) (l : list A) :
  (forall x, q x = true -> q' x = true) ->
  count (filter q l) <= count (filter q' l).
Proof.
  intros H. induction l as [|x rest IH]; cbn [filter]; [lia|].
  destruct (q x) eqn:E.
  - rewrite (H x E), !count_cons. lia.
  - destruct (q' x); rewrite ?count_cons; lia.
Qed.

(** X25. [markAllAsRead] reports as modifiedCount the caller's unread
    count, after it the caller's unread count is 0 (and [getUnreadCount]
    answers 0), and it changes nothing but read flags: no notification is
    added, removed or reordered, and none becomes unread. *)
Theorem markAllAsRead_clears_unread_count user w :
  path ["data"; "modifiedCount"] (json (fst (markAllAsRead user w))) =
    Some (JNum (unreadCount (userId user) (notifications w))) /\
  unreadCount (userId user) (notifications (snd (markAllAsRead user w))) = 0 /\
  path ["data"; "count"] (json (fst (getUnreadCount user (snd (markAllAsRead user w))))) =
    Some (JNum 0) /\
  map (notificationSchema.set_isRead true) (notifications (snd (markAllAsRead user w))) =
    map (notificationSchema.set_isRead true) (notifications w) /\
  forall r, unreadCount r (notifications (snd (markAllAsRead user w))) <=
            unreadCount r (notifications w).
Proof.
  rewrite markAllAsRead_run. cbn [fst snd].
  destruct w as [ps ts aus us ns k]. cbn [notifications set_notifications].
  assert (Hzero : unreadCount (userId user)
                    (map (fun n => if unreadQuery (userId user) n
                                   then notificationSchema.set_isRead true n else n) ns) = 0).
  { unfold unreadCount. rewrite filter_map_commute, count_map, filter_false; [reflexivity|].
    intros n. rewrite unreadQuery_after_markAll. apply andb_negb_r. }
  split; [|split; [exact Hzero|split; [|split]]].
  - cbn. do 2 f_equal. unfold unreadCount. f_equal. apply filter_ext. intros n.
    unfold unreadQuery. destruct (notificationSchema.isRead n); cbn;
      [reflexivity | now rewrite andb_true_r].
  - unfold getUnreadCount, try_catch, bind, notificationService_counts.getUnreadCount,
      Notification_countDocuments, gets, ret.
    cbn [fst snd notifications set_notifications json res_status_json].
    fold (unreadCount (userId user)
            (map (fun n => if unreadQuery (userId user) n
                           then notificationSchema.set_isRead true n else n) ns)).
    rewrite Hzero. reflexivity.
  - rewrite map_map. apply map_ext. intros n.
    destruct (unreadQuery (userId user) n); destruct n; reflexivity.
  - intros r. unfold unreadCount. rewrite filter_map_commute, count_map.
    apply count_filter_le. intros n. rewrite unreadQuery_after_markAll.
    now intros [H _]%andb_prop.
Qed.

(** X26. For a caller other than the hardcoded administrator,
    [markAllAsRead] leaves the notifications of every other recipient as
    they are. *)
Theorem markAllAsRead_only_own user w :
  userId user <> "admin-hardcoded" ->
  filter (fun n => negb (notificationSchema.recipient n =? userId user)%string)
         (notifications (snd (markAllAsRead user w))) =
  filter (fun n => negb (notificationSchema.recipient n =? userId user)%string)
         (notifications w).
Proof.
  intros Hne. rewrite markAllAsRead_run. cbn [snd].
  destruct w as [ps ts aus us ns k]. cbn [notifications set_notifications].
  apply String.eqb_neq in Hne.
  set (g := fun n => if unreadQuery (userId user) n
                     then notificationSchema.set_isRead true n else n).
  assert (Hrec : forall n, notificationSchema.recipient (g n) =
                           notificationSchema.recipient n).
  { intros n. unfold g. destruct (unreadQuery (userId user) n); destruct n; reflexivity. }
  assert (Hsame : forall n,
             (notificationSchema.recipient n =? userId user)%string = false -> g n = n).
  { intros n E. unfold g, unreadQuery, recipientQuery. rewrite Hne, E.
    now rewrite andb_false_r. }
  induction ns as [|n rest IH]; cbn [map filter]; [reflexivity|].
  rewrite Hrec, IH.
  destruct (notificationSchema.recipient n =? userId user)%string eqn:E; cbn [negb];
    [reflexivity|]. now rewrite Hsame.
Qed.

(** Maya marks all as read: the notification for Chen stays unread. *)
Lemma markAllAsRead_only_own_witness :
  filter (fun n => negb (notificationSchema.recipient n =? userId Sample.asMaya)%string)
         (notifications (snd (markAllAsRead Sample.asMaya Sample.world))) =
  [Sample.note].
Proof.
  rewrite (markAllAsRead_only_own Sample.asMaya Sample.world); [reflexivity|discriminate].
Defined.

Lemma unreadCount_app r ns ns' :
  unreadCount r (ns ++ ns') = unreadCount r ns + unreadCount r ns'.
Proof. unfold unreadCount. now rewrite filter_app, count_app. Qed.

Lemma unreadCount_fanOut env message type sender product metadata n recipients r :
  r <> "admin-hardcoded" ->
  unreadCount r (fanOut env message type sender product metadata n recipients) =
  count (filter (fun s => (s =? r)%string) recipients).
Proof.
  intros Hne. apply String.eqb_neq in Hne. unfold unreadCount.
  revert n. induction recipients as [|s rest IH]; intros n; cbn [fanOut filter];
    [reflexivity|].
  unfold unreadQuery at 1, recipientQuery.
  cbn [notificationSchema.isRead notificationSchema.recipient negb andb]. rewrite Hne.
  destruct (s =? r)%string; rewrite ?count_cons, IH; reflexivity.
Qed.

Lemma unreadCount_fanOut_admin env message type sender product metadata n recipients :
  unreadCount "admin-hardcoded"
    (fanOut env message type sender product metadata n recipients) = count recipients.
Proof.
  unfold unreadCount.
  revert n. induction recipients as [|s rest IH]; intros n; cbn [fanOut filter];
    [reflexivity|].
  unfold unreadQuery at 1, recipientQuery.
  change ("admin-hardcoded" =? "admin-hardcoded")%string with true.
  cbn [notificationSchema.isRead negb andb].
  rewrite !count_cons, IH. reflexivity.
Qed.

Lemma count_absent (s : string) (l : list string) :
  ~ In s l -> count (filter (fun x => (x =? s)%string) l) = 0.
Proof.
  induction l as [|x rest IH]; cbn [filter]; intros Hnot; [reflexivity|].
  destruct (String.eqb_spec x s) as [-> | _].
  - exfalso. apply Hnot. now left.
  - apply IH. intros Hin. apply Hnot. now right.
Qed.

Lemma count_own_id (g : userSchema.doc -> bool) (us : list userSchema.doc) m :
  NoDup (map userSchema._id us) -> In m us ->
  count (filter (fun s => (s =? userSchema._id m)%string)
                (map userSchema._id (filter g us))) =
  if g m then 1 else 0.
Proof.
  induction us as [|u rest IH]; cbn [map]; intros Hnd Hin; [destruct Hin|].
  inversion Hnd as [|? ? Hnotin Hrest]; subst.
  assert (Hsub : forall s, In s (map userSchema._id (filter g rest)) ->
                           In s (map userSchema._id rest)).
  { intros s Hs. apply in_map_iff in Hs as (x & <- & Hx).
    apply filter_In in Hx as [Hx _]. now apply in_map. }
  destruct Hin as [-> | Hin].
  - cbn [filter]. destruct (g m); cbn [map filter].
    + rewrite String.eqb_refl, count_cons, count_absent; [reflexivity|].
      intros Hs. apply Hnotin, Hsub, Hs.
    + apply count_absent. intros Hs. apply Hnotin, Hsub, Hs.
  - assert (Hdiff : (userSchema._id u =? userSchema._id m)%string = false).
    { apply String.eqb_neq. intros E. apply Hnotin. rewrite E. now apply in_map. }
    cbn [filter]. destruct (g u); cbn [map filter]; rewrite ?Hdiff; now apply IH.
Qed.

(** X27. With distinct user ids, a successful [requestReorder] raises
    the unread count of every manager by exactly one and leaves that of
    every other user as it was; the hardcoded administrator's count rises
    by the number of managers. *)
Theorem requestReorder_raises_unread_count env user pid p w m :
  pid <> "" -> lookupById productSchema._id pid (products w) = Some p ->
  NoDup (map userSchema._id (users w)) ->
  In m (users w) -> userSchema._id m <> "admin-hardcoded" ->
  unreadCount (userSchema._id m)
    (notifications (snd (requestReorder env user (Some pid) w))) =
  unreadCount (userSchema._id m) (notifications w) + (if isManager m then 1 else 0) /\
  unreadCount "admin-hardcoded"
    (notifications (snd (requestReorder env user (Some pid) w))) =
  unreadCount "admin-hardcoded" (notifications w) + count (filter isManager (users w)).
Proof.
  intros Hpid Hfind Hnd Hin Hne.
  rewrite (requestReorder_found env user pid p w Hpid Hfind). cbv zeta. cbn [snd].
  destruct w as [ps ts aus us ns k].
  cbn [notifications set_notifications set_objectIds users objectIds] in *.
  rewrite !unreadCount_app. split; f_equal.
  - rewrite unreadCount_fanOut by assumption. now apply count_own_id.
  - rewrite unreadCount_fanOut_admin. apply count_map.
Qed.

(** A reorder request on the sample database: the manager Maya gets one
    more unread notification, the clerk Chen none. *)
Lemma requestReorder_raises_unread_count_witness :
  unreadCount "66f0c0ffee00000000000011"
    (notifications (snd (requestReorder Sample.env Sample.asChen
                           (Some "66f0c0ffee00000000000001") Sample.world))) = 0 + 1.
Proof.
  assert (Hnd : NoDup (map userSchema._id (users Sample.world))).
  { cbn. repeat constructor; cbn; intuition discriminate. }
  assert (Hpid : "66f0c0ffee00000000000001" <> "") by discriminate.
  assert (Hadm : userSchema._id Sample.maya <> "admin-hardcoded") by discriminate.
  exact (proj1 (requestReorder_raises_unread_count Sample.env Sample.asChen
                  "66f0c0ffee00000000000001" Sample.widget Sample.world Sample.maya
                  Hpid eq_refl Hnd (or_introl eq_refl) Hadm)).
Defined.

(** ** Audits: the report list *)

Section SortedFacts.
Context {A : Type} (leb : A -> A -> bool).
Hypothesis leb_total : forall a b, leb a b = true \/ leb b a = true.
Hypothesis leb_trans : forall a b c, leb a b = true -> leb b c = true -> leb a c = true.

Lemma insert_sorted_In x y l : In y (insert_sorted leb x l) -> y = x \/ In y l.
Proof.
  intros H. apply (Permutation_in y (Permutation_sym (insert_sorted_perm leb x l))) in H.
  destruct H as [-> | H]; auto.
Qed.

Lemma insert_sorted_sortedBy x l : sortedBy leb l -> sortedBy leb (insert_sorted leb x l).
Proof.
  induction l as [|y rest IH]; cbn [insert_sorted sortedBy].
  - intros _. split; [intros y []|exact I].
  - intros [Hhead Hrest]. destruct (leb x y) eqn:E; cbn [sortedBy].
    + split; [|split; assumption].
      intros z [<- | Hz]; [assumption|]. apply (leb_trans x y z E). now apply Hhead.
    + split; [|now apply IH].
      intros z Hz. apply insert_sorted_In in Hz as [-> | Hz]; [|now apply Hhead].
      destruct (leb_total x y) as [H | H]; [congruence|assumption].
Qed.

Lemma sortBy_sortedBy l : sortedBy leb (sortBy leb l).
Proof.
  induction l as [|x rest IH]; cbn; [exact I|]. now apply insert_sorted_sortedBy.
Qed.

Lemma sortedBy_app l1 l2 :
  sortedBy leb (l1 ++ l2) ->
  sortedBy leb l1 /\ forall a b, In a l1 -> In b l2 -> leb a b = true.
Proof.
  induction l1 as [|x rest IH]; cbn [app sortedBy].
  - intros _. split; [exact I|]. intros a b [].
  - intros [Hhead Hrest]. destruct (IH Hrest) as [Hs Hcross]. split; [split|].
    + intros y Hy. apply Hhead, in_or_app. now left.
    + assumption.
    + intros a b [<- | Ha] Hb; [|now apply Hcross].
      apply Hhead, in_or_app. now right.
Qed.

End SortedFacts.

(** X28. [getAuditReports] lists the most recent audits: the reports are
    those of min(50, number of audits) stored audits, in order of
    non-increasing date, the count field is their number, and no audit
    left out is more recent than a listed one. Nothing is said about the
    order among audits of the same date. *)
Theorem getAuditReports_most_recent w :
  exists listed rest,
    Permutation (audits w) (listed ++ rest) /\
    json (fst (auditor_controller.getAuditReports w)) =
      JObj [("success", JBool true);
            ("count", JNum (count listed));
            ("data", JArr (map auditor_controller.auditReport listed))] /\
    count listed = Z.min 50 (count (audits w)) /\
    sortedBy auditor_controller.latest_first listed /\
    forall a b, In a listed -> In b rest -> auditSchema.date b <= auditSchema.date a.
Proof.
  set (s := sortBy auditor_controller.latest_first (audits w)).
  assert (Hperm : Permutation (audits w) s) by apply sortBy_perm.
  assert (Hsorted : sortedBy auditor_controller.latest_first (firstn 50 s ++ skipn 50 s)).
  { rewrite firstn_skipn. apply sortBy_sortedBy.
    - intros a b. unfold auditor_controller.latest_first. lia.
    - intros a b c. unfold auditor_controller.latest_first. lia. }
  apply sortedBy_app in Hsorted as [Hfirst Hcross].
  exists (firstn 50 s), (skipn 50 s). repeat split.
  - now rewrite firstn_skipn.
  - unfold auditor_controller.getAuditReports, try_catch, bind, gets, ret.
    cbn [fst json res_status_json]. fold s. now rewrite count_map.
  - unfold count. rewrite length_firstn, (Permutation_length Hperm). lia.
  - exact Hfirst.
  - intros a b Ha Hb. specialize (Hcross a b Ha Hb).
    unfold auditor_controller.latest_first in Hcross. lia.
Qed.

